(** * Yamanote station finder: preference aggregation and recommendation scoring

    A shallow embedding of [backend/src/services/DiagnosticService.ts],
    [backend/src/services/RecommendationService.ts] and of the types of
    [backend/src/types/index.ts], followed by the properties of the
    specification that concern them.

    Two models of the numbers stand side by side.
    - The exact model ([RecommendationService], [DiagnosticService] and the
      routes built on them): a JavaScript [number] is a rational ([Q]);
      rounding error, overflow, [NaN] and the infinities of IEEE doubles are
      outside it, numbers computed along different paths are compared with
      [==], and an object literal used as a lookup table is the finite table
      of the keys written in it.  The properties of order, ranking, sessions
      and caching are stated on it.
    - The model on doubles ([Double], [RecommendationService64],
      [DiagnosticService64], [RecommendationRoutes64]): a [number] is an
      IEEE 754 binary64 value ([SpecFloat]), every operation rounding to
      nearest, ties to even, with NaN, the infinities and the two zeros.  A
      number written in JSON, in a request body or in a catalog, is the
      decimal written there, and the program reads the double nearest to it
      ([Double.double]).  An object literal used as a lookup table also
      answers for the members it inherits from [Object.prototype], each by
      what a call without receiver and without argument does.  A thrown
      [TypeError] is a completion of the call.  What the program computes
      on given inputs is evaluated in this model.

    Further conventions.
    - A [Map] that is only read with [get]/[has] and written with
      [set]/[delete] is a [gmap]; the tag tally, whose iteration order
      matters, is an association list in insertion order.
    - [Array.prototype.sort] is a stable sort driven by the comparator.
    - The profile objects cached by the diagnostic service live in a heap and
      are handled through their addresses, so that identity of references can
      be stated.
    - A thrown [Error] is a value of [Error]; the state reached when the
      exception leaves the method is returned with it.

    The station service, the three routers ([routes/diagnostic.ts],
    [routes/stations.ts], [routes/recommendations.ts]) and the reducers of
    the frontend store ([store/slices/diagnosticSlice.ts]) follow, with these
    further conventions.
    - A handler is a function from the request and the store of the
      diagnostic service to the response and the store; [uuidv4()] and
      [new Date()] are arguments.  The fields of a request body are strings
      or absent, and a profile in a body is a [UserProfile]: bodies of other
      shapes are outside the model.
    - [getStationsByName] and the name filter of GET /api/stations lower-case
      Unicode strings and are not modelled; nor are the validators, whose
      arguments are untyped, nor POST /api/recommendations/scores, which
      sorts scores that can be NaN. *)

From Stdlib Require Import QArith Qround Qminmax Lqa ZArith List Lia.
From Stdlib Require Import Permutation Sorted.
From Stdlib Require Import Floats.SpecFloat.
From stdpp Require Import gmap strings list.

Open Scope Q_scope.

(** ** Numbers *)

Abbreviation number := Q.

(** [a > b], [a >= b] and [a <= b] as the tests of the source. *)
Definition gtb (a b : number) : bool := if Qlt_le_dec b a then true else false.
Definition geb (a b : number) : bool := Qle_bool b a.
Definition leb (a b : number) : bool := Qle_bool a b.

Definition Math_min (a b : number) : number := Qmin a b.
Definition Math_max (a b : number) : number := Qmax a b.

(** [Math.round]: the nearest integer, halves going up. *)
Definition Math_round (x : number) : number := inject_Z (Qfloor (x + 0.5)).

(** [array.length] as a number. *)
Definition length_number {A} (l : list A) : number := inject_Z (Z.of_nat (length l)).

(** [values.reduce((sum, val) => sum + val, 0)] *)
Definition sum_numbers (values : list number) : number :=
  fold_left (fun sum val => sum + val) values 0.

(** ** Types (types/index.ts) *)

Inductive QuestionCategory : Set :=
  | housing | transport | commercial | culture | price | priority.

#[global] Instance QuestionCategory_eq_dec : EqDecision QuestionCategory.
Proof. solve_decision. Defined.

Record QuestionOption : Type := {
  opt_id : string;
  opt_text : string;
  opt_value : number;
  opt_tags : list string
}.

Record Question : Type := {
  q_id : string;
  q_category : QuestionCategory;
  q_text : string;
  q_options : list QuestionOption;
  q_weight : number
}.

Record HousingFeatures : Type := {
  rentLevel : number; familyFriendly : number; quietness : number
}.
Record TransportFeatures : Type := {
  accessibility : number; connections : list string; walkability : number
}.
Record CommercialFeatures : Type := {
  shopping : number; restaurants : number; convenience : number
}.
Record CultureFeatures : Type := {
  entertainment : number; history : number; nightlife : number
}.
Record PriceFeatures : Type := {
  costOfLiving : number; diningCost : number
}.

Record StationFeatures : Type := {
  f_housing : HousingFeatures;
  f_transport : TransportFeatures;
  f_commercial : CommercialFeatures;
  f_culture : CultureFeatures;
  f_price : PriceFeatures
}.

Record Location : Type := { latitude : number; longitude : number }.

Record RentPrices : Type := {
  oneK : number; oneLDK : number; twoLDK : number; threeLDK : number
}.

Record Station : Type := {
  st_id : string;
  st_name : string;
  st_nameEn : string;
  st_location : Location;
  st_features : StationFeatures;
  st_description : string;
  st_rentPrices : option RentPrices
}.

(** The shape shared by [preferences] and [categoryWeights]: one number for
    each of the five substantive categories. *)
Record Categories : Type := {
  c_housing : number;
  c_transport : number;
  c_commercial : number;
  c_culture : number;
  c_price : number
}.

(** [timestamp] is a [Date]: milliseconds since the epoch. *)
Record Answer : Type := {
  a_questionId : string;
  a_selectedOption : string;
  a_timestamp : Z
}.

(** [categoryWeights] is declared mandatory, but the scorer guards against its
    absence ([userProfile.categoryWeights || {...}]) and the validator of
    profiles does not ask for it: it is optional here. *)
Record UserProfile : Type := {
  preferences : Categories;
  priorities : list string;
  categoryWeights : option Categories;
  answers : list Answer
}.

Record RecommendationExplanation : Type := {
  matchingFeatures : list string;
  strengths : list string;
  considerations : list string
}.

Record Recommendation : Type := {
  station : Station;
  score : number;
  rank : nat;
  explanation : RecommendationExplanation
}.

(** ** Arrays *)

(** [Array.prototype.sort(compare)]: a stable insertion sort.  [x] is put
    behind [y] only when [compare(x, y) > 0], so that elements the
    comparator does not separate keep their order. *)
Fixpoint sort_insert {A} (compare : A -> A -> number) (x : A) (l : list A) : list A :=
  match l with
  | [] => [x]
  | y :: l' => if gtb (compare x y) 0 then y :: sort_insert compare x l' else x :: l
  end.

Definition Array_sort {A} (compare : A -> A -> number) (l : list A) : list A :=
  foldr (sort_insert compare) [] l.

(** The comparator [(a, b) => b.score - a.score] (and [(a, b) => b[1] - a[1]])
    on pairs that carry their score second. *)
Definition byScore {A} (a b : A * number) : number := snd b - snd a.

(** [table[key]] for an object literal given by its entries. *)
Fixpoint lookup_key {V} (key : string) (table : list (string * V)) : option V :=
  match table with
  | [] => None
  | (k, v) :: table' => if decide (k = key) then Some v else lookup_key key table'
  end.

(** ** RecommendationService *)

Module RecommendationService.

Definition default_categoryWeights : Categories :=
  {| c_housing := 1.0; c_transport := 1.0; c_commercial := 1.0;
     c_culture := 1.0; c_price := 1.0 |}.

(** calculateCategoryScore *)
Definition calculateCategoryScore (userPreference : number) (featureValues : list number)
  : number :=
  let avgFeatureValue := sum_numbers featureValues / length_number featureValues in
  avgFeatureValue * (userPreference / 5).

(** The tag to feature table of calculatePriorityBonus. *)
Definition priorityMappings (features : StationFeatures) : list (string * number) :=
  [ ("family-friendly", familyFriendly (f_housing features) * 2);
    ("quiet", quietness (f_housing features) * 2);
    ("affordable", (6 - costOfLiving (f_price features)) * 2);
    ("shopping", shopping (f_commercial features) * 2);
    ("nightlife", nightlife (f_culture features) * 2);
    ("entertainment", entertainment (f_culture features) * 2);
    ("accessible", accessibility (f_transport features) * 2);
    ("walkable", walkability (f_transport features) * 2);
    ("restaurants", restaurants (f_commercial features) * 2);
    ("history", history (f_culture features) * 2);
    ("convenient", convenience (f_commercial features) * 2) ].

(** calculatePriorityBonus *)
Definition calculatePriorityBonus (priorities : list string) (station : Station) : number :=
  let features := st_features station in
  let bonus :=
    fold_left
      (fun bonus priority =>
         match lookup_key priority (priorityMappings features) with
         | Some bonusCalculator => bonus + bonusCalculator
         | None => bonus
         end)
      (take 3 priorities) 0 in
  Math_min 20 bonus.

(** One step of the weighted sum: [totalScore += s * weight; totalWeight += weight]. *)
Definition accumulate (totals : number * number) (categoryScore weight : number)
  : number * number :=
  (fst totals + categoryScore * weight, snd totals + weight).

(** The weighted sums [(totalScore, totalWeight)] of calculateStationScore. *)
Definition stationTotals (preferences categoryWeights : Categories)
    (features : StationFeatures) : number * number :=
  let totals := (0, 0) in
  let totals :=
    if gtb (c_housing preferences) 0 then
      let housingScore :=
        calculateCategoryScore (c_housing preferences)
          [ familyFriendly (f_housing features); quietness (f_housing features) ] in
      let weight := c_housing preferences * c_housing categoryWeights in
      accumulate totals housingScore weight
    else totals in
  let totals :=
    if gtb (c_transport preferences) 0 then
      let transportScore :=
        calculateCategoryScore (c_transport preferences)
          [ accessibility (f_transport features);
            Math_min 5 (length_number (connections (f_transport features))) ] in
      let weight := c_transport preferences * c_transport categoryWeights in
      accumulate totals transportScore weight
    else totals in
  let totals :=
    if gtb (c_commercial preferences) 0 then
      let commercialScore :=
        calculateCategoryScore (c_commercial preferences)
          [ shopping (f_commercial features); restaurants (f_commercial features);
            convenience (f_commercial features) ] in
      let weight := c_commercial preferences * c_commercial categoryWeights in
      accumulate totals commercialScore weight
    else totals in
  let totals :=
    if gtb (c_culture preferences) 0 then
      let cultureScore :=
        calculateCategoryScore (c_culture preferences)
          [ entertainment (f_culture features); history (f_culture features);
            nightlife (f_culture features) ] in
      let weight := c_culture preferences * c_culture categoryWeights in
      accumulate totals cultureScore weight
    else totals in
  if gtb (c_price preferences) 0 then
    let combinedPriceWeight :=
      Math_max (c_price categoryWeights) (c_housing categoryWeights) in
    let priceBoostMultiplier := if geb (c_price categoryWeights) 3.0 then 1.5 else 1.0 in
    let priceScore :=
      calculateCategoryScore (c_price preferences)
        [ 6 - rentLevel (f_housing features); 6 - costOfLiving (f_price features);
          6 - diningCost (f_price features) ] in
    let weight := c_price preferences * combinedPriceWeight * priceBoostMultiplier in
    accumulate totals priceScore weight
  else totals.

Definition baseScore (userProfile : UserProfile) (station : Station) : number :=
  let categoryWeights := default default_categoryWeights (categoryWeights userProfile) in
  let '(totalScore, totalWeight) :=
    stationTotals (preferences userProfile) categoryWeights (st_features station) in
  if gtb totalWeight 0 then (totalScore / totalWeight) * 20 else 0.

(** calculateStationScore *)
Definition calculateStationScore (userProfile : UserProfile) (station : Station) : number :=
  let priorityBonus := calculatePriorityBonus (priorities userProfile) station in
  Math_min 100 (Math_max 0 (baseScore userProfile station + priorityBonus)).


(** *** Explanations *)

Definition emptyExplanation : RecommendationExplanation :=
  {| matchingFeatures := []; strengths := []; considerations := [] |}.

(** [matchingFeatures.push(feature); strengths.push(strength)] *)
Definition pushMatch (feature strength : string) (e : RecommendationExplanation)
  : RecommendationExplanation :=
  {| matchingFeatures := matchingFeatures e ++ [feature];
     strengths := strengths e ++ [strength];
     considerations := considerations e |}.

Definition pushStrength (strength : string) (e : RecommendationExplanation)
  : RecommendationExplanation :=
  {| matchingFeatures := matchingFeatures e;
     strengths := strengths e ++ [strength];
     considerations := considerations e |}.

Definition pushConsideration (consideration : string) (e : RecommendationExplanation)
  : RecommendationExplanation :=
  {| matchingFeatures := matchingFeatures e;
     strengths := strengths e;
     considerations := considerations e ++ [consideration] |}.

(** [if (test) { then_ }] on the explanation built so far. *)
Definition when (test : bool) (then_ : RecommendationExplanation -> RecommendationExplanation)
    (e : RecommendationExplanation) : RecommendationExplanation :=
  if test then then_ e else e.

Definition housingPart (name : string) (features : StationFeatures)
    (e : RecommendationExplanation) : RecommendationExplanation :=
  let e := when (geb (familyFriendly (f_housing features)) 4)
    (pushMatch "family-friendly environment"
       (name +:+ "は家族連れに優しい環境が整っています")) e in
  let e := when (geb (quietness (f_housing features)) 4)
    (pushMatch "quiet residential area"
       (name +:+ "は静かな住宅地として知られています")) e in
  if leb (rentLevel (f_housing features)) 2 then
    pushMatch "affordable housing"
      (name +:+ "周辺は比較的手頃な家賃で住むことができます") e
  else if geb (rentLevel (f_housing features)) 4 then
    pushConsideration (name +:+ "周辺の家賃は比較的高めです") e
  else e.

Definition transportPart (name : string) (features : StationFeatures)
    (e : RecommendationExplanation) : RecommendationExplanation :=
  let e := when (geb (accessibility (f_transport features)) 4)
    (pushMatch "excellent accessibility"
       (name +:+ "は交通アクセスが非常に良好です")) e in
  let e := when (geb (walkability (f_transport features)) 4)
    (pushMatch "walkable area"
       (name +:+ "周辺は徒歩での移動がしやすい環境です")) e in
  when (geb (length_number (connections (f_transport features))) 3)
    (pushMatch "multiple train lines"
       (name +:+ "は複数の路線が利用できて便利です")) e.

Definition commercialPart (name : string) (features : StationFeatures)
    (e : RecommendationExplanation) : RecommendationExplanation :=
  let e := when (geb (shopping (f_commercial features)) 4)
    (pushMatch "excellent shopping"
       (name +:+ "周辺にはショッピング施設が充実しています")) e in
  let e := when (geb (restaurants (f_commercial features)) 4)
    (pushMatch "diverse dining options"
       (name +:+ "には多様な飲食店が揃っています")) e in
  when (geb (convenience (f_commercial features)) 4)
    (pushMatch "convenient daily shopping"
       (name +:+ "は日常の買い物に便利な立地です")) e.

Definition culturePart (name : string) (features : StationFeatures)
    (e : RecommendationExplanation) : RecommendationExplanation :=
  let e := when (geb (entertainment (f_culture features)) 4)
    (pushMatch "rich entertainment"
       (name +:+ "周辺にはエンターテイメント施設が豊富です")) e in
  let e := when (geb (history (f_culture features)) 4)
    (pushMatch "historical significance"
       (name +:+ "は歴史的な魅力のある地域です")) e in
  when (geb (nightlife (f_culture features)) 4)
    (pushMatch "vibrant nightlife"
       (name +:+ "は活気のあるナイトライフが楽しめます")) e.

Definition pricePart (name : string) (features : StationFeatures)
    (e : RecommendationExplanation) : RecommendationExplanation :=
  let e := when (leb (costOfLiving (f_price features)) 2)
    (pushMatch "affordable living costs"
       (name +:+ "は生活コストが比較的抑えられます")) e in
  when (leb (diningCost (f_price features)) 2)
    (pushMatch "affordable dining"
       (name +:+ "周辺では手頃な価格で食事を楽しめます")) e.

(** The [switch (priority)] of the loop over the first three priorities. *)
Definition priorityPart (name : string) (features : StationFeatures) (priority : string)
    (e : RecommendationExplanation) : RecommendationExplanation :=
  if decide (priority = "family-friendly") then
    when (geb (familyFriendly (f_housing features)) 4)
      (pushStrength ("あなたが重視する「家族向け」の環境が" +:+ name +:+ "には整っています")) e
  else if decide (priority = "quiet") then
    when (geb (quietness (f_housing features)) 4)
      (pushStrength ("あなたが求める「静かな環境」が" +:+ name +:+ "で見つかります")) e
  else if decide (priority = "affordable") then
    when (leb (costOfLiving (f_price features)) 2)
      (pushStrength
         ("あなたが重視する「手頃な価格」の条件を" +:+ name +:+ "が満たしています")) e
  else if decide (priority = "shopping") then
    when (geb (shopping (f_commercial features)) 4)
      (pushStrength
         ("あなたが重視する「ショッピング」環境が" +:+ name +:+ "には充実しています")) e
  else if decide (priority = "nightlife") then
    when (geb (nightlife (f_culture features)) 4)
      (pushStrength ("あなたが求める「ナイトライフ」が" +:+ name +:+ "で楽しめます")) e
  else e.

(** explainRecommendation *)
Definition explainRecommendation (station : Station) (userProfile : UserProfile)
  : RecommendationExplanation :=
  let features := st_features station in
  let preferences := preferences userProfile in
  let name := st_name station in
  let e := emptyExplanation in
  let e := when (gtb (c_housing preferences) 3) (housingPart name features) e in
  let e := when (gtb (c_transport preferences) 3) (transportPart name features) e in
  let e := when (gtb (c_commercial preferences) 3) (commercialPart name features) e in
  let e := when (gtb (c_culture preferences) 3) (culturePart name features) e in
  let e := when (gtb (c_price preferences) 3) (pricePart name features) e in
  let e :=
    fold_left (fun e priority => priorityPart name features priority e)
      (take 3 (priorities userProfile)) e in
  when (bool_decide (length (matchingFeatures e) = 0%nat))
    (pushConsideration (name +:+ "はバランスの取れた地域として推薦されました")) e.

(** *** Ranking *)

Section Ranking.

(** The station catalog held by the station service ([stationsData]). *)
Variable stations : list Station.

(** StationService.getAllStations: a copy of the catalog. *)
Definition getAllStations : list Station := stations.

(** calculateScores *)
Definition calculateScores (userProfile : UserProfile) : gmap string number :=
  fold_left
    (fun scores station =>
       let score := calculateStationScore userProfile station in
       <[st_id station := score]> scores)
    getAllStations ∅.

(** The station-score pairs, sorted by [(a, b) => b.score - a.score]. *)
Definition stationScores (userProfile : UserProfile) : list (Station * number) :=
  let scores := calculateScores userProfile in
  Array_sort byScore
    (map (fun station => (station, default 0 (scores !! st_id station))) getAllStations).

(** [for (let i = 0; i < bound; i++) { out.push(entry(i, items[i])) }]; the
    callers keep [bound] within the length of [items]. *)
Definition pushEach {A B} (bound : nat) (items : list A) (entry : nat -> A -> B) : list B :=
  fold_left
    (fun out i =>
       match items !! i with
       | Some item => out ++ [entry i item]
       | None => out
       end)
    (seq 0 bound) [].

(** [Math.round(score * 100) / 100] *)
Definition round2 (score : number) : number := Math_round (score * 100) / 100.

(** generateRecommendations *)
Definition generateRecommendations (userProfile : UserProfile) : list Recommendation :=
  let stationScores := stationScores userProfile in
  pushEach (Nat.min 3 (length stationScores)) stationScores
    (fun i '(station, score) =>
       let explanation := explainRecommendation station userProfile in
       {| station := station; score := round2 score; rank := i + 1;
          explanation := explanation |}).

(** generateFullRanking *)
Definition generateFullRanking (userProfile : UserProfile) : list Recommendation :=
  let stationScores := stationScores userProfile in
  pushEach (length stationScores) stationScores
    (fun i '(station, score) =>
       {| station := station; score := round2 score; rank := i + 1;
          explanation :=
            {| matchingFeatures := []; strengths := []; considerations := [] |} |}).

End Ranking.

End RecommendationService.

(** ** DiagnosticService *)

(** [s.includes(sub)] *)
Fixpoint includes (s sub : string) : bool :=
  String.prefix sub s ||
  match s with
  | EmptyString => false
  | String _ s' => includes s' sub
  end.

(** A [Map<string, number>] whose entries are later enumerated: the entries in
    insertion order; [set] on a present key keeps its place. *)
Fixpoint Map_set (key : string) (value : number) (m : list (string * number))
  : list (string * number) :=
  match m with
  | [] => [(key, value)]
  | (k, v) :: m' =>
      if decide (k = key) then (k, value) :: m' else (k, v) :: Map_set key value m'
  end.

Module DiagnosticService.

(** The three [throw new Error(...)] of the service. *)
Inductive Error : Type :=
  | QuestionNotFound (questionId : string)
  | OptionNotFound (selectedOptionId questionId : string)
  | SessionNotFound (sessionId : string).

Definition message (e : Error) : string :=
  match e with
  | QuestionNotFound questionId => "Question with id " +:+ questionId +:+ " not found"
  | OptionNotFound selectedOptionId questionId =>
      "Option with id " +:+ selectedOptionId +:+ " not found for question " +:+ questionId
  | SessionNotFound sessionId => "Session " +:+ sessionId +:+ " not found"
  end.

Inductive result (A : Type) : Type :=
  | Ok (value : A)
  | Throw (error : Error).
Arguments Ok {A} value.
Arguments Throw {A} error.

(** The address of a profile object. *)
Definition ref : Type := nat.

(** A session record [{ answers, profile? }]. *)
Record Session : Type := {
  s_answers : list Answer;
  s_profile : option ref
}.

(** The mutable part of the service: the session map and the profile objects
    created so far (a reference is an index into [objects]). *)
Record State : Type := {
  userSessions : gmap string Session;
  objects : list UserProfile
}.

(** The state set up by the constructor. *)
Definition initial : State := {| userSessions := ∅; objects := [] |}.

Definition deref (σ : State) (r : ref) : option UserProfile := objects σ !! r.

(** [categories[category]], [categories[category] = v] and
    [categories[category] += x] for a substantive category; the source never
    indexes with [priority]. *)
Definition get_at (category : QuestionCategory) (c : Categories) : number :=
  match category with
  | housing => c_housing c
  | transport => c_transport c
  | commercial => c_commercial c
  | culture => c_culture c
  | price => c_price c
  | priority => 0
  end.

Definition set_at (category : QuestionCategory) (v : number) (c : Categories) : Categories :=
  match category with
  | housing =>
      {| c_housing := v; c_transport := c_transport c; c_commercial := c_commercial c;
         c_culture := c_culture c; c_price := c_price c |}
  | transport =>
      {| c_housing := c_housing c; c_transport := v; c_commercial := c_commercial c;
         c_culture := c_culture c; c_price := c_price c |}
  | commercial =>
      {| c_housing := c_housing c; c_transport := c_transport c; c_commercial := v;
         c_culture := c_culture c; c_price := c_price c |}
  | culture =>
      {| c_housing := c_housing c; c_transport := c_transport c;
         c_commercial := c_commercial c; c_culture := v; c_price := c_price c |}
  | price =>
      {| c_housing := c_housing c; c_transport := c_transport c;
         c_commercial := c_commercial c; c_culture := c_culture c; c_price := v |}
  | priority => c
  end.

Definition add_at (category : QuestionCategory) (x : number) (c : Categories) : Categories :=
  set_at category (get_at category c + x) c.

(** The object literal with the same number for the five categories. *)
Definition all (v : number) : Categories :=
  {| c_housing := v; c_transport := v; c_commercial := v; c_culture := v; c_price := v |}.

Section Service.

(** The question catalog ([questionsData]). *)
Variable questions : list Question.

Definition getQuestions : list Question := questions.

Definition getQuestionsByCategory (category : QuestionCategory) : list Question :=
  filter (fun q => q_category q = category) questions.

(** [this.questions.find(q => q.id === questionId)] *)
Definition findQuestion (questionId : string) : option Question :=
  List.find (fun q => bool_decide (q_id q = questionId)) questions.

(** [question.options.find(opt => opt.id === optionId)] *)
Definition findOption (question : Question) (optionId : string) : option QuestionOption :=
  List.find (fun opt => bool_decide (opt_id opt = optionId)) (q_options question).

(** The question and option an answer contributes with: none when the
    question is unknown or a priority question, or the option is unknown
    (the two [continue] of the loops over the answers). *)
Definition substantive (answer : Answer) : option (Question * QuestionOption) :=
  match findQuestion (a_questionId answer) with
  | None => None
  | Some question =>
      if decide (q_category question = priority) then None
      else
        match findOption question (a_selectedOption answer) with
        | None => None
        | Some selectedOption => Some (question, selectedOption)
        end
  end.

(** The first loop of getUserProfile: [(preferences, categoryWeights)], the
    sums of weighted values and of weights per category. *)
Definition categorySums (answers : list Answer) : Categories * Categories :=
  fold_left
    (fun '(preferences, categoryWeights) answer =>
       match substantive answer with
       | None => (preferences, categoryWeights)
       | Some (question, selectedOption) =>
           let weightedScore := opt_value selectedOption * q_weight question in
           (add_at (q_category question) weightedScore preferences,
            add_at (q_category question) (q_weight question) categoryWeights)
       end)
    answers (all 0, all 0).

(** The normalisation loop over [Object.keys(preferences)]. *)
Definition normalize (preferences categoryWeights : Categories) : Categories :=
  fold_left
    (fun preferences category =>
       if gtb (get_at category categoryWeights) 0 then
         set_at category (get_at category preferences / get_at category categoryWeights)
           preferences
       else preferences)
    [housing; transport; commercial; culture; price] preferences.

(** The category weights chosen by the answer to question [priority_01]. *)
Definition userCategoryWeights (answers : list Answer) : Categories :=
  let userCategoryWeights := all 1.0 in
  match List.find (fun a => bool_decide (a_questionId a = "priority_01")) answers with
  | None => userCategoryWeights
  | Some priorityAnswer =>
      let userCategoryWeights := all 0.5 in
      let selectedOption := a_selectedOption priorityAnswer in
      let userCategoryWeights :=
        if includes selectedOption "housing" then
          set_at price 2.0 (set_at housing 2.0 userCategoryWeights)
        else userCategoryWeights in
      let userCategoryWeights :=
        if includes selectedOption "transport" then set_at transport 2.0 userCategoryWeights
        else userCategoryWeights in
      let userCategoryWeights :=
        if includes selectedOption "commercial" then set_at commercial 2.0 userCategoryWeights
        else userCategoryWeights in
      let userCategoryWeights :=
        if includes selectedOption "culture" then set_at culture 2.0 userCategoryWeights
        else userCategoryWeights in
      let userCategoryWeights :=
        if includes selectedOption "price" then
          set_at housing 2.5 (set_at price 3.0 userCategoryWeights)
        else userCategoryWeights in
      if includes selectedOption "none" then all 1.0 else userCategoryWeights
  end.

(** The second loop over the answers: the tally of tags, each occurrence
    counted with the weight of its question. *)
Definition tagCounts (answers : list Answer) : list (string * number) :=
  fold_left
    (fun tagCounts answer =>
       match substantive answer with
       | None => tagCounts
       | Some (question, selectedOption) =>
           fold_left
             (fun tagCounts tag =>
                let currentCount := default 0 (lookup_key tag tagCounts) in
                Map_set tag (currentCount + q_weight question) tagCounts)
             (opt_tags selectedOption) tagCounts
       end)
    answers [].

(** [Array.from(tagCounts.entries()).sort((a, b) => b[1] - a[1]).slice(0, 5).map(([tag]) => tag)] *)
Definition sortedTags (answers : list Answer) : list string :=
  map fst (take 5 (Array_sort byScore (tagCounts answers))).

(** The body of getUserProfile behind the cache test: the profile of an
    answer list. *)
Definition computeProfile (answers : list Answer) : UserProfile :=
  let '(preferences, categoryWeights) := categorySums answers in
  let preferences := normalize preferences categoryWeights in
  {| preferences := preferences;
     priorities := sortedTags answers;
     categoryWeights := Some (userCategoryWeights answers);
     answers := answers |}.

(** [if (!sessions.has(sessionId)) { sessions.set(sessionId, { answers: [] }) }] *)
Definition withSession (sessionId : string) (sessions : gmap string Session)
  : gmap string Session :=
  if decide (is_Some (sessions !! sessionId)) then sessions
  else <[sessionId := {| s_answers := []; s_profile := None |}]> sessions.

(** submitAnswer.  [now] is the value of [new Date()]. *)
Definition submitAnswer (sessionId questionId selectedOptionId : string) (now : Z)
    (σ : State) : result (list Answer) * State :=
  let sessions := withSession sessionId (userSessions σ) in
  let σ := {| userSessions := sessions; objects := objects σ |} in
  let session := default {| s_answers := []; s_profile := None |} (sessions !! sessionId) in
  match findQuestion questionId with
  | None => (Throw (QuestionNotFound questionId), σ)
  | Some question =>
      match findOption question selectedOptionId with
      | None => (Throw (OptionNotFound selectedOptionId questionId), σ)
      | Some selectedOption =>
          let answer :=
            {| a_questionId := questionId; a_selectedOption := selectedOptionId;
               a_timestamp := now |} in
          let answers :=
            filter (fun a => a_questionId a ≠ questionId) (s_answers session) ++ [answer] in
          let session := {| s_answers := answers; s_profile := s_profile session |} in
          (Ok answers,
           {| userSessions := <[sessionId := session]> sessions; objects := objects σ |})
      end
  end.

(** getUserProfile: the reference to the profile object of the session. *)
Definition getUserProfile (sessionId : string) (σ : State) : result ref * State :=
  match userSessions σ !! sessionId with
  | None => (Throw (SessionNotFound sessionId), σ)
  | Some session =>
      match s_profile session with
      | Some profile => (Ok profile, σ)
      | None =>
          let profile := length (objects σ) in
          let session := {| s_answers := s_answers session; s_profile := Some profile |} in
          (Ok profile,
           {| userSessions := <[sessionId := session]> (userSessions σ);
              objects := objects σ ++ [computeProfile (s_answers session)] |})
      end
  end.

(** getAnswers *)
Definition getAnswers (sessionId : string) (σ : State) : result (list Answer) * State :=
  match userSessions σ !! sessionId with
  | Some session => (Ok (s_answers session), σ)
  | None => (Ok [], σ)
  end.

(** clearSession *)
Definition clearSession (sessionId : string) (σ : State) : State :=
  {| userSessions := delete sessionId (userSessions σ); objects := objects σ |}.

(** isDiagnosticComplete *)
Definition isDiagnosticComplete (sessionId : string) (σ : State) : bool :=
  match userSessions σ !! sessionId with
  | None => false
  | Some session =>
      let answeredQuestionIds : gset string :=
        list_to_set (map a_questionId (s_answers session)) in
      forallb (fun q => bool_decide (q_id q ∈ answeredQuestionIds)) questions
  end.

End Service.

End DiagnosticService.

(** ** StationService *)

Module StationService.

(** [keyof StationFeatures] *)
Inductive FeatureCategory : Set :=
  | Housing | Transport | Commercial | Culture | Price.

Section Service.

(** The station catalog ([stationsData]). *)
Variable stationsData : list Station.

Definition stations : list Station := stationsData.

(** initializeCache, on the cache the constructor has just created. *)
Definition initializeCache (stationCache : gmap string Station) : gmap string Station :=
  fold_left (fun stationCache station => <[st_id station := station]> stationCache)
    stations stationCache.

(** The cache as the constructor leaves it; no method writes to it later. *)
Definition stationCache : gmap string Station := initializeCache ∅.

Definition getAllStations : list Station := stations.

(** getStationById: [null] is [None]. *)
Definition getStationById (stationId : string) : option Station :=
  stationCache !! stationId.

Definition getStationFeatures (stationId : string) : option StationFeatures :=
  match stationCache !! stationId with
  | Some station => Some (st_features station)
  | None => None
  end.

Definition getStationCount : nat := length stations.

(** [(station.features[category] as any)[subcategory]] when it is a number:
    [connections] is an array, and a name that is no field gives
    [undefined]. *)
Definition featureValue (features : StationFeatures) (category : FeatureCategory)
    (subcategory : string) : option number :=
  match category with
  | Housing =>
      lookup_key subcategory
        [ ("rentLevel", rentLevel (f_housing features));
          ("familyFriendly", familyFriendly (f_housing features));
          ("quietness", quietness (f_housing features)) ]
  | Transport =>
      lookup_key subcategory
        [ ("accessibility", accessibility (f_transport features));
          ("walkability", walkability (f_transport features)) ]
  | Commercial =>
      lookup_key subcategory
        [ ("shopping", shopping (f_commercial features));
          ("restaurants", restaurants (f_commercial features));
          ("convenience", convenience (f_commercial features)) ]
  | Culture =>
      lookup_key subcategory
        [ ("entertainment", entertainment (f_culture features));
          ("history", history (f_culture features));
          ("nightlife", nightlife (f_culture features)) ]
  | Price =>
      lookup_key subcategory
        [ ("costOfLiving", costOfLiving (f_price features));
          ("diningCost", diningCost (f_price features)) ]
  end.

Definition inFeatureRange (category : FeatureCategory) (subcategory : string)
    (minValue maxValue : number) (station : Station) : bool :=
  match featureValue (st_features station) category subcategory with
  | Some featureValue => geb featureValue minValue && leb featureValue maxValue
  | None => false
  end.

Definition getStationsByFeatureRange (category : FeatureCategory) (subcategory : string)
    (minValue maxValue : number) : list Station :=
  List.filter (inFeatureRange category subcategory minValue maxValue) stations.

End Service.

End StationService.

(** ** Routes *)

(** What a handler sends: [res.json({ success: true, data })], with status 200,
    or [res.status(status).json({ success: false, error, message })]. *)
Inductive Response (A : Type) : Type :=
  | Success (data : A)
  | Failure (status : nat) (error message : string).

Arguments Success {A} data.
Arguments Failure {A} status error message.

Definition statusCode {A} (response : Response A) : nat :=
  match response with
  | Success _ => 200%nat
  | Failure status _ _ => status
  end.

(** routes/stations.ts.  The handlers run in a [try] whose [catch] answers
    500; the calls made here do not throw. *)
Module StationRoutes.

Section Routes.

Variable stationsData : list Station.

Definition notFound {A} (id : string) : Response A :=
  Failure 404 "Station not found" ("Station with ID '" +:+ id +:+ "' does not exist").

(** GET /api/stations/:id *)
Definition getStation (id : string) : Response Station :=
  match StationService.getStationById stationsData id with
  | None => notFound id
  | Some station => Success station
  end.

(** GET /api/stations/:id/features *)
Definition getFeatures (id : string) : Response StationFeatures :=
  match StationService.getStationFeatures stationsData id with
  | None => notFound id
  | Some features => Success features
  end.

End Routes.

End StationRoutes.

(** [!field] for a field of a request body that is a string when it is
    present: absent or empty. *)
Definition missing (field : option string) : bool :=
  match field with
  | None => true
  | Some s => bool_decide (s = "")
  end.

(** routes/diagnostic.ts.  [uuid] is the value of [uuidv4()] and [now] the
    one of [new Date()]. *)
Module DiagnosticRoutes.

Import DiagnosticService.

(** The [data] of POST /api/answers. *)
Record AnswersData : Type := {
  d_sessionId : string;
  d_answers : list Answer;
  d_isComplete : bool;
  d_userProfile : option ref
}.

(** The [data] of GET /api/sessions/:sessionId/answers. *)
Record SessionAnswers : Type := {
  sa_sessionId : string;
  sa_answers : list Answer;
  sa_isComplete : bool
}.

Section Routes.

Variable questions : list Question.

(** GET /api/questions *)
Definition getQuestions : Response (list Question) :=
  Success (DiagnosticService.getQuestions questions).

(** POST /api/answers *)
Definition postAnswers (sessionId questionId selectedOptionId : option string)
    (uuid : string) (now : Z) (σ : State) : Response AnswersData * State :=
  if missing questionId || missing selectedOptionId then
    (Failure 400 "Missing required fields" "questionId and selectedOptionId are required",
     σ)
  else
    let questionId := default "" questionId in
    let selectedOptionId := default "" selectedOptionId in
    let currentSessionId := if missing sessionId then uuid else default "" sessionId in
    match submitAnswer questions currentSessionId questionId selectedOptionId now σ with
    | (Throw error, σ) => (Failure 400 "Failed to submit answer" (message error), σ)
    | (Ok answers, σ) =>
        let isComplete := isDiagnosticComplete questions currentSessionId σ in
        if isComplete then
          match getUserProfile questions currentSessionId σ with
          | (Throw error, σ) => (Failure 400 "Failed to submit answer" (message error), σ)
          | (Ok userProfile, σ) =>
              (Success {| d_sessionId := currentSessionId; d_answers := answers;
                          d_isComplete := isComplete;
                          d_userProfile := Some userProfile |}, σ)
          end
        else
          (Success {| d_sessionId := currentSessionId; d_answers := answers;
                      d_isComplete := isComplete; d_userProfile := None |}, σ)
    end.

(** GET /api/sessions/:sessionId/answers *)
Definition getSessionAnswers (sessionId : string) (σ : State)
  : Response SessionAnswers * State :=
  match getAnswers sessionId σ with
  | (Throw error, σ) =>
      (Failure 500 "Failed to retrieve session answers" (message error), σ)
  | (Ok answers, σ) =>
      (Success {| sa_sessionId := sessionId; sa_answers := answers;
                  sa_isComplete := isDiagnosticComplete questions sessionId σ |}, σ)
  end.

(** GET /api/sessions/:sessionId/profile *)
Definition getSessionProfile (sessionId : string) (σ : State) : Response ref * State :=
  match getUserProfile questions sessionId σ with
  | (Throw error, σ) => (Failure 400 "Failed to retrieve user profile" (message error), σ)
  | (Ok userProfile, σ) => (Success userProfile, σ)
  end.

(** DELETE /api/sessions/:sessionId: [{ success: true, message }]. *)
Definition deleteSession (sessionId : string) (σ : State) : Response string * State :=
  (Success "Session cleared successfully", clearSession sessionId σ).

(** The requests the router serves. *)
Inductive request : Type :=
  | GET_questions
  | POST_answers (sessionId questionId selectedOptionId : option string) (uuid : string)
      (now : Z)
  | GET_answers (sessionId : string)
  | GET_profile (sessionId : string)
  | DELETE_session (sessionId : string).

(** The status the router answers a request with, and the state it leaves. *)
Definition serve (r : request) (σ : State) : nat * State :=
  match r with
  | GET_questions => (statusCode getQuestions, σ)
  | POST_answers sessionId questionId selectedOptionId uuid now =>
      let '(response, σ) := postAnswers sessionId questionId selectedOptionId uuid now σ in
      (statusCode response, σ)
  | GET_answers sessionId =>
      let '(response, σ) := getSessionAnswers sessionId σ in (statusCode response, σ)
  | GET_profile sessionId =>
      let '(response, σ) := getSessionProfile sessionId σ in (statusCode response, σ)
  | DELETE_session sessionId =>
      let '(response, σ) := deleteSession sessionId σ in (statusCode response, σ)
  end.

(** The state the router reaches from the one of the constructor. *)
Definition served (requests : list request) : State :=
  fold_left (fun σ r => snd (serve r σ)) requests initial.

End Routes.

End DiagnosticRoutes.

(** routes/recommendations.ts.  [now] is the value of
    [new Date().toISOString()].  A profile of the request body is a
    [UserProfile]: the test for its three fields cannot fail. *)
Module RecommendationRoutes.

Import DiagnosticService RecommendationService.

(** The [data] of POST /api/recommendations. *)
Record RecommendationsData : Type := {
  rd_recommendations : list Recommendation;
  rd_userProfile : UserProfile;
  rd_totalStationsAnalyzed : nat;
  rd_generatedAt : string
}.

(** The [data] of POST /api/recommendations/full-ranking. *)
Record RankingData : Type := {
  rk_ranking : list Recommendation;
  rk_userProfile : UserProfile;
  rk_totalStations : nat;
  rk_generatedAt : string
}.

(** The profile a handler goes on with, or the answer it stops with. *)
Inductive Resolution : Type :=
  | Resolved (profile : UserProfile)
  | Rejected (status : nat) (error message : string).

Section Routes.

Variable questions : list Question.
Variable stationsData : list Station.

(** The block every handler starts with: the profile of the session when the
    body names one, else the profile of the body.  The profile of a session
    is the object getUserProfile returns; there is no result when the store
    holds a reference without object, which no reachable store does. *)
Definition resolveProfile (sessionId : option string) (userProfile : option UserProfile)
    (σ : State) : option (Resolution * State) :=
  if negb (missing sessionId) then
    let sessionId := default "" sessionId in
    match getUserProfile questions sessionId σ with
    | (Throw _, σ) =>
        Some (Rejected 400 "Invalid session"
                ("Session '" +:+ sessionId +:+ "' not found or incomplete"), σ)
    | (Ok profile, σ) =>
        match deref σ profile with
        | Some profile => Some (Resolved profile, σ)
        | None => None
        end
    end
  else
    match userProfile with
    | Some profile => Some (Resolved profile, σ)
    | None =>
        Some (Rejected 400 "Missing required data"
                "Either sessionId or userProfile must be provided", σ)
    end.

(** POST /api/recommendations *)
Definition postRecommendations (sessionId : option string)
    (userProfile : option UserProfile) (now : string) (σ : State)
  : option (Response RecommendationsData * State) :=
  match resolveProfile sessionId userProfile σ with
  | None => None
  | Some (Rejected status error message, σ) => Some (Failure status error message, σ)
  | Some (Resolved profile, σ) =>
      let recommendations := generateRecommendations stationsData profile in
      let allScores := calculateScores stationsData profile in
      Some (Success {| rd_recommendations := recommendations; rd_userProfile := profile;
                       rd_totalStationsAnalyzed := size allScores;
                       rd_generatedAt := now |}, σ)
  end.

(** POST /api/recommendations/full-ranking *)
Definition postFullRanking (sessionId : option string) (userProfile : option UserProfile)
    (now : string) (σ : State) : option (Response RankingData * State) :=
  match resolveProfile sessionId userProfile σ with
  | None => None
  | Some (Rejected status error message, σ) => Some (Failure status error message, σ)
  | Some (Resolved profile, σ) =>
      let fullRanking := generateFullRanking stationsData profile in
      Some (Success {| rk_ranking := fullRanking; rk_userProfile := profile;
                       rk_totalStations := length fullRanking;
                       rk_generatedAt := now |}, σ)
  end.

End Routes.

End RecommendationRoutes.

(** ** The numbers of the program: IEEE 754 doubles *)

Module Double.

(** A JavaScript number: a binary64 value.  [prec] and [emax] are those of
    the format; the four operations round to nearest, ties to even. *)
Definition float64 : Type := spec_float.

Definition prec : Z := 53%Z.
Definition emax : Z := 1024%Z.

Definition NaN : float64 := S754_nan.
Definition zero : float64 := S754_zero false.

Definition add : float64 -> float64 -> float64 := SFadd prec emax.
Definition sub : float64 -> float64 -> float64 := SFsub prec emax.
Definition mul : float64 -> float64 -> float64 := SFmul prec emax.
Definition div : float64 -> float64 -> float64 := SFdiv prec emax.

(** [a < b] and [a <= b]; both are false when an operand is NaN. *)
Definition ltb : float64 -> float64 -> bool := SFltb.
Definition leb : float64 -> float64 -> bool := SFleb.

(** [a > b] and [a >= b] *)
Definition gtb (a b : float64) : bool := ltb b a.
Definition geb (a b : float64) : bool := leb b a.

Definition isNaN (x : float64) : bool :=
  match x with
  | S754_nan => true
  | _ => false
  end.

(** The double an integer is converted to. *)
Definition of_Z (n : Z) : float64 := binary_normalize prec emax n 0 false.

(** The double a decimal numeral denotes: the one nearest to its value (the
    quotient of two integers, rounded once). *)
Definition double (x : Q) : float64 :=
  match Qnum x with
  | Z0 => zero
  | Zpos a => div (S754_finite false a 0) (S754_finite false (Qden x) 0)
  | Zneg a => div (S754_finite true a 0) (S754_finite false (Qden x) 0)
  end.

Arguments double x%_Q.

(** [Math.min(a, b)] and [Math.max(a, b)]: NaN when an operand is NaN, and
    [-0] below [+0]. *)
Definition Math_min (a b : float64) : float64 :=
  if isNaN a || isNaN b then NaN
  else if ltb a b then a
  else if ltb b a then b
  else
    match a, b with
    | S754_zero true, _ => a
    | _, S754_zero true => b
    | _, _ => a
    end.

Definition Math_max (a b : float64) : float64 :=
  if isNaN a || isNaN b then NaN
  else if ltb a b then b
  else if ltb b a then a
  else
    match a, b with
    | S754_zero false, _ => a
    | _, S754_zero false => b
    | _, _ => a
    end.

(** [Math.round(x)]: the integer nearest to [x], a half going up; a result
    of zero keeps the sign of [x].  A finite double of mantissa [m] and
    exponent [e < 0] is [m / 2^(-e)]. *)
Definition Math_round (x : float64) : float64 :=
  match x with
  | S754_finite s m e =>
      if (0 <=? e)%Z then x
      else
        let d := (2 ^ (- e))%Z in
        let n := ((2 * cond_Zopp s (Zpos m) + d) / (2 * d))%Z in
        match n with
        | Z0 => S754_zero s
        | _ => of_Z n
        end
  | _ => x
  end.

(** [x || 0] for a number or [undefined]: 0 for [undefined], NaN and the
    two zeros. *)
Definition orZero (x : option float64) : float64 :=
  match x with
  | Some (S754_finite s m e) => S754_finite s m e
  | Some (S754_infinity s) => S754_infinity s
  | _ => zero
  end.

(** [array.length] *)
Definition length_number {A} (l : list A) : float64 := of_Z (Z.of_nat (length l)).

(** [values.reduce((sum, val) => sum + val, 0)] *)
Definition sum_numbers (values : list float64) : float64 :=
  fold_left (fun sum val => add sum val) values zero.

(** [Array.prototype.sort(compare)] with a comparator that gives a double: the
    stable insertion sort, [x] going behind [y] only when
    [compare(x, y) > 0]; a comparator that gives NaN separates nothing.
    (When a comparator is not consistent, as with NaN among the scores, the
    standard leaves the order to the engine.) *)
Fixpoint sort_insert {A} (compare : A -> A -> float64) (x : A) (l : list A) : list A :=
  match l with
  | [] => [x]
  | y :: l' => if gtb (compare x y) zero then y :: sort_insert compare x l' else x :: l
  end.

Definition Array_sort {A} (compare : A -> A -> float64) (l : list A) : list A :=
  foldr (sort_insert compare) [] l.

(** The comparator [(a, b) => b.score - a.score] (and [(a, b) => b[1] - a[1]]). *)
Definition byScore {A} (a b : A * float64) : float64 := sub (snd b) (snd a).

(** [Math.round(score * 100) / 100] *)
Definition round2 (score : float64) : float64 :=
  div (Math_round (mul score (double 100))) (double 100).

(** [map.set(key, value)] on the entries of a [Map] in insertion order. *)
Fixpoint Map_set (key : string) (value : float64) (m : list (string * float64))
  : list (string * float64) :=
  match m with
  | [] => [(key, value)]
  | (k, v) :: m' =>
      if decide (k = key) then (k, value) :: m' else (k, v) :: Map_set key value m'
  end.

(** What a call completes with: the value it returns, or the [TypeError] it
    throws, which carries the property name whose use raised it. *)
Inductive completion (A : Type) : Type :=
  | Return (value : A)
  | TypeError (property : string).
Arguments Return {A} value.
Arguments TypeError {A} property.

#[global] Instance completion_bind : MBind completion := fun A B k c =>
  match c with
  | Return value => k value
  | TypeError property => TypeError property
  end.

End Double.

Declare Scope double_scope.
Delimit Scope double_scope with double.
Notation "a + b" := (Double.add a b) : double_scope.
Notation "a - b" := (Double.sub a b) : double_scope.
Notation "a * b" := (Double.mul a b) : double_scope.
Notation "a / b" := (Double.div a b) : double_scope.

(** [preferences] and [categoryWeights] as the program holds them. *)
Record Categories64 : Type := {
  c64_housing : Double.float64;
  c64_transport : Double.float64;
  c64_commercial : Double.float64;
  c64_culture : Double.float64;
  c64_price : Double.float64
}.

Record UserProfile64 : Type := {
  preferences64 : Categories64;
  priorities64 : list string;
  categoryWeights64 : option Categories64;
  answers64 : list Answer
}.

(** A profile of a request body, as [express.json()] reads it. *)
Definition parseCategories (c : Categories) : Categories64 :=
  {| c64_housing := Double.double (c_housing c);
     c64_transport := Double.double (c_transport c);
     c64_commercial := Double.double (c_commercial c);
     c64_culture := Double.double (c_culture c);
     c64_price := Double.double (c_price c) |}.

Definition parseProfile (userProfile : UserProfile) : UserProfile64 :=
  {| preferences64 := parseCategories (preferences userProfile);
     priorities64 := priorities userProfile;
     categoryWeights64 := parseCategories <$> categoryWeights userProfile;
     answers64 := answers userProfile |}.

Record Recommendation64 : Type := {
  station64 : Station;
  score64 : Double.float64;
  rank64 : nat;
  explanation64 : RecommendationExplanation
}.

(** ** RecommendationService on doubles *)

Module RecommendationService64.

Import RecommendationService Double.

Local Open Scope double_scope.

Definition default_categoryWeights : Categories64 :=
  {| c64_housing := double 1.0; c64_transport := double 1.0;
     c64_commercial := double 1.0; c64_culture := double 1.0;
     c64_price := double 1.0 |}.

(** calculateCategoryScore *)
Definition calculateCategoryScore (userPreference : float64) (featureValues : list float64)
  : float64 :=
  let avgFeatureValue := sum_numbers featureValues / length_number featureValues in
  avgFeatureValue * (userPreference / double 5).

(** What [priorityMappings[priority]] finds, by what the call
    [bonusCalculator()], which passes no receiver and no argument, does with
    it:
    - [Calculator bonus]: an arrow function of the literal, which returns
      the number [bonus];
    - [ReturnsText]: [toString], which returns ["[object Undefined]"], and
      [constructor], which returns a new object, a string once added to
      [bonus];
    - [ReturnsFalse]: [isPrototypeOf], which returns [false] for an argument
      that is not an object;
    - [Throws]: a method that first converts its receiver to an object
      ([valueOf], [hasOwnProperty], [propertyIsEnumerable],
      [toLocaleString], [__defineGetter__], [__defineSetter__],
      [__lookupGetter__], [__lookupSetter__]), and [__proto__], which is the
      prototype object and not a function. *)
Inductive Member : Type :=
  | Calculator (bonus : float64)
  | ReturnsText
  | ReturnsFalse
  | Throws.

(** The entries of the literal. *)
Definition ownProperties (features : StationFeatures) : list (string * Member) :=
  [ ("family-friendly", Calculator (double (familyFriendly (f_housing features)) * double 2));
    ("quiet", Calculator (double (quietness (f_housing features)) * double 2));
    ("affordable",
      Calculator ((double 6 - double (costOfLiving (f_price features))) * double 2));
    ("shopping", Calculator (double (shopping (f_commercial features)) * double 2));
    ("nightlife", Calculator (double (nightlife (f_culture features)) * double 2));
    ("entertainment", Calculator (double (entertainment (f_culture features)) * double 2));
    ("accessible", Calculator (double (accessibility (f_transport features)) * double 2));
    ("walkable", Calculator (double (walkability (f_transport features)) * double 2));
    ("restaurants", Calculator (double (restaurants (f_commercial features)) * double 2));
    ("history", Calculator (double (history (f_culture features)) * double 2));
    ("convenient", Calculator (double (convenience (f_commercial features)) * double 2)) ].

(** The members the literal inherits from [Object.prototype]. *)
Definition inheritedProperties : list (string * Member) :=
  [ ("constructor", ReturnsText);
    ("toString", ReturnsText);
    ("isPrototypeOf", ReturnsFalse);
    ("__proto__", Throws);
    ("hasOwnProperty", Throws);
    ("propertyIsEnumerable", Throws);
    ("toLocaleString", Throws);
    ("valueOf", Throws);
    ("__defineGetter__", Throws);
    ("__defineSetter__", Throws);
    ("__lookupGetter__", Throws);
    ("__lookupSetter__", Throws) ].

(** [priorityMappings[priority]] *)
Definition priorityMappings (features : StationFeatures) (priority : string) : option Member :=
  match lookup_key priority (ownProperties features) with
  | Some member => Some member
  | None => lookup_key priority inheritedProperties
  end.

(** What the variable [bonus] holds: a number, or, once a string or an object
    has been added to it, a string with ["[object "] in it. *)
Inductive Bonus : Type :=
  | Number (x : float64)
  | Text.

(** [if (bonusCalculator) { bonus += bonusCalculator(); }] *)
Definition addBonus (features : StationFeatures) (bonus : Bonus) (priority : string)
  : completion Bonus :=
  match priorityMappings features priority with
  | None => Return bonus
  | Some (Calculator value) =>
      match bonus with
      | Number x => Return (Number (x + value))
      | Text => Return Text
      end
  | Some ReturnsText => Return Text
  | Some ReturnsFalse =>
      match bonus with
      | Number x => Return (Number (x + zero))
      | Text => Return Text
      end
  | Some Throws => TypeError priority
  end.

(** [for (const x of xs) { acc = step(acc, x) }] with a step that can throw. *)
Fixpoint forOf {A B} (step : B -> A -> completion B) (xs : list A) (acc : B) : completion B :=
  match xs with
  | [] => Return acc
  | x :: xs' => acc ← step acc x; forOf step xs' acc
  end.

(** calculatePriorityBonus *)
Definition calculatePriorityBonus (priorities : list string) (station : Station)
  : completion float64 :=
  let features := st_features station in
  bonus ← forOf (addBonus features) (take 3 priorities) (Number zero);
  Return
    match bonus with
    | Number x => Math_min (double 20) x
    | Text => NaN
    end.

(** One step of the weighted sum: [totalScore += s * weight; totalWeight += weight]. *)
Definition accumulate (totals : float64 * float64) (categoryScore weight : float64)
  : float64 * float64 :=
  (fst totals + categoryScore * weight, snd totals + weight).

(** The weighted sums [(totalScore, totalWeight)] of calculateStationScore. *)
Definition stationTotals (preferences categoryWeights : Categories64)
    (features : StationFeatures) : float64 * float64 :=
  let totals := (zero, zero) in
  let totals :=
    if gtb (c64_housing preferences) zero then
      let housingScore :=
        calculateCategoryScore (c64_housing preferences)
          [ double (familyFriendly (f_housing features));
            double (quietness (f_housing features)) ] in
      let weight := c64_housing preferences * c64_housing categoryWeights in
      accumulate totals housingScore weight
    else totals in
  let totals :=
    if gtb (c64_transport preferences) zero then
      let transportScore :=
        calculateCategoryScore (c64_transport preferences)
          [ double (accessibility (f_transport features));
            Math_min (double 5) (length_number (connections (f_transport features))) ] in
      let weight := c64_transport preferences * c64_transport categoryWeights in
      accumulate totals transportScore weight
    else totals in
  let totals :=
    if gtb (c64_commercial preferences) zero then
      let commercialScore :=
        calculateCategoryScore (c64_commercial preferences)
          [ double (shopping (f_commercial features));
            double (restaurants (f_commercial features));
            double (convenience (f_commercial features)) ] in
      let weight := c64_commercial preferences * c64_commercial categoryWeights in
      accumulate totals commercialScore weight
    else totals in
  let totals :=
    if gtb (c64_culture preferences) zero then
      let cultureScore :=
        calculateCategoryScore (c64_culture preferences)
          [ double (entertainment (f_culture features));
            double (history (f_culture features));
            double (nightlife (f_culture features)) ] in
      let weight := c64_culture preferences * c64_culture categoryWeights in
      accumulate totals cultureScore weight
    else totals in
  if gtb (c64_price preferences) zero then
    let combinedPriceWeight :=
      Math_max (c64_price categoryWeights) (c64_housing categoryWeights) in
    let priceBoostMultiplier :=
      if geb (c64_price categoryWeights) (double 3.0) then double 1.5 else double 1.0 in
    let priceScore :=
      calculateCategoryScore (c64_price preferences)
        [ double 6 - double (rentLevel (f_housing features));
          double 6 - double (costOfLiving (f_price features));
          double 6 - double (diningCost (f_price features)) ] in
    let weight := c64_price preferences * combinedPriceWeight * priceBoostMultiplier in
    accumulate totals priceScore weight
  else totals.

Definition baseScore (userProfile : UserProfile64) (station : Station) : float64 :=
  let categoryWeights := default default_categoryWeights (categoryWeights64 userProfile) in
  let '(totalScore, totalWeight) :=
    stationTotals (preferences64 userProfile) categoryWeights (st_features station) in
  if gtb totalWeight zero then (totalScore / totalWeight) * double 20 else zero.

(** calculateStationScore *)
Definition calculateStationScore (userProfile : UserProfile64) (station : Station)
  : completion float64 :=
  let baseScore := baseScore userProfile station in
  priorityBonus ← calculatePriorityBonus (priorities64 userProfile) station;
  Return (Math_min (double 100) (Math_max zero (baseScore + priorityBonus))).

(** *** Explanations *)

Definition housingPart (name : string) (features : StationFeatures)
    (e : RecommendationExplanation) : RecommendationExplanation :=
  let e := when (geb (double (familyFriendly (f_housing features))) (double 4))
    (pushMatch "family-friendly environment"
       (name +:+ "は家族連れに優しい環境が整っています")) e in
  let e := when (geb (double (quietness (f_housing features))) (double 4))
    (pushMatch "quiet residential area"
       (name +:+ "は静かな住宅地として知られています")) e in
  if leb (double (rentLevel (f_housing features))) (double 2) then
    pushMatch "affordable housing"
      (name +:+ "周辺は比較的手頃な家賃で住むことができます") e
  else if geb (double (rentLevel (f_housing features))) (double 4) then
    pushConsideration (name +:+ "周辺の家賃は比較的高めです") e
  else e.

Definition transportPart (name : string) (features : StationFeatures)
    (e : RecommendationExplanation) : RecommendationExplanation :=
  let e := when (geb (double (accessibility (f_transport features))) (double 4))
    (pushMatch "excellent accessibility"
       (name +:+ "は交通アクセスが非常に良好です")) e in
  let e := when (geb (double (walkability (f_transport features))) (double 4))
    (pushMatch "walkable area"
       (name +:+ "周辺は徒歩での移動がしやすい環境です")) e in
  when (geb (length_number (connections (f_transport features))) (double 3))
    (pushMatch "multiple train lines"
       (name +:+ "は複数の路線が利用できて便利です")) e.

Definition commercialPart (name : string) (features : StationFeatures)
    (e : RecommendationExplanation) : RecommendationExplanation :=
  let e := when (geb (double (shopping (f_commercial features))) (double 4))
    (pushMatch "excellent shopping"
       (name +:+ "周辺にはショッピング施設が充実しています")) e in
  let e := when (geb (double (restaurants (f_commercial features))) (double 4))
    (pushMatch "diverse dining options"
       (name +:+ "には多様な飲食店が揃っています")) e in
  when (geb (double (convenience (f_commercial features))) (double 4))
    (pushMatch "convenient daily shopping"
       (name +:+ "は日常の買い物に便利な立地です")) e.

Definition culturePart (name : string) (features : StationFeatures)
    (e : RecommendationExplanation) : RecommendationExplanation :=
  let e := when (geb (double (entertainment (f_culture features))) (double 4))
    (pushMatch "rich entertainment"
       (name +:+ "周辺にはエンターテイメント施設が豊富です")) e in
  let e := when (geb (double (history (f_culture features))) (double 4))
    (pushMatch "historical significance"
       (name +:+ "は歴史的な魅力のある地域です")) e in
  when (geb (double (nightlife (f_culture features))) (double 4))
    (pushMatch "vibrant nightlife"
       (name +:+ "は活気のあるナイトライフが楽しめます")) e.

Definition pricePart (name : string) (features : StationFeatures)
    (e : RecommendationExplanation) : RecommendationExplanation :=
  let e := when (leb (double (costOfLiving (f_price features))) (double 2))
    (pushMatch "affordable living costs"
       (name +:+ "は生活コストが比較的抑えられます")) e in
  when (leb (double (diningCost (f_price features))) (double 2))
    (pushMatch "affordable dining"
       (name +:+ "周辺では手頃な価格で食事を楽しめます")) e.

(** The [switch (priority)] of the loop over the first three priorities. *)
Definition priorityPart (name : string) (features : StationFeatures) (priority : string)
    (e : RecommendationExplanation) : RecommendationExplanation :=
  if decide (priority = "family-friendly") then
    when (geb (double (familyFriendly (f_housing features))) (double 4))
      (pushStrength ("あなたが重視する「家族向け」の環境が" +:+ name +:+ "には整っています")) e
  else if decide (priority = "quiet") then
    when (geb (double (quietness (f_housing features))) (double 4))
      (pushStrength ("あなたが求める「静かな環境」が" +:+ name +:+ "で見つかります")) e
  else if decide (priority = "affordable") then
    when (leb (double (costOfLiving (f_price features))) (double 2))
      (pushStrength
         ("あなたが重視する「手頃な価格」の条件を" +:+ name +:+ "が満たしています")) e
  else if decide (priority = "shopping") then
    when (geb (double (shopping (f_commercial features))) (double 4))
      (pushStrength
         ("あなたが重視する「ショッピング」環境が" +:+ name +:+ "には充実しています")) e
  else if decide (priority = "nightlife") then
    when (geb (double (nightlife (f_culture features))) (double 4))
      (pushStrength ("あなたが求める「ナイトライフ」が" +:+ name +:+ "で楽しめます")) e
  else e.

(** explainRecommendation *)
Definition explainRecommendation (station : Station) (userProfile : UserProfile64)
  : RecommendationExplanation :=
  let features := st_features station in
  let preferences := preferences64 userProfile in
  let name := st_name station in
  let e := emptyExplanation in
  let e := when (gtb (c64_housing preferences) (double 3)) (housingPart name features) e in
  let e := when (gtb (c64_transport preferences) (double 3)) (transportPart name features) e in
  let e :=
    when (gtb (c64_commercial preferences) (double 3)) (commercialPart name features) e in
  let e := when (gtb (c64_culture preferences) (double 3)) (culturePart name features) e in
  let e := when (gtb (c64_price preferences) (double 3)) (pricePart name features) e in
  let e :=
    fold_left (fun e priority => priorityPart name features priority e)
      (take 3 (priorities64 userProfile)) e in
  when (bool_decide (length (matchingFeatures e) = 0%nat))
    (pushConsideration (name +:+ "はバランスの取れた地域として推薦されました")) e.

(** *** Ranking *)

Section Ranking.

(** The station catalog held by the station service ([stationsData]). *)
Variable stations : list Station.

(** calculateScores: the first score that throws ends the loop. *)
Definition calculateScores (userProfile : UserProfile64) : completion (gmap string float64) :=
  forOf
    (fun scores station =>
       score ← calculateStationScore userProfile station;
       Return (<[st_id station := score]> scores))
    (StationService.getAllStations stations) ∅.

(** The station-score pairs, sorted by [(a, b) => b.score - a.score]; a score
    that is NaN has become 0 ([scores.get(station.id) || 0]). *)
Definition stationScores (scores : gmap string float64) : list (Station * float64) :=
  Array_sort byScore
    (map (fun station => (station, orZero (scores !! st_id station)))
       (StationService.getAllStations stations)).

(** generateRecommendations *)
Definition generateRecommendations (userProfile : UserProfile64)
  : completion (list Recommendation64) :=
  scores ← calculateScores userProfile;
  let stationScores := stationScores scores in
  Return
    (pushEach (Nat.min 3 (length stationScores)) stationScores
       (fun i '(station, score) =>
          let explanation := explainRecommendation station userProfile in
          {| station64 := station; score64 := round2 score; rank64 := i + 1;
             explanation64 := explanation |})).

(** generateFullRanking *)
Definition generateFullRanking (userProfile : UserProfile64)
  : completion (list Recommendation64) :=
  scores ← calculateScores userProfile;
  let stationScores := stationScores scores in
  Return
    (pushEach (length stationScores) stationScores
       (fun i '(station, score) =>
          {| station64 := station; score64 := round2 score; rank64 := i + 1;
             explanation64 :=
               {| matchingFeatures := []; strengths := []; considerations := [] |} |})).

End Ranking.

End RecommendationService64.

(** ** DiagnosticService on doubles *)

Module DiagnosticService64.

Import DiagnosticService Double.

Local Open Scope double_scope.

(** The sessions are those of the service; the profile objects hold doubles. *)
Record State64 : Type := {
  userSessions : gmap string Session;
  objects : list UserProfile64
}.

Definition initial : State64 := {| userSessions := ∅; objects := [] |}.

Definition deref (σ : State64) (r : ref) : option UserProfile64 := objects σ !! r.

(** [categories[category]], [categories[category] = v] and
    [categories[category] += x] for a substantive category. *)
Definition get_at (category : QuestionCategory) (c : Categories64) : float64 :=
  match category with
  | housing => c64_housing c
  | transport => c64_transport c
  | commercial => c64_commercial c
  | culture => c64_culture c
  | price => c64_price c
  | priority => zero
  end.

Definition set_at (category : QuestionCategory) (v : float64) (c : Categories64)
  : Categories64 :=
  match category with
  | housing =>
      {| c64_housing := v; c64_transport := c64_transport c;
         c64_commercial := c64_commercial c; c64_culture := c64_culture c;
         c64_price := c64_price c |}
  | transport =>
      {| c64_housing := c64_housing c; c64_transport := v;
         c64_commercial := c64_commercial c; c64_culture := c64_culture c;
         c64_price := c64_price c |}
  | commercial =>
      {| c64_housing := c64_housing c; c64_transport := c64_transport c;
         c64_commercial := v; c64_culture := c64_culture c; c64_price := c64_price c |}
  | culture =>
      {| c64_housing := c64_housing c; c64_transport := c64_transport c;
         c64_commercial := c64_commercial c; c64_culture := v; c64_price := c64_price c |}
  | price =>
      {| c64_housing := c64_housing c; c64_transport := c64_transport c;
         c64_commercial := c64_commercial c; c64_culture := c64_culture c;
         c64_price := v |}
  | priority => c
  end.

Definition add_at (category : QuestionCategory) (x : float64) (c : Categories64)
  : Categories64 :=
  set_at category (get_at category c + x) c.

(** The object literal with the same number for the five categories. *)
Definition all (v : float64) : Categories64 :=
  {| c64_housing := v; c64_transport := v; c64_commercial := v; c64_culture := v;
     c64_price := v |}.

Section Service.

(** The question catalog ([questionsData]); the program reads the double
    nearest to a number written there. *)
Variable questions : list Question.

(** The first loop of getUserProfile: [(preferences, categoryWeights)], the
    sums of weighted values and of weights per category. *)
Definition categorySums (answers : list Answer) : Categories64 * Categories64 :=
  fold_left
    (fun '(preferences, categoryWeights) answer =>
       match substantive questions answer with
       | None => (preferences, categoryWeights)
       | Some (question, selectedOption) =>
           let weightedScore :=
             double (opt_value selectedOption) * double (q_weight question) in
           (add_at (q_category question) weightedScore preferences,
            add_at (q_category question) (double (q_weight question)) categoryWeights)
       end)
    answers (all zero, all zero).

(** The normalisation loop over [Object.keys(preferences)]. *)
Definition normalize (preferences categoryWeights : Categories64) : Categories64 :=
  fold_left
    (fun preferences category =>
       if gtb (get_at category categoryWeights) zero then
         set_at category (get_at category preferences / get_at category categoryWeights)
           preferences
       else preferences)
    [housing; transport; commercial; culture; price] preferences.

(** The second loop over the answers: the tally of tags, each occurrence
    counted with the weight of its question. *)
Definition tagCounts (answers : list Answer) : list (string * float64) :=
  fold_left
    (fun tagCounts answer =>
       match substantive questions answer with
       | None => tagCounts
       | Some (question, selectedOption) =>
           fold_left
             (fun tagCounts tag =>
                let currentCount := orZero (lookup_key tag tagCounts) in
                Map_set tag (currentCount + double (q_weight question)) tagCounts)
             (opt_tags selectedOption) tagCounts
       end)
    answers [].

(** [Array.from(tagCounts.entries()).sort((a, b) => b[1] - a[1]).slice(0, 5).map(([tag]) => tag)] *)
Definition sortedTags (answers : list Answer) : list string :=
  map fst (take 5 (Array_sort byScore (tagCounts answers))).

(** The body of getUserProfile behind the cache test.  The category weights
    are the literals the exact model selects, read as doubles. *)
Definition computeProfile (answers : list Answer) : UserProfile64 :=
  let '(preferences, categoryWeights) := categorySums answers in
  let preferences := normalize preferences categoryWeights in
  {| preferences64 := preferences;
     priorities64 := sortedTags answers;
     categoryWeights64 := Some (parseCategories (userCategoryWeights answers));
     answers64 := answers |}.

(** getUserProfile *)
Definition getUserProfile (sessionId : string) (σ : State64) : result ref * State64 :=
  match userSessions σ !! sessionId with
  | None => (Throw (SessionNotFound sessionId), σ)
  | Some session =>
      match s_profile session with
      | Some profile => (Ok profile, σ)
      | None =>
          let profile := length (objects σ) in
          let session := {| s_answers := s_answers session; s_profile := Some profile |} in
          (Ok profile,
           {| userSessions := <[sessionId := session]> (userSessions σ);
              objects := objects σ ++ [computeProfile (s_answers session)] |})
      end
  end.

End Service.

End DiagnosticService64.

(** routes/recommendations.ts on doubles.  The handlers run in a [try] whose
    [catch] answers 500 with the message of the error. *)
Module RecommendationRoutes64.

Import DiagnosticService.

(** The [data] of POST /api/recommendations/explain/:stationId. *)
Record ExplainData : Type := {
  ex_station : Station;
  ex_score : Double.float64;
  ex_explanation : RecommendationExplanation;
  ex_userProfile : UserProfile64;
  ex_explainedAt : string
}.

(** The profile a handler goes on with, or the answer it stops with. *)
Inductive Resolution : Type :=
  | Resolved (profile : UserProfile64)
  | Rejected (status : nat) (error message : string).

Section Routes.

Variable questions : list Question.
Variable stationsData : list Station.

(** The message the engine gives the [TypeError] raised at a property. *)
Variable typeErrorMessage : string -> string.

(** The block every handler starts with: the profile of the session when the
    body names one, else the profile of the body.  There is no result when
    the store holds a reference without object, which no reachable store
    does. *)
Definition resolveProfile (sessionId : option string) (userProfile : option UserProfile)
    (σ : DiagnosticService64.State64) : option (Resolution * DiagnosticService64.State64) :=
  if negb (missing sessionId) then
    let sessionId := default "" sessionId in
    match DiagnosticService64.getUserProfile questions sessionId σ with
    | (Throw _, σ) =>
        Some (Rejected 400 "Invalid session"
                ("Session '" +:+ sessionId +:+ "' not found or incomplete"), σ)
    | (Ok profile, σ) =>
        match DiagnosticService64.deref σ profile with
        | Some profile => Some (Resolved profile, σ)
        | None => None
        end
    end
  else
    match userProfile with
    | Some profile => Some (Resolved (parseProfile profile), σ)
    | None =>
        Some (Rejected 400 "Missing required data"
                "Either sessionId or userProfile must be provided", σ)
    end.

(** POST /api/recommendations/explain/:stationId *)
Definition postExplain (stationId : string) (sessionId : option string)
    (userProfile : option UserProfile) (now : string) (σ : DiagnosticService64.State64)
  : option (Response ExplainData * DiagnosticService64.State64) :=
  match resolveProfile sessionId userProfile σ with
  | None => None
  | Some (Rejected status error message, σ) => Some (Failure status error message, σ)
  | Some (Resolved profile, σ) =>
      match StationService.getStationById stationsData stationId with
      | None =>
          Some (Failure 404 "Station not found"
                  ("Station with ID '" +:+ stationId +:+ "' does not exist"), σ)
      | Some station =>
          let explanation := RecommendationService64.explainRecommendation station profile in
          match RecommendationService64.calculateScores stationsData profile with
          | Double.TypeError property =>
              Some (Failure 500 "Failed to generate explanation"
                      (typeErrorMessage property), σ)
          | Double.Return allScores =>
              let score := Double.orZero (allScores !! stationId) in
              Some (Success {| ex_station := station; ex_score := Double.round2 score;
                               ex_explanation := explanation; ex_userProfile := profile;
                               ex_explainedAt := now |}, σ)
          end
      end
  end.

End Routes.

End RecommendationRoutes64.

(** ** The store of the frontend (store/slices/diagnosticSlice.ts) *)

Module DiagnosticSlice.

Section Slice.

(** The types of the frontend ([../../types]); the reducers do not look
    inside their values. *)
Variables Question Answer UserProfile Recommendation : Type.

Record DiagnosticState : Type := {
  ds_questions : list Question;
  ds_currentQuestionIndex : Z;
  ds_answers : list Answer;
  ds_userProfile : option UserProfile;
  ds_recommendations : list Recommendation;
  ds_sessionId : option string;
  ds_isLoading : bool;
  ds_error : option string;
  ds_isComplete : bool
}.

Definition initialState : DiagnosticState :=
  {| ds_questions := []; ds_currentQuestionIndex := 0%Z; ds_answers := [];
     ds_userProfile := None; ds_recommendations := []; ds_sessionId := None;
     ds_isLoading := false; ds_error := None; ds_isComplete := false |}.

(** What the submitAnswer thunk is fulfilled with. *)
Record SubmitResult : Type := {
  sr_sessionId : string;
  sr_answers : list Answer;
  sr_isComplete : bool;
  sr_userProfile : option UserProfile
}.

(** What the generateRecommendations thunk is fulfilled with. *)
Record RecommendationsResult : Type := {
  rr_recommendations : list Recommendation;
  rr_userProfile : UserProfile
}.

(** The actions of the slice: its reducers, and the three stages of its
    three thunks.  A rejection carries [action.payload] and
    [action.error.message]. *)
Inductive Action : Type :=
  | recordAnswer (payload : Answer)
  | nextQuestion
  | previousQuestion
  | resetDiagnostic
  | setComplete
  | clearError
  | retryLastAction
  | fetchQuestions_pending
  | fetchQuestions_fulfilled (payload : list Question)
  | fetchQuestions_rejected (payload message : option string)
  | submitAnswer_pending
  | submitAnswer_fulfilled (payload : SubmitResult)
  | submitAnswer_rejected (payload message : option string)
  | generateRecommendations_pending
  | generateRecommendations_fulfilled (payload : RecommendationsResult)
  | generateRecommendations_rejected (payload message : option string).

(** [payload || message || fallback] *)
Definition orElse (payload message : option string) (fallback : string) : string :=
  if negb (missing payload) then default "" payload
  else if negb (missing message) then default "" message
  else fallback.

Definition pending (state : DiagnosticState) : DiagnosticState :=
  {| ds_questions := ds_questions state;
     ds_currentQuestionIndex := ds_currentQuestionIndex state;
     ds_answers := ds_answers state; ds_userProfile := ds_userProfile state;
     ds_recommendations := ds_recommendations state; ds_sessionId := ds_sessionId state;
     ds_isLoading := true; ds_error := None; ds_isComplete := ds_isComplete state |}.

Definition rejected (state : DiagnosticState) (error : string) : DiagnosticState :=
  {| ds_questions := ds_questions state;
     ds_currentQuestionIndex := ds_currentQuestionIndex state;
     ds_answers := ds_answers state; ds_userProfile := ds_userProfile state;
     ds_recommendations := ds_recommendations state; ds_sessionId := ds_sessionId state;
     ds_isLoading := false; ds_error := Some error;
     ds_isComplete := ds_isComplete state |}.

Definition setIndex (state : DiagnosticState) (index : Z) : DiagnosticState :=
  {| ds_questions := ds_questions state; ds_currentQuestionIndex := index;
     ds_answers := ds_answers state; ds_userProfile := ds_userProfile state;
     ds_recommendations := ds_recommendations state; ds_sessionId := ds_sessionId state;
     ds_isLoading := ds_isLoading state; ds_error := ds_error state;
     ds_isComplete := ds_isComplete state |}.

Definition reducer (state : DiagnosticState) (action : Action) : DiagnosticState :=
  match action with
  | recordAnswer payload =>
      {| ds_questions := ds_questions state;
         ds_currentQuestionIndex := ds_currentQuestionIndex state;
         ds_answers := ds_answers state ++ [payload];
         ds_userProfile := ds_userProfile state;
         ds_recommendations := ds_recommendations state;
         ds_sessionId := ds_sessionId state; ds_isLoading := ds_isLoading state;
         ds_error := ds_error state; ds_isComplete := ds_isComplete state |}
  | nextQuestion =>
      if (ds_currentQuestionIndex state <? Z.of_nat (length (ds_questions state)) - 1)%Z
      then setIndex state (ds_currentQuestionIndex state + 1)%Z
      else state
  | previousQuestion =>
      if (ds_currentQuestionIndex state >? 0)%Z
      then setIndex state (ds_currentQuestionIndex state - 1)%Z
      else state
  | resetDiagnostic =>
      {| ds_questions := ds_questions state; ds_currentQuestionIndex := 0%Z;
         ds_answers := []; ds_userProfile := None; ds_recommendations := [];
         ds_sessionId := None; ds_isLoading := ds_isLoading state; ds_error := None;
         ds_isComplete := false |}
  | setComplete =>
      {| ds_questions := ds_questions state;
         ds_currentQuestionIndex := ds_currentQuestionIndex state;
         ds_answers := ds_answers state; ds_userProfile := ds_userProfile state;
         ds_recommendations := ds_recommendations state;
         ds_sessionId := ds_sessionId state; ds_isLoading := ds_isLoading state;
         ds_error := ds_error state; ds_isComplete := true |}
  | clearError =>
      {| ds_questions := ds_questions state;
         ds_currentQuestionIndex := ds_currentQuestionIndex state;
         ds_answers := ds_answers state; ds_userProfile := ds_userProfile state;
         ds_recommendations := ds_recommendations state;
         ds_sessionId := ds_sessionId state; ds_isLoading := ds_isLoading state;
         ds_error := None; ds_isComplete := ds_isComplete state |}
  | retryLastAction =>
      {| ds_questions := ds_questions state;
         ds_currentQuestionIndex := ds_currentQuestionIndex state;
         ds_answers := ds_answers state; ds_userProfile := ds_userProfile state;
         ds_recommendations := ds_recommendations state;
         ds_sessionId := ds_sessionId state; ds_isLoading := false;
         ds_error := None; ds_isComplete := ds_isComplete state |}
  | fetchQuestions_pending => pending state
  | fetchQuestions_fulfilled payload =>
      {| ds_questions := payload;
         ds_currentQuestionIndex := ds_currentQuestionIndex state;
         ds_answers := ds_answers state; ds_userProfile := ds_userProfile state;
         ds_recommendations := ds_recommendations state;
         ds_sessionId := ds_sessionId state; ds_isLoading := false;
         ds_error := ds_error state; ds_isComplete := ds_isComplete state |}
  | fetchQuestions_rejected payload message =>
      rejected state (orElse payload message "質問の取得に失敗しました")
  | submitAnswer_pending => pending state
  | submitAnswer_fulfilled payload =>
      {| ds_questions := ds_questions state;
         ds_currentQuestionIndex := ds_currentQuestionIndex state;
         ds_answers := sr_answers payload;
         ds_userProfile :=
           match sr_userProfile payload with
           | Some userProfile => Some userProfile
           | None => ds_userProfile state
           end;
         ds_recommendations := ds_recommendations state;
         ds_sessionId := Some (sr_sessionId payload); ds_isLoading := false;
         ds_error := ds_error state;
         ds_isComplete :=
           if sr_isComplete payload then sr_isComplete payload else ds_isComplete state |}
  | submitAnswer_rejected payload message =>
      rejected state (orElse payload message "回答の送信に失敗しました")
  | generateRecommendations_pending => pending state
  | generateRecommendations_fulfilled payload =>
      {| ds_questions := ds_questions state;
         ds_currentQuestionIndex := ds_currentQuestionIndex state;
         ds_answers := ds_answers state;
         ds_userProfile := Some (rr_userProfile payload);
         ds_recommendations := rr_recommendations payload;
         ds_sessionId := ds_sessionId state; ds_isLoading := false;
         ds_error := ds_error state; ds_isComplete := true |}
  | generateRecommendations_rejected payload message =>
      rejected state (orElse payload message "推薦の生成に失敗しました")
  end.

(** The index names a question, or is 0 when there is none. *)
Definition indexInRange (state : DiagnosticState) : Prop :=
  (0 <= ds_currentQuestionIndex state)%Z /\
  (ds_currentQuestionIndex state <= Z.max 0 (Z.of_nat (length (ds_questions state)) - 1))%Z.

(** An action that replaces the list of questions. *)
Definition replacesQuestions (action : Action) : Prop :=
  match action with
  | fetchQuestions_fulfilled _ => True
  | _ => False
  end.

(** An action that reports the failure of a request. *)
Definition isRejection (action : Action) : Prop :=
  match action with
  | fetchQuestions_rejected _ _ | submitAnswer_rejected _ _
  | generateRecommendations_rejected _ _ => True
  | _ => False
  end.

End Slice.

Arguments ds_questions {Question Answer UserProfile Recommendation} d.
Arguments ds_currentQuestionIndex {Question Answer UserProfile Recommendation} d.
Arguments ds_answers {Question Answer UserProfile Recommendation} d.
Arguments ds_userProfile {Question Answer UserProfile Recommendation} d.
Arguments ds_recommendations {Question Answer UserProfile Recommendation} d.
Arguments ds_sessionId {Question Answer UserProfile Recommendation} d.
Arguments ds_isLoading {Question Answer UserProfile Recommendation} d.
Arguments ds_error {Question Answer UserProfile Recommendation} d.
Arguments ds_isComplete {Question Answer UserProfile Recommendation} d.
Arguments sr_sessionId {Answer UserProfile} s.
Arguments sr_answers {Answer UserProfile} s.
Arguments sr_isComplete {Answer UserProfile} s.
Arguments sr_userProfile {Answer UserProfile} s.
Arguments rr_recommendations {UserProfile Recommendation} r.
Arguments rr_userProfile {UserProfile Recommendation} r.
Arguments recordAnswer {Question Answer UserProfile Recommendation} payload.
Arguments nextQuestion {Question Answer UserProfile Recommendation}.
Arguments previousQuestion {Question Answer UserProfile Recommendation}.
Arguments resetDiagnostic {Question Answer UserProfile Recommendation}.
Arguments setComplete {Question Answer UserProfile Recommendation}.
Arguments clearError {Question Answer UserProfile Recommendation}.
Arguments retryLastAction {Question Answer UserProfile Recommendation}.
Arguments fetchQuestions_pending {Question Answer UserProfile Recommendation}.
Arguments submitAnswer_pending {Question Answer UserProfile Recommendation}.
Arguments generateRecommendations_pending {Question Answer UserProfile Recommendation}.
Arguments fetchQuestions_fulfilled {Question Answer UserProfile Recommendation} payload.
Arguments submitAnswer_fulfilled {Question Answer UserProfile Recommendation} payload.
Arguments generateRecommendations_fulfilled {Question Answer UserProfile Recommendation} payload.
Arguments fetchQuestions_rejected {Question Answer UserProfile Recommendation} payload message.
Arguments submitAnswer_rejected {Question Answer UserProfile Recommendation} payload message.
Arguments generateRecommendations_rejected {Question Answer UserProfile Recommendation} payload message.
Arguments rejected {Question Answer UserProfile Recommendation} state error.
Arguments reducer {Question Answer UserProfile Recommendation} state action.
Arguments indexInRange {Question Answer UserProfile Recommendation} state.
Arguments replacesQuestions {Question Answer UserProfile Recommendation} action.
Arguments isRejection {Question Answer UserProfile Recommendation} action.

End DiagnosticSlice.

(** ** Sample data *)

Module Sample.

Definition opt (id : string) (value : number) (tags : list string) : QuestionOption :=
  {| opt_id := id; opt_text := ""; opt_value := value; opt_tags := tags |}.

Definition housing_01 : Question :=
  {| q_id := "housing_01"; q_category := housing; q_text := ""; q_weight := 1.5;
     q_options :=
       [ opt "housing_01_a" 5 ["family-friendly"; "quiet"];
         opt "housing_01_b" 3 ["quiet"];
         opt "housing_01_c" 1 ["nightlife"] ] |}.

Definition price_01 : Question :=
  {| q_id := "price_01"; q_category := price; q_text := ""; q_weight := 2.0;
     q_options := [ opt "price_01_a" 4 ["affordable"]; opt "price_01_b" 2 [] ] |}.

Definition priority_01 : Question :=
  {| q_id := "priority_01"; q_category := priority; q_text := ""; q_weight := 1.0;
     q_options :=
       [ opt "priority_housing" 1 []; opt "priority_transport" 1 [];
         opt "priority_commercial" 1 []; opt "priority_culture" 1 [];
         opt "priority_price" 1 []; opt "priority_none" 1 [] ] |}.

Definition questions : list Question := [housing_01; price_01; priority_01].

(** A station whose ratings are all [rating], with rent level [rent]. *)
Definition uniform (id : string) (rating rent : number) (lines : list string) : Station :=
  {| st_id := id; st_name := id; st_nameEn := id;
     st_location := {| latitude := 35.68; longitude := 139.76 |};
     st_features :=
       {| f_housing :=
            {| rentLevel := rent; familyFriendly := rating; quietness := rating |};
          f_transport :=
            {| accessibility := rating; connections := lines; walkability := rating |};
          f_commercial :=
            {| shopping := rating; restaurants := rating; convenience := rating |};
          f_culture :=
            {| entertainment := rating; history := rating; nightlife := rating |};
          f_price := {| costOfLiving := rating; diningCost := rating |} |};
     st_description := ""; st_rentPrices := None |}.

Definition stations : list Station :=
  [ uniform "tabata" 1 5 ["JY"];
    uniform "tokyo" 5 1 ["JY"; "JK"; "JC"; "JT"; "JE"];
    uniform "ueno" 3 3 ["JY"; "JK"; "JU"] ].


Definition profile : UserProfile :=
  {| preferences :=
       {| c_housing := 5; c_transport := 5; c_commercial := 5; c_culture := 5;
          c_price := 5 |};
     priorities := [];
     categoryWeights := Some RecommendationService.default_categoryWeights;
     answers := [] |}.

End Sample.

(** Sample data for the services on doubles. *)
Module Sample64.

(** A question of weight 1.6, with an option of value 3. *)
Definition transport_01 : Question :=
  {| q_id := "transport_01"; q_category := transport; q_text := ""; q_weight := 1.6;
     q_options :=
       [ Sample.opt "transport_01_a" 3 ["accessible"];
         Sample.opt "transport_01_b" 1 ["walkable"] ] |}.

Definition questions : list Question := Sample.questions ++ [transport_01].

Definition transportAnswer : Answer :=
  {| a_questionId := "transport_01"; a_selectedOption := "transport_01_a";
     a_timestamp := 1 |}.

(** The store in which session ["s"] holds the answers [answers] and no
    profile yet. *)
Definition answered (answers : list Answer) : DiagnosticService64.State64 :=
  {| DiagnosticService64.userSessions :=
       {[ "s" := {| DiagnosticService.s_answers := answers;
                    DiagnosticService.s_profile := None |} ]};
     DiagnosticService64.objects := [] |}.

(** The body [{ preferences, priorities, answers: [] }] with 3 for every
    preference. *)
Definition body (priorities : list string) : UserProfile :=
  {| preferences := DiagnosticService.all 3; priorities := priorities;
     categoryWeights := None; answers := [] |}.

(** The body whose preferences are all 1e308. *)
Definition huge : UserProfile :=
  {| preferences := DiagnosticService.all 1e308; priorities := [];
     categoryWeights := None; answers := [] |}.

End Sample64.

(** ** Vocabulary of the specification *)

#[global] Instance Qeq_decision (a b : Q) : Decision (a == b) := Qeq_dec a b.

(** [a] may stand before [b] in a list of decreasing scores. *)
Definition notBelow {A} (a b : A * number) : Prop := snd b <= snd a.


Section DiagnosticVocabulary.

Import DiagnosticService.

Variable questions : list Question.

(** The calls of a client of the service. *)
Inductive call : Type :=
  | SubmitAnswer (sessionId questionId selectedOptionId : string) (now : Z)
  | GetUserProfile (sessionId : string)
  | GetAnswers (sessionId : string)
  | ClearSession (sessionId : string).

(** The state a call leaves behind, whether it returns or throws. *)
Definition step (σ : State) (c : call) : State :=
  match c with
  | SubmitAnswer sessionId questionId selectedOptionId now =>
      snd (submitAnswer questions sessionId questionId selectedOptionId now σ)
  | GetUserProfile sessionId => snd (getUserProfile questions sessionId σ)
  | GetAnswers sessionId => snd (getAnswers sessionId σ)
  | ClearSession sessionId => clearSession sessionId σ
  end.

(** The state reached from the one of the constructor by a sequence of calls. *)
Definition run (calls : list call) : State := fold_left step calls initial.

(** The answers retained for a session (none when the session is unknown). *)
Definition answersOf (sessionId : string) (σ : State) : list Answer :=
  match userSessions σ !! sessionId with
  | Some session => s_answers session
  | None => []
  end.

(** The submitted answer is accepted: its question is in the catalog and its
    option is one of that question. *)
Definition accepted (questionId selectedOptionId : string) : Prop :=
  is_Some (findQuestion questions questionId ≫=
             fun question => findOption question selectedOptionId).

(** Invalidation on submit, as the specification words it: after a successful
    submitAnswer, getUserProfile yields the profile of the answers the session
    now holds. *)
Definition submitInvalidatesProfile : Prop :=
  forall calls sessionId questionId selectedOptionId now answers σ1 r σ2,
    submitAnswer questions sessionId questionId selectedOptionId now (run calls)
      = (Ok answers, σ1) ->
    getUserProfile questions sessionId σ1 = (Ok r, σ2) ->
    deref σ2 r = Some (computeProfile questions answers).

(** Reads of an unknown session, as the specification words them: both
    throw "session not found". *)
Definition unknownSessionReadsThrow : Prop :=
  forall calls sessionId,
    userSessions (run calls) !! sessionId = None ->
    fst (getUserProfile questions sessionId (run calls)) = Throw (SessionNotFound sessionId) /\
    fst (getAnswers sessionId (run calls)) = Throw (SessionNotFound sessionId).

(** At most one answer per question in every session. *)
Definition oneAnswerPerQuestion (σ : State) : Prop :=
  forall sessionId session,
    userSessions σ !! sessionId = Some session ->
    NoDup (map a_questionId (s_answers session)).

(** Every cached reference names a profile object. *)
Definition cachedAllocated (σ : State) : Prop :=
  forall sessionId session r,
    userSessions σ !! sessionId = Some session ->
    s_profile session = Some r ->
    is_Some (deref σ r).

(** A call of submitAnswer. *)
Definition isSubmitAnswer (c : call) : Prop :=
  match c with
  | SubmitAnswer _ _ _ _ => True
  | _ => False
  end.

(** No session holds a cached profile. *)
Definition nothingCached (σ : State) : Prop :=
  forall sessionId session,
    userSessions σ !! sessionId = Some session -> s_profile session = None.

(** The session caches the reference [r], and [r] names [profile]. *)
Definition holdsProfile (sessionId : string) (r : ref) (profile : UserProfile) (σ : State)
  : Prop :=
  (exists session,
     userSessions σ !! sessionId = Some session /\ s_profile session = Some r) /\
  deref σ r = Some profile.

(** Two stores hold, session by session, the same answers to the questions
    other than [questionId], in the same order. *)
Definition agreeExcept (questionId : string) (σA σB : State) : Prop :=
  forall sessionId,
    filter (fun a => a_questionId a <> questionId) (answersOf sessionId σA) =
    filter (fun a => a_questionId a <> questionId) (answersOf sessionId σB).

End DiagnosticVocabulary.

(** The category tokens looked for in the option chosen for [priority_01]. *)
Definition tokens : list string :=
  ["housing"; "transport"; "commercial"; "culture"; "price"; "none"].

(** The answers contain an answer to [priority_01] whose option names [token]
    and no other token ([token] outside [tokens]: no token at all). *)
Definition selects (token : string) (answers : list Answer) : Prop :=
  exists priorityAnswer,
    List.find (fun a => bool_decide (a_questionId a = "priority_01")) answers
      = Some priorityAnswer /\
    Forall (fun t => includes (a_selectedOption priorityAnswer) t = bool_decide (t = token))
      tokens.

(** The preset table of the specification. *)
Definition preset (token : string) : Categories :=
  if decide (token = "housing") then
    {| c_housing := 2.0; c_transport := 0.5; c_commercial := 0.5; c_culture := 0.5;
       c_price := 2.0 |}
  else if decide (token = "transport") then
    {| c_housing := 0.5; c_transport := 2.0; c_commercial := 0.5; c_culture := 0.5;
       c_price := 0.5 |}
  else if decide (token = "commercial") then
    {| c_housing := 0.5; c_transport := 0.5; c_commercial := 2.0; c_culture := 0.5;
       c_price := 0.5 |}
  else if decide (token = "culture") then
    {| c_housing := 0.5; c_transport := 0.5; c_commercial := 0.5; c_culture := 2.0;
       c_price := 0.5 |}
  else if decide (token = "price") then
    {| c_housing := 2.5; c_transport := 0.5; c_commercial := 0.5; c_culture := 0.5;
       c_price := 3.0 |}
  else if decide (token = "none") then
    {| c_housing := 1.0; c_transport := 1.0; c_commercial := 1.0; c_culture := 1.0;
       c_price := 1.0 |}
  else
    {| c_housing := 0.5; c_transport := 0.5; c_commercial := 0.5; c_culture := 0.5;
       c_price := 0.5 |}.

(** ** Vocabulary of the further properties *)


(** No category weight is negative. *)
Definition nonnegative (c : Categories) : Prop :=
  0 <= c_housing c /\ 0 <= c_transport c /\ 0 <= c_commercial c /\
  0 <= c_culture c /\ 0 <= c_price c.

(** Every matching feature of an explanation came with a strength. *)
Definition strengthPerMatch (e : RecommendationExplanation) : Prop :=
  (length (matchingFeatures e) <= length (strengths e))%nat.

(** The tag occurrences of an answer list: the tags of the option each
    contributing answer selects, each with the weight of its question, in
    the order the profile loop meets them. *)
Definition tagOccurrences (questions : list Question) (answers : list Answer)
  : list (string * number) :=
  flat_map
    (fun answer =>
       match DiagnosticService.substantive questions answer with
       | Some (question, selected) =>
           map (fun tag => (tag, q_weight question)) (opt_tags selected)
       | None => []
       end)
    answers.

(** One [tagCounts.set(tag, currentCount + question.weight)] of the tally
    loop, for an occurrence of a tag. *)
Definition countTag (tagCounts : list (string * number)) (occurrence : string * number)
  : list (string * number) :=
  let currentCount := default 0 (lookup_key (fst occurrence) tagCounts) in
  Map_set (fst occurrence) (currentCount + snd occurrence) tagCounts.

(** The weight of an occurrence added to the count of [tag] when it is an
    occurrence of [tag]. *)
Definition addOccurrence (tag : string) (total : number) (occurrence : string * number)
  : number :=
  if decide (fst occurrence = tag) then total + snd occurrence else total.

(** The weighted count of a tag: the weights of its occurrences, added up. *)
Definition tally (tag : string) (occurrences : list (string * number)) : number :=
  fold_left (addOccurrence tag) occurrences 0.

(** The session a call addresses. *)
Definition sessionOf (c : call) : string :=
  match c with
  | SubmitAnswer sessionId _ _ _ => sessionId
  | GetUserProfile sessionId => sessionId
  | GetAnswers sessionId => sessionId
  | ClearSession sessionId => sessionId
  end.

(** What the store holds for a session: its answers and the profile cached
    for it, if any; nothing when the session is unknown. *)
Definition sessionView (sessionId : string) (σ : DiagnosticService.State)
  : option (list Answer * option UserProfile) :=
  match DiagnosticService.userSessions σ !! sessionId with
  | Some session =>
      Some (DiagnosticService.s_answers session,
            match DiagnosticService.s_profile session with
            | Some r => DiagnosticService.deref σ r
            | None => None
            end)
  | None => None
  end.

(** The profile with other priorities. *)
Definition withPriorities (priorities : list string) (userProfile : UserProfile)
  : UserProfile :=
  {| preferences := preferences userProfile; priorities := priorities;
     categoryWeights := categoryWeights userProfile; answers := answers userProfile |}.

(** What a call returned, if it did. *)
Definition returned {A} (c : Double.completion A) : option A :=
  match c with
  | Double.Return value => Some value
  | Double.TypeError _ => None
  end.

(** The single-answer identity as the specification states it, on the
    doubles the program computes with: in a session that holds one answer,
    to a substantive question, the preference of the category of the
    question is the value of the selected option. *)
Definition singleAnswerExact (questions : list Question) : Prop :=
  forall sessionId σ session answer question selectedOption r σ' profile,
    DiagnosticService64.userSessions σ !! sessionId = Some session ->
    DiagnosticService.s_profile session = None ->
    DiagnosticService.s_answers session = [answer] ->
    DiagnosticService.substantive questions answer = Some (question, selectedOption) ->
    DiagnosticService64.getUserProfile questions sessionId σ = (DiagnosticService.Ok r, σ') ->
    DiagnosticService64.deref σ' r = Some profile ->
    DiagnosticService64.get_at (q_category question) (preferences64 profile) =
    Double.double (opt_value selectedOption).

(** A priority that names an inherited member whose bare call throws. *)
Definition throwing (priority : string) : Prop :=
  lookup_key priority RecommendationService64.inheritedProperties =
  Some RecommendationService64.Throws.

(** ** Sample calls *)

(** A first answer and a read of the profile; a second answer follows. *)
Definition staleCalls : list call :=
  [ SubmitAnswer "s" "housing_01" "housing_01_a" 1; GetUserProfile "s" ].

Definition firstAnswer : Answer :=
  {| a_questionId := "housing_01"; a_selectedOption := "housing_01_a"; a_timestamp := 1 |}.

Definition secondAnswer : Answer :=
  {| a_questionId := "price_01"; a_selectedOption := "price_01_a"; a_timestamp := 2 |}.

Definition priceAnswer : Answer :=
  {| a_questionId := "priority_01"; a_selectedOption := "priority_price";
     a_timestamp := 3 |}.

(** * Properties *)

(** ** Numbers *)

Lemma gtb_true (a b : number) : gtb a b = true <-> b < a.
Proof.
  unfold gtb. destruct (Qlt_le_dec b a) as [Hlt | Hle]; split; intros H; try done.
  exfalso. apply (Qlt_irrefl a). eapply Qle_lt_trans; eauto.
Qed.

Lemma gtb_false (a b : number) : gtb a b = false <-> a <= b.
Proof.
  unfold gtb. destruct (Qlt_le_dec b a) as [Hlt | Hle]; split; intros H; try done.
  exfalso. apply (Qlt_irrefl a). eapply Qle_lt_trans; eauto.
Qed.

(** ** The compatibility score *)

Section ScoreProperties.

Import RecommendationService.

Lemma fold_insert_Forall {A} (P : number -> Prop) (key : A -> string) (f : A -> number)
    (l : list A) (acc : gmap string number) :
  map_Forall (fun _ v => P v) acc ->
  (forall x, P (f x)) ->
  map_Forall (fun _ v => P v)
    (fold_left (fun scores x => <[key x := f x]> scores) l acc).
Proof.
  revert acc. induction l as [| x l IH]; intros acc Hacc Hf; simpl; [done |].
  apply IH; [| done]. apply map_Forall_insert_2; auto.
Qed.

End ScoreProperties.

(** ** Sorting by decreasing score *)

Section SortByScore.

Context {A : Type}.

Lemma sort_insert_perm (x : A * number) (l : list (A * number)) :
  sort_insert byScore x l ≡ₚ x :: l.
Proof.
  induction l as [| y l IH]; simpl; [done |].
  destruct (gtb (byScore x y) 0); [| done].
  rewrite IH. apply perm_swap.
Qed.

Lemma Array_sort_perm (l : list (A * number)) : Array_sort byScore l ≡ₚ l.
Proof.
  induction l as [| x l IH]; simpl; [done |].
  rewrite sort_insert_perm. by rewrite IH.
Qed.

Lemma sort_insert_sorted (x : A * number) (l : list (A * number)) :
  StronglySorted notBelow l -> StronglySorted notBelow (sort_insert byScore x l).
Proof.
  induction l as [| y l IH]; intros Hs; simpl.
  - repeat constructor.
  - apply StronglySorted_inv in Hs as [Hl Hy].
    destruct (gtb (byScore x y) 0) eqn:Hc.
    + apply gtb_true in Hc. unfold byScore in Hc.
      constructor; [by apply IH |].
      rewrite sort_insert_perm. constructor; [| done].
      unfold notBelow. lra.
    + apply gtb_false in Hc. unfold byScore in Hc.
      constructor; [by constructor |].
      constructor; [unfold notBelow; lra |].
      eapply Forall_impl; [exact Hy |].
      unfold notBelow. intros z Hz. lra.
Qed.

Lemma Array_sort_sorted (l : list (A * number)) :
  StronglySorted notBelow (Array_sort byScore l).
Proof.
  induction l as [| x l IH]; simpl; [constructor |].
  by apply sort_insert_sorted.
Qed.

End SortByScore.

(** ** Rounding to two decimals *)

Section Rounding.

Import RecommendationService.


End Rounding.

(** ** Ranking *)

Section RankingProperties.

Import RecommendationService.

Lemma pushEach_imap {A B} (bound : nat) (items : list A) (entry : nat -> A -> B) :
  pushEach bound items entry = imap entry (take bound items).
Proof.
  unfold pushEach. induction bound as [| n IH]; [done |].
  rewrite seq_S, fold_left_app, IH. simpl.
  destruct (items !! n) as [x |] eqn:Hn.
  - rewrite (take_S_r _ _ x Hn), imap_app. simpl.
    apply lookup_lt_Some in Hn.
    rewrite length_take_le by lia. by rewrite Nat.add_0_r.
  - apply lookup_ge_None in Hn. by rewrite !take_ge by lia.
Qed.

Variable stations : list Station.
Variable userProfile : UserProfile.


Lemma generateRecommendations_imap :
  generateRecommendations stations userProfile =
  imap (fun i '(station, score) =>
          {| station := station; score := round2 score; rank := i + 1;
             explanation := explainRecommendation station userProfile |})
       (take 3 (stationScores stations userProfile)).
Proof.
  unfold generateRecommendations. rewrite pushEach_imap. f_equal.
  rewrite <- (take_take _ 3 (length (stationScores stations userProfile))).
  by rewrite (take_ge _ (length _)).
Qed.

Lemma generateFullRanking_imap :
  generateFullRanking stations userProfile =
  imap (fun i '(station, score) =>
          {| station := station; score := round2 score; rank := i + 1;
             explanation := emptyExplanation |})
       (stationScores stations userProfile).
Proof.
  unfold generateFullRanking. rewrite pushEach_imap. by rewrite take_ge.
Qed.


(** A prefix of a decreasing list is decreasing. *)
Lemma take_sorted {A} (n : nat) (l : list (A * number)) :
  StronglySorted notBelow l -> StronglySorted notBelow (take n l).
Proof.
  intros Hl. revert n.
  induction Hl as [| x l Hl IH Hx]; intros [| n]; simpl; try constructor.
  - apply IH.
  - by apply Forall_take.
Qed.


End RankingProperties.

Section PrefixTheorems.

Import RecommendationService.



End PrefixTheorems.

(** ** The session store *)

Section SessionProperties.

Import DiagnosticService.

Variable questions : list Question.

(** A read of a session without cached profile creates the profile object of
    its answers and caches its address. *)
Lemma getUserProfile_computes (sessionId : string) (σ : State) (session : Session) :
  userSessions σ !! sessionId = Some session ->
  s_profile session = None ->
  let r := length (objects σ) in
  let σ' :=
    {| userSessions :=
         <[sessionId := {| s_answers := s_answers session; s_profile := Some r |}]>
           (userSessions σ);
       objects := objects σ ++ [computeProfile questions (s_answers session)] |} in
  getUserProfile questions sessionId σ = (Ok r, σ') /\
  deref σ' r = Some (computeProfile questions (s_answers session)).
Proof.
  intros Hs Hp r σ'. unfold getUserProfile. rewrite Hs, Hp. split; [done |].
  unfold deref, σ', r. simpl. rewrite lookup_app_r by done.
  by rewrite Nat.sub_diag.
Qed.

(** A read of a session with a cached profile returns its address and changes
    nothing. *)
Lemma getUserProfile_cached (sessionId : string) (σ : State) (session : Session) (r : ref) :
  userSessions σ !! sessionId = Some session ->
  s_profile session = Some r ->
  getUserProfile questions sessionId σ = (Ok r, σ).
Proof. intros Hs Hp. unfold getUserProfile. by rewrite Hs, Hp. Qed.

Lemma withSession_lookup (sessionId : string) (sessions : gmap string Session) :
  withSession sessionId sessions !! sessionId =
  Some (default {| s_answers := []; s_profile := None |} (sessions !! sessionId)).
Proof.
  unfold withSession. destruct (decide (is_Some (sessions !! sessionId))) as [[x Hx] | Hn].
  - by rewrite Hx.
  - rewrite lookup_insert_eq. apply eq_None_not_Some in Hn. by rewrite Hn.
Qed.

Lemma withSession_lookup_ne (sessionId other : string) (sessions : gmap string Session) :
  sessionId <> other -> withSession sessionId sessions !! other = sessions !! other.
Proof.
  intros Hne. unfold withSession. destruct (decide _); [done |].
  by rewrite lookup_insert_ne.
Qed.

(** What submitAnswer does, by the outcome of its two lookups. *)
Lemma submitAnswer_unfold (sessionId questionId selectedOptionId : string) (now : Z)
    (σ : State) :
  let sessions := withSession sessionId (userSessions σ) in
  let session := default {| s_answers := []; s_profile := None |}
                   (userSessions σ !! sessionId) in
  submitAnswer questions sessionId questionId selectedOptionId now σ =
  match findQuestion questions questionId with
  | None =>
      (Throw (QuestionNotFound questionId),
       {| userSessions := sessions; objects := objects σ |})
  | Some question =>
      match findOption question selectedOptionId with
      | None =>
          (Throw (OptionNotFound selectedOptionId questionId),
           {| userSessions := sessions; objects := objects σ |})
      | Some _ =>
          let answers :=
            filter (fun a => a_questionId a <> questionId) (s_answers session) ++
            [ {| a_questionId := questionId; a_selectedOption := selectedOptionId;
                 a_timestamp := now |} ] in
          (Ok answers,
           {| userSessions :=
                <[sessionId := {| s_answers := answers; s_profile := s_profile session |}]>
                  sessions;
              objects := objects σ |})
      end
  end.
Proof.
  intros sessions session. unfold submitAnswer. fold sessions.
  replace (default {| s_answers := []; s_profile := None |} (sessions !! sessionId))
    with session; [done |].
  unfold sessions. by rewrite withSession_lookup.
Qed.

End SessionProperties.

Section SessionTheorems.

Import DiagnosticService.

(** C10.  A submitAnswer that throws (unknown question, or unknown option of a
    known question) leaves an existing session as it was; for a session id
    the store did not know it leaves an empty session behind, on which
    getUserProfile then succeeds with the all-zero profile. *)
Theorem submitAnswer_failure (questions : list Question)
    (sessionId questionId selectedOptionId : string) (now : Z) (σ σ' : State) (e : Error) :
  submitAnswer questions sessionId questionId selectedOptionId now σ = (Throw e, σ') ->
  ((findQuestion questions questionId = None /\ e = QuestionNotFound questionId) \/
   (exists question,
      findQuestion questions questionId = Some question /\
      findOption question selectedOptionId = None /\
      e = OptionNotFound selectedOptionId questionId)) /\
  objects σ' = objects σ /\
  (forall other, other <> sessionId -> userSessions σ' !! other = userSessions σ !! other) /\
  match userSessions σ !! sessionId with
  | Some session => userSessions σ' !! sessionId = Some session
  | None =>
      userSessions σ' !! sessionId = Some {| s_answers := []; s_profile := None |} /\
      exists r σ'',
        getUserProfile questions sessionId σ' = (Ok r, σ'') /\
        deref σ'' r =
          Some {| preferences := all 0; priorities := [];
                  categoryWeights := Some (all 1.0); answers := [] |}
  end.
Proof.
  intros H. rewrite submitAnswer_unfold in H.
  assert (Hσ' : σ' = {| userSessions := withSession sessionId (userSessions σ);
                        objects := objects σ |} /\
                ((findQuestion questions questionId = None /\
                  e = QuestionNotFound questionId) \/
                 (exists question,
                    findQuestion questions questionId = Some question /\
                    findOption question selectedOptionId = None /\
                    e = OptionNotFound selectedOptionId questionId))).
  { destruct (findQuestion questions questionId) as [question |] eqn:Hq.
    - destruct (findOption question selectedOptionId) eqn:Ho; [discriminate |].
      inversion H. split; [done |]. right. by exists question.
    - inversion H. split; [done |]. by left. }
  destruct Hσ' as [-> Hcase]. clear H. simpl.
  split; [exact Hcase |]. split; [done |]. split.
  { intros other Hne. by apply withSession_lookup_ne. }
  rewrite withSession_lookup.
  destruct (userSessions σ !! sessionId) as [session |] eqn:Hs; simpl; [done |].
  split; [done |].
  set (σ1 := {| userSessions := withSession sessionId (userSessions σ);
                objects := objects σ |}).
  assert (Hl : userSessions σ1 !! sessionId = Some {| s_answers := []; s_profile := None |}).
  { simpl. by rewrite withSession_lookup, Hs. }
  destruct (getUserProfile_computes questions sessionId σ1 _ Hl eq_refl) as [Hget Hderef].
  eexists _, _. split; [exact Hget |]. exact Hderef.
Qed.

Lemma submitAnswer_failure_witness :
  exists r σ'',
    getUserProfile Sample.questions "ghost"
      (snd (submitAnswer Sample.questions "ghost" "nope" "housing_01_a" 0 initial))
      = (Ok r, σ'') /\
    deref σ'' r =
      Some {| preferences := all 0; priorities := [];
              categoryWeights := Some (all 1.0); answers := [] |}.
Proof.
  exact (proj2 (proj2 (proj2 (proj2
    (submitAnswer_failure Sample.questions "ghost" "nope" "housing_01_a" 0 initial _ _
       eq_refl))))).
Defined.

(** C8, as the code has it.  getUserProfile throws "Session ... not found"
    for a session the store has no record of and changes nothing; getAnswers
    returns the empty list for it. *)
Theorem unknown_session_reads (questions : list Question) (sessionId : string) (σ : State) :
  userSessions σ !! sessionId = None ->
  getUserProfile questions sessionId σ = (Throw (SessionNotFound sessionId), σ) /\
  getAnswers sessionId σ = (Ok [], σ).
Proof.
  intros Hs. unfold getUserProfile, getAnswers. by rewrite Hs.
Qed.

Lemma unknown_session_reads_witness :
  getUserProfile Sample.questions "ghost" initial = (Throw (SessionNotFound "ghost"), initial) /\
  getAnswers "ghost" initial = (Ok [], initial).
Proof. exact (unknown_session_reads Sample.questions "ghost" initial eq_refl). Defined.

End SessionTheorems.

(** ** Effects of the calls on the store *)

Section CallEffects.

Import DiagnosticService.

Variable questions : list Question.

Lemma answersOf_default (sessionId : string) (σ : State) :
  s_answers (default {| s_answers := []; s_profile := None |} (userSessions σ !! sessionId))
  = answersOf sessionId σ.
Proof. unfold answersOf. by destruct (userSessions σ !! sessionId). Qed.

(** submitAnswer touches one session only, keeps its cached profile and the
    profile objects, and replaces the answers exactly when it returns. *)
Lemma submitAnswer_effect (sessionId questionId selectedOptionId : string) (now : Z)
    (σ : State) :
  let old := default {| s_answers := []; s_profile := None |}
               (userSessions σ !! sessionId) in
  let result := fst (submitAnswer questions sessionId questionId selectedOptionId now σ) in
  let σ' := snd (submitAnswer questions sessionId questionId selectedOptionId now σ) in
  objects σ' = objects σ /\
  (forall other, other <> sessionId -> userSessions σ' !! other = userSessions σ !! other) /\
  userSessions σ' !! sessionId =
    Some {| s_answers := answersOf sessionId σ'; s_profile := s_profile old |} /\
  match result with
  | Ok answers =>
      accepted questions questionId selectedOptionId /\
      answers =
        filter (fun a => a_questionId a <> questionId) (answersOf sessionId σ) ++
        [ {| a_questionId := questionId; a_selectedOption := selectedOptionId;
             a_timestamp := now |} ] /\
      answersOf sessionId σ' = answers
  | Throw _ =>
      ~ accepted questions questionId selectedOptionId /\
      answersOf sessionId σ' = answersOf sessionId σ
  end.
Proof.
  intros old result σ'. subst result σ'. rewrite submitAnswer_unfold. fold old.
  unfold accepted.
  destruct (findQuestion questions questionId) as [question |] eqn:Hq;
    [destruct (findOption question selectedOptionId) as [selected |] eqn:Ho |]; simpl.
  - split; [done |]. split.
    { intros other Hne. rewrite lookup_insert_ne by done.
      by apply withSession_lookup_ne. }
    unfold answersOf at 1 3. simpl. rewrite lookup_insert_eq. simpl.
    split; [done |]. split; [rewrite Ho; by eexists |].
    unfold old. by rewrite answersOf_default.
  - split; [done |]. split; [intros other Hne; by apply withSession_lookup_ne |].
    unfold answersOf at 1 2. simpl. rewrite withSession_lookup. fold old.
    split; [by destruct old |]. split.
    + rewrite Ho. by intros [x Hx].
    + unfold old. by rewrite answersOf_default.
  - split; [done |]. split; [intros other Hne; by apply withSession_lookup_ne |].
    unfold answersOf at 1 2. simpl. rewrite withSession_lookup. fold old.
    split; [by destruct old |]. split.
    + by intros [x Hx].
    + unfold old. by rewrite answersOf_default.
Qed.

(** getUserProfile never changes the answers of a session. *)
Lemma getUserProfile_answersOf (sessionId other : string) (σ : State) :
  answersOf other (snd (getUserProfile questions sessionId σ)) = answersOf other σ.
Proof.
  unfold getUserProfile, answersOf.
  destruct (userSessions σ !! sessionId) as [session |] eqn:Hs; [| done].
  destruct (s_profile session); [done |]. simpl.
  destruct (decide (sessionId = other)) as [<- | Hne].
  - by rewrite lookup_insert_eq, Hs.
  - by rewrite lookup_insert_ne.
Qed.

Lemma clearSession_answersOf (sessionId other : string) (σ : State) :
  answersOf other (clearSession sessionId σ) =
  if decide (sessionId = other) then [] else answersOf other σ.
Proof.
  unfold clearSession, answersOf. simpl.
  destruct (decide (sessionId = other)) as [<- | Hne].
  - by rewrite lookup_delete_eq.
  - by rewrite lookup_delete_ne.
Qed.

(** A property of the initial state that every call preserves holds in every
    state a client can reach. *)
Lemma run_invariant (P : State -> Prop) :
  P initial ->
  (forall σ c, P σ -> P (step questions σ c)) ->
  forall calls, P (run questions calls).
Proof.
  intros Hinit Hstep calls. unfold run.
  induction calls as [| c calls IH] using rev_ind; [done |].
  rewrite fold_left_app. simpl. by apply Hstep.
Qed.

End CallEffects.

(** ** Invariants of the store *)

Section StoreInvariants.

Import DiagnosticService.

Variable questions : list Question.

Lemma replaced_NoDup (questionId selectedOptionId : string) (now : Z) (l : list Answer) :
  NoDup (map a_questionId l) ->
  NoDup (map a_questionId
           (filter (fun a => a_questionId a <> questionId) l ++
            [ {| a_questionId := questionId; a_selectedOption := selectedOptionId;
                 a_timestamp := now |} ])).
Proof.
  intros Hnd. rewrite map_app. apply NoDup_app. split; [| split].
  - eapply sublist_NoDup; [exact Hnd |].
    apply (fmap_sublist a_questionId), sublist_filter.
  - intros x Hx Hin. simpl in Hin. apply list_elem_of_singleton in Hin as ->.
    apply list_elem_of_fmap in Hx as (a & Ha & Hin).
    apply list_elem_of_filter in Hin as [Hne _]. by apply Hne.
  - simpl. apply NoDup_singleton.
Qed.

Lemma step_oneAnswerPerQuestion (σ : State) (c : call) :
  oneAnswerPerQuestion σ -> oneAnswerPerQuestion (step questions σ c).
Proof.
  intros Hinv. destruct c as [s q o now | s | s | s]; simpl.
  - intros s' session Hs'.
    pose proof (submitAnswer_effect questions s q o now σ) as (_ & Hother & Hsame & Hres).
    destruct (decide (s' = s)) as [-> | Hne]; [| rewrite Hother in Hs' by done; eauto].
    rewrite Hsame in Hs'. inversion Hs'; subst session; clear Hs'. simpl.
    assert (Hold : NoDup (map a_questionId (answersOf s σ))).
    { unfold answersOf. destruct (userSessions σ !! s) eqn:Hs; [eauto | constructor]. }
    destruct (fst (submitAnswer questions s q o now σ)) as [answers | e].
    + destruct Hres as (_ & -> & ->). by apply replaced_NoDup.
    + destruct Hres as [_ ->]. exact Hold.
  - intros s' session Hs'. unfold getUserProfile in Hs'.
    destruct (userSessions σ !! s) as [cur |] eqn:Hs; [| eauto].
    destruct (s_profile cur); [eauto |]. simpl in Hs'.
    destruct (decide (s = s')) as [<- | Hne].
    + rewrite lookup_insert_eq in Hs'. inversion Hs'; subst session. simpl. eauto.
    + rewrite lookup_insert_ne in Hs' by done. eauto.
  - intros s' session Hs'. unfold getAnswers in Hs'.
    destruct (userSessions σ !! s); simpl in Hs'; eauto.
  - intros s' session Hs'. simpl in Hs'.
    apply lookup_delete_Some in Hs' as [_ Hs']. eauto.
Qed.

Lemma step_cachedAllocated (σ : State) (c : call) :
  cachedAllocated σ -> cachedAllocated (step questions σ c).
Proof.
  intros Hinv. destruct c as [s q o now | s | s | s]; simpl.
  - intros s' session r Hs' Hr.
    pose proof (submitAnswer_effect questions s q o now σ) as (Hobj & Hother & Hsame & _).
    unfold deref. rewrite Hobj.
    destruct (decide (s' = s)) as [-> | Hne]; [| rewrite Hother in Hs' by done; eauto].
    rewrite Hsame in Hs'. inversion Hs'; subst session; clear Hs'. simpl in Hr.
    destruct (userSessions σ !! s) as [old |] eqn:Hs; [| discriminate]. eauto.
  - intros s' session r Hs' Hr. unfold getUserProfile in *.
    destruct (userSessions σ !! s) as [cur |] eqn:Hs; [| eauto].
    destruct (s_profile cur) eqn:Hp; [eauto |]. simpl in *. unfold deref. simpl.
    destruct (decide (s = s')) as [<- | Hne].
    + rewrite lookup_insert_eq in Hs'. inversion Hs'; subst session. simpl in Hr.
      inversion Hr; subst r. apply lookup_lt_is_Some. rewrite length_app. simpl. lia.
    + rewrite lookup_insert_ne in Hs' by done.
      apply lookup_lt_is_Some. rewrite length_app. simpl.
      pose proof (Hinv s' session r Hs' Hr) as Hlt.
      apply lookup_lt_is_Some in Hlt. lia.
  - intros s' session r Hs' Hr. unfold getAnswers in *.
    destruct (userSessions σ !! s); simpl in *; eauto.
  - intros s' session r Hs' Hr. simpl in Hs'.
    apply lookup_delete_Some in Hs' as [_ Hs']. unfold deref. simpl. eauto.
Qed.

(** A cached profile survives every call but the clearing of its session. *)
Lemma step_holdsProfile (sessionId : string) (r : ref) (profile : UserProfile)
    (σ : State) (c : call) :
  c <> ClearSession sessionId ->
  holdsProfile sessionId r profile σ ->
  holdsProfile sessionId r profile (step questions σ c).
Proof.
  intros Hc [(session & Hs & Hp) Hd]. destruct c as [s q o now | s | s | s]; simpl.
  - pose proof (submitAnswer_effect questions s q o now σ) as (Hobj & Hother & Hsame & _).
    split; [| unfold deref; by rewrite Hobj].
    destruct (decide (sessionId = s)) as [<- | Hne].
    + eexists. split; [exact Hsame |]. simpl. by rewrite Hs.
    + exists session. by rewrite Hother.
  - unfold getUserProfile.
    destruct (userSessions σ !! s) as [cur |] eqn:Hcur; [| split; eauto].
    destruct (s_profile cur) eqn:Hpc; [split; eauto |]. simpl.
    assert (Hne : s <> sessionId) by (intros ->; congruence).
    split.
    + exists session. simpl. by rewrite lookup_insert_ne.
    + unfold deref in *. simpl. by apply lookup_app_l_Some.
  - unfold getAnswers. destruct (userSessions σ !! s); split; eauto.
  - split; [| exact Hd]. exists session. simpl.
    rewrite lookup_delete_ne; [done |]. intros ->. by apply Hc.
Qed.

Lemma fold_holdsProfile (sessionId : string) (r : ref) (profile : UserProfile)
    (later : list call) (σ : State) :
  Forall (fun c => c <> ClearSession sessionId) later ->
  holdsProfile sessionId r profile σ ->
  holdsProfile sessionId r profile (fold_left (step questions) later σ).
Proof.
  intros Hlater. revert σ. induction Hlater as [| c later Hc Hlater IH]; intros σ H; simpl.
  - exact H.
  - by apply IH, step_holdsProfile.
Qed.

(** Calls of submitAnswer alone never cache a profile. *)
Lemma step_nothingCached (σ : State) (c : call) :
  isSubmitAnswer c -> nothingCached σ -> nothingCached (step questions σ c).
Proof.
  intros Hc Hinv s' session Hs'. destruct c as [s q o now | | |]; try done.
  simpl in Hs'.
  pose proof (submitAnswer_effect questions s q o now σ) as (_ & Hother & Hsame & _).
  destruct (decide (s' = s)) as [-> | Hne]; [| rewrite Hother in Hs' by done; eauto].
  rewrite Hsame in Hs'. inversion Hs'; subst session; clear Hs'. simpl.
  destruct (userSessions σ !! s) eqn:Hs; simpl; eauto.
Qed.

Lemma submits_nothingCached (calls : list call) :
  Forall isSubmitAnswer calls -> nothingCached (run questions calls).
Proof.
  intros Hcalls. unfold run.
  assert (Hinit : nothingCached initial).
  { intros s session Hs. change (userSessions initial) with (∅ : gmap string Session) in Hs.
    by rewrite lookup_empty in Hs. }
  revert Hinit. generalize initial.
  induction Hcalls as [| c calls Hc Hcalls IH]; intros σ Hσ; simpl; [done |].
  by apply IH, step_nothingCached.
Qed.

Lemma run_oneAnswerPerQuestion (calls : list call) :
  oneAnswerPerQuestion (run questions calls).
Proof.
  apply run_invariant; [| apply step_oneAnswerPerQuestion].
  intros s session Hs. change (userSessions initial) with (∅ : gmap string Session) in Hs.
  by rewrite lookup_empty in Hs.
Qed.

Lemma run_cachedAllocated (calls : list call) : cachedAllocated (run questions calls).
Proof.
  apply run_invariant; [| apply step_cachedAllocated].
  intros s session r Hs. change (userSessions initial) with (∅ : gmap string Session) in Hs.
  by rewrite lookup_empty in Hs.
Qed.

End StoreInvariants.

(** ** Overwritten answers *)

Section Overwrite.

Import DiagnosticService.

Variable questions : list Question.

Lemma answersOf_other (sessionId : string) (σ σ' : State) :
  userSessions σ' !! sessionId = userSessions σ !! sessionId ->
  answersOf sessionId σ' = answersOf sessionId σ.
Proof. intros H. unfold answersOf. by rewrite H. Qed.

Lemma filter_swap (q q' : string) (l : list Answer) :
  filter (fun a => a_questionId a <> q) (filter (fun a => a_questionId a <> q') l) =
  filter (fun a => a_questionId a <> q') (filter (fun a => a_questionId a <> q) l).
Proof. rewrite !list_filter_filter. apply list_filter_iff. intros a. tauto. Qed.

(** The answers a submitAnswer leaves in the session it addresses. *)
Lemma submitAnswer_answersOf (sessionId questionId selectedOptionId : string) (now : Z)
    (σ : State) :
  answersOf sessionId
    (snd (submitAnswer questions sessionId questionId selectedOptionId now σ)) =
  if decide (accepted questions questionId selectedOptionId) then
    filter (fun a => a_questionId a <> questionId) (answersOf sessionId σ) ++
    [ {| a_questionId := questionId; a_selectedOption := selectedOptionId;
         a_timestamp := now |} ]
  else answersOf sessionId σ.
Proof.
  pose proof (submitAnswer_effect questions sessionId questionId selectedOptionId now σ)
    as (_ & _ & _ & Hres).
  destruct (fst (submitAnswer questions sessionId questionId selectedOptionId now σ)).
  - destruct Hres as (Hacc & -> & ->). by rewrite decide_True.
  - destruct Hres as (Hacc & ->). by rewrite decide_False.
Qed.

Lemma step_agreeExcept (q : string) (σA σB : State) (c : call) :
  agreeExcept q σA σB -> agreeExcept q (step questions σA c) (step questions σB c).
Proof.
  intros Hagree s0. destruct c as [s q' o now | s | s | s]; simpl.
  - destruct (decide (s0 = s)) as [-> | Hne].
    + rewrite !submitAnswer_answersOf. destruct (decide _); [| apply Hagree].
      rewrite !filter_app.
      rewrite (filter_swap q q' (answersOf s σA)), (filter_swap q q' (answersOf s σB)).
      by rewrite Hagree.
    + pose proof (submitAnswer_effect questions s q' o now σA) as (_ & HA & _).
      pose proof (submitAnswer_effect questions s q' o now σB) as (_ & HB & _).
      rewrite (answersOf_other s0 σA _ (HA s0 Hne)), (answersOf_other s0 σB _ (HB s0 Hne)).
      apply Hagree.
  - rewrite !getUserProfile_answersOf. apply Hagree.
  - unfold getAnswers.
    destruct (userSessions σA !! s), (userSessions σB !! s); apply Hagree.
  - rewrite !clearSession_answersOf. destruct (decide _); [done | apply Hagree].
Qed.

Lemma fold_agreeExcept (q : string) (calls : list call) (σA σB : State) :
  agreeExcept q σA σB ->
  agreeExcept q (fold_left (step questions) calls σA) (fold_left (step questions) calls σB).
Proof.
  revert σA σB. induction calls as [| c calls IH]; intros σA σB H; simpl; [done |].
  by apply IH, step_agreeExcept.
Qed.

(** An answer to [q] leaves the answers to the other questions as they were. *)
Lemma submit_agreeExcept (sessionId q o : string) (now : Z) (σ : State) :
  agreeExcept q (step questions σ (SubmitAnswer sessionId q o now)) σ.
Proof.
  intros s0. simpl. destruct (decide (s0 = sessionId)) as [-> | Hne].
  - rewrite submitAnswer_answersOf. destruct (decide _); [| done].
    rewrite filter_app, list_filter_filter_l by done.
    rewrite (filter_cons_False _ _ []) by (simpl; naive_solver).
    by rewrite filter_nil, app_nil_r.
  - pose proof (submitAnswer_effect questions sessionId q o now σ) as (_ & H & _).
    by rewrite (answersOf_other s0 σ _ (H s0 Hne)).
Qed.

(** The first of two answers to a question leaves no trace once the second
    is accepted. *)
Lemma overwritten (pre mid : list call) (sessionId q o1 o2 : string) (t1 t2 : Z) :
  accepted questions q o2 ->
  answersOf sessionId
    (run questions
       (pre ++ SubmitAnswer sessionId q o1 t1 :: mid ++ [SubmitAnswer sessionId q o2 t2])) =
  answersOf sessionId
    (run questions (pre ++ mid ++ [SubmitAnswer sessionId q o2 t2])).
Proof.
  intros Hacc. unfold run.
  rewrite !fold_left_app. simpl. rewrite !fold_left_app. simpl.
  rewrite !submitAnswer_answersOf, !decide_True by done. f_equal.
  apply fold_agreeExcept, submit_agreeExcept.
Qed.

End Overwrite.

Section AnswerTheorems.

Import DiagnosticService.

Lemma filter_replaced (questionId : string) (answer : Answer) (l : list Answer) :
  a_questionId answer = questionId ->
  filter (fun a => a_questionId a = questionId)
    (filter (fun a => a_questionId a <> questionId) l ++ [answer]) = [answer].
Proof.
  intros Hq. rewrite filter_app, list_filter_filter.
  rewrite (filter_cons_True _ _ []) by done. rewrite filter_nil.
  replace (filter (fun a => a_questionId a = questionId /\ a_questionId a <> questionId) l)
    with (@nil Answer); [done |].
  induction l as [| a l IH]; [done |].
  rewrite filter_cons_False by tauto. exact IH.
Qed.

(** C3.  In every state a client can reach, a session retains at most one
    answer per question.  An accepted answer replaces the one the session
    held for its question and goes last.  When a question is answered twice,
    the answers retained after the second answer are those of a client who
    never gave the first: the only answer to the question is the second one,
    and the profile computed from the answers is the same.  After calls of
    submitAnswer alone, getUserProfile computes the profile of the answers
    the session retains. *)
Theorem submitAnswer_last_write_wins (questions : list Question) :
  (forall calls, oneAnswerPerQuestion (run questions calls)) /\
  (forall sessionId questionId selectedOptionId now σ answers σ',
     submitAnswer questions sessionId questionId selectedOptionId now σ = (Ok answers, σ') ->
     let answer :=
       {| a_questionId := questionId; a_selectedOption := selectedOptionId;
          a_timestamp := now |} in
     answers =
       filter (fun a => a_questionId a <> questionId) (answersOf sessionId σ) ++ [answer] /\
     answersOf sessionId σ' = answers /\
     filter (fun a => a_questionId a = questionId) answers = [answer]) /\
  (forall pre mid sessionId q o1 t1 o2 t2,
     accepted questions q o2 ->
     let σA :=
       run questions
         (pre ++ SubmitAnswer sessionId q o1 t1 :: mid ++ [SubmitAnswer sessionId q o2 t2]) in
     let σB := run questions (pre ++ mid ++ [SubmitAnswer sessionId q o2 t2]) in
     answersOf sessionId σA = answersOf sessionId σB /\
     filter (fun a => a_questionId a = q) (answersOf sessionId σA) =
       [ {| a_questionId := q; a_selectedOption := o2; a_timestamp := t2 |} ] /\
     computeProfile questions (answersOf sessionId σA) =
       computeProfile questions (answersOf sessionId σB)) /\
  (forall calls sessionId session,
     Forall isSubmitAnswer calls ->
     userSessions (run questions calls) !! sessionId = Some session ->
     exists r σ',
       getUserProfile questions sessionId (run questions calls) = (Ok r, σ') /\
       deref σ' r = Some (computeProfile questions (s_answers session))).
Proof.
  split; [apply run_oneAnswerPerQuestion |]. split; [| split].
  - intros sessionId questionId selectedOptionId now σ answers σ' Hsub answer.
    pose proof (submitAnswer_effect questions sessionId questionId selectedOptionId now σ)
      as (_ & _ & _ & Hres).
    rewrite Hsub in Hres. simpl in Hres. destruct Hres as (_ & Hans & Hof).
    split; [exact Hans |]. split; [exact Hof |].
    rewrite Hans. by apply filter_replaced.
  - intros pre mid sessionId q o1 t1 o2 t2 Hacc σA σB.
    assert (Heq : answersOf sessionId σA = answersOf sessionId σB)
      by (by apply overwritten).
    split; [exact Heq |]. split; [| by rewrite Heq].
    rewrite Heq. unfold σB, run. rewrite !fold_left_app. simpl.
    rewrite submitAnswer_answersOf, decide_True by done.
    by apply filter_replaced.
  - intros calls sessionId session Hcalls Hs.
    pose proof (submits_nothingCached questions calls Hcalls sessionId session Hs) as Hp.
    destruct (getUserProfile_computes questions sessionId _ session Hs Hp) as [Hget Hd].
    eexists _, _. split; [exact Hget | exact Hd].
Qed.

(** With the sample catalog: [housing_01] answered twice in session ["s"]
    leaves what the second answer alone leaves. *)
Lemma submitAnswer_last_write_wins_witness :
  answersOf "s"
    (run Sample.questions
       [ SubmitAnswer "s" "housing_01" "housing_01_a" 1;
         SubmitAnswer "s" "housing_01" "housing_01_b" 2 ]) =
  answersOf "s" (run Sample.questions [SubmitAnswer "s" "housing_01" "housing_01_b" 2]).
Proof.
  refine (proj1 (proj1 (proj2 (proj2 (submitAnswer_last_write_wins Sample.questions)))
                   [] [] "s" "housing_01" "housing_01_a" 1%Z "housing_01_b" 2%Z _)).
  by eexists.
Defined.

(** C7.  In every state a client can reach, once getUserProfile has returned
    a profile, the next call returns the same reference and leaves the state
    as it is: no object is created, and the reference names a profile.  The
    same reference, naming the same profile, is returned after any further
    calls that do not clear the session. *)
Theorem getUserProfile_stable (questions : list Question) (calls : list call)
    (sessionId : string) (r : ref) (σ1 : State) :
  getUserProfile questions sessionId (run questions calls) = (Ok r, σ1) ->
  getUserProfile questions sessionId σ1 = (Ok r, σ1) /\
  exists profile,
    deref σ1 r = Some profile /\
    forall later,
      Forall (fun c => c <> ClearSession sessionId) later ->
      let σ2 := fold_left (step questions) later σ1 in
      getUserProfile questions sessionId σ2 = (Ok r, σ2) /\ deref σ2 r = Some profile.
Proof.
  intros H.
  assert (Hwf : cachedAllocated σ1).
  { replace σ1 with (run questions (calls ++ [GetUserProfile sessionId])).
    - apply run_cachedAllocated.
    - unfold run. rewrite fold_left_app. simpl. fold (run questions calls). by rewrite H. }
  assert (Hcached : exists session,
            userSessions σ1 !! sessionId = Some session /\ s_profile session = Some r).
  { unfold getUserProfile in H.
    destruct (userSessions (run questions calls) !! sessionId) as [session |] eqn:Hs;
      [| discriminate].
    destruct (s_profile session) as [r0 |] eqn:Hp; inversion H; subst; clear H.
    - by exists session.
    - eexists. simpl. by rewrite lookup_insert_eq. }
  destruct Hcached as (session & Hs & Hp).
  split; [by eapply getUserProfile_cached |].
  destruct (Hwf sessionId session r Hs Hp) as [profile Hd].
  exists profile. split; [exact Hd |].
  intros later Hlater σ2.
  destruct (fold_holdsProfile questions sessionId r profile later σ1 Hlater)
    as [(session2 & Hs2 & Hp2) Hd2]; [split; eauto |].
  split; [by eapply getUserProfile_cached | exact Hd2].
Qed.

Lemma getUserProfile_stable_witness :
  getUserProfile Sample.questions "s"
    (snd (getUserProfile Sample.questions "s"
            (run Sample.questions [SubmitAnswer "s" "housing_01" "housing_01_a" 1])))
  = (Ok 0%nat,
     snd (getUserProfile Sample.questions "s"
            (run Sample.questions [SubmitAnswer "s" "housing_01" "housing_01_a" 1]))).
Proof.
  exact (proj1 (getUserProfile_stable Sample.questions
                  [SubmitAnswer "s" "housing_01" "housing_01_a" 1] "s" 0%nat _ eq_refl)).
Defined.

End AnswerTheorems.

(** ** The cached profile and later answers *)

Section CacheTheorems.

Import DiagnosticService.

(** C6, as the code has it.  submitAnswer does not touch the cached profile.
    After a successful submitAnswer, getUserProfile returns the profile object
    that was cached before the call when there was one, whatever the answers
    are now; it computes the profile of the current answers only when the
    session held no cached profile. *)
Theorem getUserProfile_after_submitAnswer (questions : list Question)
    (sessionId questionId selectedOptionId : string) (now : Z) (σ σ1 : State)
    (answers : list Answer) :
  submitAnswer questions sessionId questionId selectedOptionId now σ = (Ok answers, σ1) ->
  match userSessions σ !! sessionId ≫= s_profile with
  | Some cached =>
      getUserProfile questions sessionId σ1 = (Ok cached, σ1) /\
      deref σ1 cached = deref σ cached
  | None =>
      exists r σ2,
        getUserProfile questions sessionId σ1 = (Ok r, σ2) /\
        deref σ2 r = Some (computeProfile questions answers)
  end.
Proof.
  intros Hsub.
  pose proof (submitAnswer_effect questions sessionId questionId selectedOptionId now σ)
    as (Hobj & _ & Hsame & Hres).
  rewrite Hsub in Hobj, Hsame, Hres. simpl in Hobj, Hsame, Hres.
  destruct Hres as (_ & _ & Hof). rewrite Hof in Hsame.
  destruct (userSessions σ !! sessionId) as [old |] eqn:Hs; simpl in *.
  - destruct (s_profile old) as [cached |] eqn:Hp.
    + split; [by eapply getUserProfile_cached |]. unfold deref. by rewrite Hobj.
    + destruct (getUserProfile_computes questions sessionId σ1 _ Hsame eq_refl)
        as [Hget Hd].
      eexists _, _. split; [exact Hget | exact Hd].
  - destruct (getUserProfile_computes questions sessionId σ1 _ Hsame eq_refl)
      as [Hget Hd].
    eexists _, _. split; [exact Hget | exact Hd].
Qed.

Lemma getUserProfile_after_submitAnswer_witness :
  getUserProfile Sample.questions "s"
    (snd (submitAnswer Sample.questions "s" "price_01" "price_01_a" 2
            (run Sample.questions staleCalls)))
  = (Ok 0%nat,
     snd (submitAnswer Sample.questions "s" "price_01" "price_01_a" 2
            (run Sample.questions staleCalls))).
Proof.
  exact (proj1 (getUserProfile_after_submitAnswer Sample.questions "s" "price_01"
                  "price_01_a" 2 (run Sample.questions staleCalls) _ _ eq_refl)).
Defined.

(** What the three calls and the read after them give. *)
Lemma stale_profile_run :
  let σ1 := snd (submitAnswer Sample.questions "s" "price_01" "price_01_a" 2
                   (run Sample.questions staleCalls)) in
  submitAnswer Sample.questions "s" "price_01" "price_01_a" 2
    (run Sample.questions staleCalls) = (Ok [firstAnswer; secondAnswer], σ1) /\
  getUserProfile Sample.questions "s" σ1 = (Ok 0%nat, σ1) /\
  deref σ1 0%nat = Some (computeProfile Sample.questions [firstAnswer]).
Proof. repeat split; vm_compute; reflexivity. Qed.

(** C6, counterexample.  With the sample catalog: answer [housing_01], read
    the profile, answer [price_01], read again.  The second read returns the
    object of the first read, whose snapshot holds one answer, while the
    session holds two. *)
Lemma submit_does_not_invalidate_profile :
  (let σ1 := snd (submitAnswer Sample.questions "s" "price_01" "price_01_a" 2
                    (run Sample.questions staleCalls)) in
   fst (submitAnswer Sample.questions "s" "price_01" "price_01_a" 2
          (run Sample.questions staleCalls)) = Ok [firstAnswer; secondAnswer] /\
   fst (getUserProfile Sample.questions "s" σ1) = Ok 0%nat /\
   answers <$> deref (snd (getUserProfile Sample.questions "s" σ1)) 0%nat
     = Some [firstAnswer]) /\
  ~ submitInvalidatesProfile Sample.questions.
Proof.
  split; [repeat split; vm_compute; reflexivity |].
  destruct stale_profile_run as (Hsub & Hget & Hd).
  intros H. specialize (H staleCalls "s" "price_01" "price_01_a" 2%Z _ _ _ _ Hsub Hget).
  rewrite Hd in H. apply (f_equal (fmap answers)) in H. discriminate H.
Qed.

(** C8, counterexample.  The store of the constructor knows no session, and
    getAnswers returns the empty list for ["ghost"] instead of throwing. *)
Lemma getAnswers_unknown_session :
  (userSessions initial !! "ghost" = None /\ getAnswers "ghost" initial = (Ok [], initial)) /\
  ~ unknownSessionReadsThrow Sample.questions.
Proof.
  split; [by split |].
  intros H. destruct (H [] "ghost" eq_refl) as [_ Hthrow]. discriminate Hthrow.
Qed.

End CacheTheorems.

(** ** The computed profile *)

Section WeightTheorems.

Import DiagnosticService.

(** The weights the priority answer selects, by the preset table. *)
Lemma userCategoryWeights_preset (token : string) (answers : list Answer) :
  selects token answers -> userCategoryWeights answers = preset token.
Proof.
  intros (priorityAnswer & Hfind & Hall). unfold userCategoryWeights. rewrite Hfind.
  unfold tokens in Hall.
  repeat match goal with
         | H : Forall _ (_ :: _) |- _ => apply Forall_cons in H as [? H]
         end.
  repeat match goal with
         | H : includes _ _ = _ |- _ => rewrite H; clear H
         end.
  unfold preset.
  repeat case_bool_decide; repeat case_decide; simplify_eq; reflexivity.
Qed.

(** C5.  The category weights of the profile getUserProfile computes: all 1.0
    without answer to [priority_01]; otherwise the row of the preset table
    for the token the selected option names (0.5 everywhere when it names
    none).  The token ["price"] gives price 3.0, housing 2.5 and 0.5 for
    the other three categories. *)
Theorem userCategoryWeights_presets (questions : list Question) (sessionId : string)
    (σ : State) (session : Session) :
  userSessions σ !! sessionId = Some session ->
  s_profile session = None ->
  exists r σ' profile weights,
    getUserProfile questions sessionId σ = (Ok r, σ') /\
    deref σ' r = Some profile /\
    categoryWeights profile = Some weights /\
    (List.find (fun a => bool_decide (a_questionId a = "priority_01")) (s_answers session)
       = None ->
     weights = all 1.0) /\
    (forall token, selects token (s_answers session) -> weights = preset token) /\
    (selects "price" (s_answers session) ->
     c_price weights = 3.0 /\ c_housing weights = 2.5 /\ c_transport weights = 0.5 /\
     c_commercial weights = 0.5 /\ c_culture weights = 0.5).
Proof.
  intros Hs Hp.
  destruct (getUserProfile_computes questions sessionId σ session Hs Hp) as [Hget Hd].
  eexists _, _, _, (userCategoryWeights (s_answers session)).
  split; [exact Hget |]. split; [exact Hd |].
  split. { unfold computeProfile. by destruct (categorySums _ _). }
  split. { intros Hnone. unfold userCategoryWeights. by rewrite Hnone. }
  split. { intros token. apply userCategoryWeights_preset. }
  intros Hprice. by rewrite (userCategoryWeights_preset "price").
Qed.

(** The option [priority_price] names the token ["price"] and no other: the
    profile computed after that answer has the weights of the price row. *)
Lemma userCategoryWeights_presets_witness :
  selects "price" [priceAnswer] /\
  exists r σ' profile weights,
    getUserProfile Sample.questions "s"
      (run Sample.questions [SubmitAnswer "s" "priority_01" "priority_price" 3]) = (Ok r, σ') /\
    deref σ' r = Some profile /\
    categoryWeights profile = Some weights /\
    c_price weights = 3.0 /\ c_housing weights = 2.5 /\ c_transport weights = 0.5 /\
    c_commercial weights = 0.5 /\ c_culture weights = 0.5.
Proof.
  assert (Hselects : selects "price" [priceAnswer]).
  { eexists. split; [reflexivity |]. repeat constructor. }
  split; [exact Hselects |].
  destruct (userCategoryWeights_presets Sample.questions "s"
              (run Sample.questions [SubmitAnswer "s" "priority_01" "priority_price" 3])
              {| s_answers := [priceAnswer]; s_profile := None |} eq_refl eq_refl)
    as (r & σ' & profile & weights & Hget & Hd & Hw & _ & _ & Hprice).
  exists r, σ', profile, weights.
  split; [exact Hget |]. split; [exact Hd |]. split; [exact Hw |]. exact (Hprice Hselects).
Defined.

End WeightTheorems.

(** * Further properties of the recommendation service *)

Section ScoreMonotone.

Import RecommendationService.














End ScoreMonotone.

Section FullRankingProperties.

Import RecommendationService.





End FullRankingProperties.

Section ExplanationProperties.

Import RecommendationService.

Ltac part_cases :=
  unfold strengthPerMatch, when, pushMatch, pushStrength, pushConsideration;
  repeat match goal with
         | |- context [if geb ?a ?b then _ else _] => destruct (geb a b)
         | |- context [if leb ?a ?b then _ else _] => destruct (leb a b)
         | |- context [if decide ?P then _ else _] => destruct (decide P)
         end;
  simpl; rewrite ?length_app; simpl; repeat split; try reflexivity; try lia.

Lemma transportPart_keeps (name : string) (features : StationFeatures)
    (e : RecommendationExplanation) :
  considerations (transportPart name features e) = considerations e /\
  (strengthPerMatch e -> strengthPerMatch (transportPart name features e)).
Proof. unfold transportPart. part_cases. Qed.

Lemma commercialPart_keeps (name : string) (features : StationFeatures)
    (e : RecommendationExplanation) :
  considerations (commercialPart name features e) = considerations e /\
  (strengthPerMatch e -> strengthPerMatch (commercialPart name features e)).
Proof. unfold commercialPart. part_cases. Qed.

Lemma culturePart_keeps (name : string) (features : StationFeatures)
    (e : RecommendationExplanation) :
  considerations (culturePart name features e) = considerations e /\
  (strengthPerMatch e -> strengthPerMatch (culturePart name features e)).
Proof. unfold culturePart. part_cases. Qed.

Lemma pricePart_keeps (name : string) (features : StationFeatures)
    (e : RecommendationExplanation) :
  considerations (pricePart name features e) = considerations e /\
  (strengthPerMatch e -> strengthPerMatch (pricePart name features e)).
Proof. unfold pricePart. part_cases. Qed.

Lemma priorityPart_keeps (name : string) (features : StationFeatures) (priority : string)
    (e : RecommendationExplanation) :
  considerations (priorityPart name features priority e) = considerations e /\
  matchingFeatures (priorityPart name features priority e) = matchingFeatures e /\
  (strengthPerMatch e -> strengthPerMatch (priorityPart name features priority e)).
Proof. unfold priorityPart. part_cases. Qed.

Lemma housingPart_keeps (name : string) (features : StationFeatures)
    (e : RecommendationExplanation) :
  considerations (housingPart name features e) =
    considerations e ++
    (if leb (rentLevel (f_housing features)) 2 then []
     else if geb (rentLevel (f_housing features)) 4
          then [name +:+ "周辺の家賃は比較的高めです"] else []) /\
  (strengthPerMatch e -> strengthPerMatch (housingPart name features e)).
Proof. unfold housingPart. part_cases; by rewrite app_nil_r. Qed.

Lemma priorityLoop_keeps (name : string) (features : StationFeatures) (tags : list string)
    (e : RecommendationExplanation) :
  let e' := fold_left (fun e priority => priorityPart name features priority e) tags e in
  considerations e' = considerations e /\
  matchingFeatures e' = matchingFeatures e /\
  (strengthPerMatch e -> strengthPerMatch e').
Proof.
  revert e. induction tags as [| tag tags IH]; intros e; cbn [fold_left]; [done |].
  destruct (IH (priorityPart name features tag e)) as (Hc & Hm & Hs).
  destruct (priorityPart_keeps name features tag e) as (Hc' & Hm' & Hs').
  cbv zeta in *. rewrite Hc, Hm, Hc', Hm'. auto.
Qed.

(** X5.  An explanation has a strength for every matching feature.  Its
    considerations are the note on high rent (when housing is preferred
    above 3 and the rent level is 4 or more) followed by the note of a
    balanced area exactly when no feature matched; so an explanation has a
    matching feature or a consideration (it can have matching features and
    no consideration), and when no preference exceeds 3 it has no matching
    feature and the balanced note is its only consideration. *)
Theorem explainRecommendation_considerations (station : Station) (userProfile : UserProfile) :
  let e := explainRecommendation station userProfile in
  let name := st_name station in
  let rent := rentLevel (f_housing (st_features station)) in
  let highRent :=
    if gtb (c_housing (preferences userProfile)) 3 && negb (leb rent 2) && geb rent 4
    then [name +:+ "周辺の家賃は比較的高めです"] else [] in
  let balanced :=
    if bool_decide (matchingFeatures e = [])
    then [name +:+ "はバランスの取れた地域として推薦されました"] else [] in
  (length (matchingFeatures e) <= length (strengths e))%nat /\
  considerations e = highRent ++ balanced /\
  (matchingFeatures e <> [] \/ considerations e <> []) /\
  (gtb (c_housing (preferences userProfile)) 3 = false ->
   gtb (c_transport (preferences userProfile)) 3 = false ->
   gtb (c_commercial (preferences userProfile)) 3 = false ->
   gtb (c_culture (preferences userProfile)) 3 = false ->
   gtb (c_price (preferences userProfile)) 3 = false ->
   matchingFeatures e = [] /\
   considerations e = [name +:+ "はバランスの取れた地域として推薦されました"]).
Proof.
  intros e name rent highRent balanced.
  unfold explainRecommendation in e. cbv zeta in e. fold name in e.
  set (features := st_features station) in *.
  set (p := preferences userProfile) in *.
  set (e1 := when (gtb (c_housing p) 3) (housingPart name features) emptyExplanation) in *.
  set (e2 := when (gtb (c_transport p) 3) (transportPart name features) e1) in *.
  set (e3 := when (gtb (c_commercial p) 3) (commercialPart name features) e2) in *.
  set (e4 := when (gtb (c_culture p) 3) (culturePart name features) e3) in *.
  set (e5 := when (gtb (c_price p) 3) (pricePart name features) e4) in *.
  set (e6 := fold_left (fun e priority => priorityPart name features priority e)
               (take 3 (priorities userProfile)) e5) in *.
  assert (H1 : considerations e1 = highRent /\ strengthPerMatch e1).
  { unfold e1, when, highRent. destruct (gtb (c_housing p) 3); simpl.
    - destruct (housingPart_keeps name features emptyExplanation) as [-> Hs].
      split; [| apply Hs; unfold strengthPerMatch; simpl; lia].
      fold rent. simpl. by destruct (leb rent 2), (geb rent 4).
    - split; [done | unfold strengthPerMatch; simpl; lia]. }
  assert (H2 : considerations e2 = highRent /\ strengthPerMatch e2).
  { unfold e2, when. destruct (gtb (c_transport p) 3); [| exact H1].
    destruct (transportPart_keeps name features e1) as [-> Hs]. destruct H1. auto. }
  assert (H3 : considerations e3 = highRent /\ strengthPerMatch e3).
  { unfold e3, when. destruct (gtb (c_commercial p) 3); [| exact H2].
    destruct (commercialPart_keeps name features e2) as [-> Hs]. destruct H2. auto. }
  assert (H4 : considerations e4 = highRent /\ strengthPerMatch e4).
  { unfold e4, when. destruct (gtb (c_culture p) 3); [| exact H3].
    destruct (culturePart_keeps name features e3) as [-> Hs]. destruct H3. auto. }
  assert (H5 : considerations e5 = highRent /\ strengthPerMatch e5).
  { unfold e5, when. destruct (gtb (c_price p) 3); [| exact H4].
    destruct (pricePart_keeps name features e4) as [-> Hs]. destruct H4. auto. }
  assert (H6 : considerations e6 = highRent /\ matchingFeatures e6 = matchingFeatures e5 /\
               strengthPerMatch e6).
  { destruct (priorityLoop_keeps name features (take 3 (priorities userProfile)) e5)
      as (Hc & Hm & Hs).
    destruct H5 as [Hc5 Hs5]. fold e6 in Hc, Hm, Hs. rewrite Hc. auto. }
  destruct H6 as (Hc6 & Hm6 & Hs6).
  assert (He : matchingFeatures e = matchingFeatures e6 /\
               strengths e = strengths e6 /\
               considerations e = highRent ++ balanced).
  { unfold balanced, e, when.
    destruct (matchingFeatures e6) as [| m ms] eqn:Hm; simpl.
    - rewrite Hm. simpl. by rewrite Hc6.
    - rewrite Hm. simpl. by rewrite Hc6, app_nil_r. }
  destruct He as (Hme & Hse & Hce).
  split; [unfold strengthPerMatch in Hs6; by rewrite Hme, Hse |].
  split; [exact Hce |]. split.
  - rewrite Hce. unfold balanced.
    destruct (matchingFeatures e) eqn:Hm; [right | by left].
    simpl. by destruct highRent.
  - intros Hh Ht Hc Hu Hp.
    assert (Hempty : matchingFeatures e = []).
    { rewrite Hme, Hm6. unfold e5, e4, e3, e2, e1, when.
      by rewrite Hh, Ht, Hc, Hu, Hp. }
    split; [exact Hempty |]. rewrite Hce. unfold balanced, highRent.
    rewrite Hempty, Hh. done.
Qed.

(** The sample profile with every preference lowered to 3. *)
Lemma explainRecommendation_considerations_witness :
  considerations
    (explainRecommendation (Sample.uniform "ueno" 3 3 ["JY"; "JK"; "JU"])
       {| preferences := DiagnosticService.all 3; priorities := ["quiet"];
          categoryWeights := None; answers := [] |})
  = ["ueno" +:+ "はバランスの取れた地域として推薦されました"].
Proof.
  destruct (explainRecommendation_considerations
              (Sample.uniform "ueno" 3 3 ["JY"; "JK"; "JU"])
              {| preferences := DiagnosticService.all 3; priorities := ["quiet"];
                 categoryWeights := None; answers := [] |}) as (_ & _ & _ & H).
  exact (proj2 (H eq_refl eq_refl eq_refl eq_refl eq_refl)).
Defined.

End ExplanationProperties.

(** * Further properties of the diagnostic service *)

Section ClearAndComplete.

Import DiagnosticService.

(** X6.  clearSession forgets the session: its answers read as empty, its
    profile read throws, it is not complete, and clearing again changes
    nothing; the other sessions are untouched.  The next accepted answer
    starts from nothing, and the profile read after it is computed from
    that answer alone. *)
Theorem clearSession_forgets (questions : list Question) (sessionId : string) (σ : State) :
  let σ' := clearSession sessionId σ in
  getAnswers sessionId σ' = (Ok [], σ') /\
  getUserProfile questions sessionId σ' = (Throw (SessionNotFound sessionId), σ') /\
  isDiagnosticComplete questions sessionId σ' = false /\
  clearSession sessionId σ' = σ' /\
  (forall other, other <> sessionId -> userSessions σ' !! other = userSessions σ !! other) /\
  (forall questionId selectedOptionId now answers σ1,
     submitAnswer questions sessionId questionId selectedOptionId now σ' = (Ok answers, σ1) ->
     let answer :=
       {| a_questionId := questionId; a_selectedOption := selectedOptionId;
          a_timestamp := now |} in
     answers = [answer] /\
     exists r σ2,
       getUserProfile questions sessionId σ1 = (Ok r, σ2) /\
       deref σ2 r = Some (computeProfile questions [answer])).
Proof.
  intros σ'.
  assert (Hnone : userSessions σ' !! sessionId = None) by apply lookup_delete_eq.
  split; [unfold getAnswers; by rewrite Hnone |].
  split; [unfold getUserProfile; by rewrite Hnone |].
  split; [unfold isDiagnosticComplete; by rewrite Hnone |].
  split.
  { unfold σ', clearSession. simpl. f_equal. apply delete_id, lookup_delete_eq. }
  split; [intros other Hne; by apply lookup_delete_ne |].
  intros questionId selectedOptionId now answers σ1 Hsub answer.
  pose proof (submitAnswer_effect questions sessionId questionId selectedOptionId now σ')
    as (_ & _ & Hsame & Hres).
  rewrite Hsub in Hsame, Hres. simpl in Hsame, Hres.
  destruct Hres as (_ & Hanswers & Hof).
  unfold answersOf in Hanswers at 1. rewrite Hnone in Hanswers. simpl in Hanswers.
  rewrite Hof, lookup_delete_eq in Hsame. simpl in Hsame.
  split; [exact Hanswers |].
  destruct (getUserProfile_computes questions sessionId σ1 _ Hsame eq_refl) as [Hget Hd].
  simpl in Hd. rewrite Hanswers in Hd. eexists _, _. split; [exact Hget |].
  rewrite Hanswers. exact Hd.
Qed.

End ClearAndComplete.

Section Completion.

Import DiagnosticService.

Variable questions : list Question.

Lemma step_keeps_session (sessionId : string) (σ : State) (c : call) :
  c <> ClearSession sessionId ->
  is_Some (userSessions σ !! sessionId) ->
  is_Some (userSessions (step questions σ c) !! sessionId).
Proof.
  intros Hc Hs. destruct c as [s q o now | s | s | s]; simpl.
  - pose proof (submitAnswer_effect questions s q o now σ) as (_ & Hother & Hsame & _).
    destruct (decide (sessionId = s)) as [-> | Hne].
    + rewrite Hsame. by eexists.
    + by rewrite Hother.
  - unfold getUserProfile. destruct (userSessions σ !! s) as [cur |] eqn:Hcur; [| done].
    destruct (s_profile cur); [done |]. simpl.
    destruct (decide (s = sessionId)) as [-> | Hne].
    + rewrite lookup_insert_eq. by eexists.
    + by rewrite lookup_insert_ne.
  - unfold getAnswers. by destruct (userSessions σ !! s).
  - rewrite lookup_delete_ne; [done | congruence].
Qed.

Lemma step_keeps_answered (sessionId questionId : string) (σ : State) (c : call) :
  c <> ClearSession sessionId ->
  questionId ∈ map a_questionId (answersOf sessionId σ) ->
  questionId ∈ map a_questionId (answersOf sessionId (step questions σ c)).
Proof.
  intros Hc Hin. destruct c as [s q o now | s | s | s]; simpl.
  - destruct (decide (sessionId = s)) as [-> | Hne].
    + rewrite submitAnswer_answersOf. destruct (decide _); [| done].
      rewrite map_app. apply elem_of_app.
      destruct (decide (questionId = q)) as [-> | Hq]; [right; simpl; left |].
      left. apply list_elem_of_fmap in Hin. destruct Hin as (ans & Heq & Ha).
      apply list_elem_of_fmap. exists ans. split; [done |].
      apply list_elem_of_filter. split; [congruence | done].
    + pose proof (submitAnswer_effect questions s q o now σ) as (_ & Hother & _).
      by rewrite (answersOf_other _ _ _ (Hother sessionId Hne)).
  - by rewrite getUserProfile_answersOf.
  - unfold getAnswers. by destruct (userSessions σ !! s).
  - rewrite clearSession_answersOf. rewrite decide_False; [done | congruence].
Qed.

Lemma isDiagnosticComplete_iff (sessionId : string) (σ : State) :
  isDiagnosticComplete questions sessionId σ = true <->
  is_Some (userSessions σ !! sessionId) /\
  Forall (fun q => q_id q ∈ map a_questionId (answersOf sessionId σ)) questions.
Proof.
  unfold isDiagnosticComplete, answersOf.
  destruct (userSessions σ !! sessionId) as [session |].
  - rewrite forallb_forall, Forall_forall. split.
    + intros H. split; [by eexists |]. intros q Hq.
      apply list_elem_of_In, H, bool_decide_eq_true in Hq.
      by apply elem_of_list_to_set in Hq.
    + intros [_ H] q Hq. apply bool_decide_eq_true, elem_of_list_to_set, H.
      by apply list_elem_of_In.
  - split; [done |]. by intros [[? ?] _].
Qed.

End Completion.

(** X7.  isDiagnosticComplete holds exactly of the known sessions that
    retain an answer to every question of the catalog.  Completion is
    lasting: a complete session stays complete through every call other
    than a clearSession of that very session, a fresh answer to an answered
    question and the calls of the other sessions included; and one accepted
    answer completes a session nothing else is missing from. *)
Theorem isDiagnosticComplete_lasting (questions : list Question) (sessionId : string)
    (σ : DiagnosticService.State) :
  (DiagnosticService.isDiagnosticComplete questions sessionId σ = true <->
   is_Some (DiagnosticService.userSessions σ !! sessionId) /\
   Forall (fun q => q_id q ∈ map a_questionId (answersOf sessionId σ)) questions) /\
  (forall calls,
     Forall (fun c => c <> ClearSession sessionId) calls ->
     DiagnosticService.isDiagnosticComplete questions sessionId σ = true ->
     DiagnosticService.isDiagnosticComplete questions sessionId
       (fold_left (step questions) calls σ) = true) /\
  (forall questionId selectedOptionId now,
     accepted questions questionId selectedOptionId ->
     Forall (fun q => q_id q = questionId \/
                      q_id q ∈ map a_questionId (answersOf sessionId σ)) questions ->
     DiagnosticService.isDiagnosticComplete questions sessionId
       (step questions σ (SubmitAnswer sessionId questionId selectedOptionId now)) = true).
Proof.
  split; [apply isDiagnosticComplete_iff |]. split.
  - intros calls Hcalls. revert σ.
    induction Hcalls as [| c calls Hc _ IH]; intros σ Hdone; [done |].
    simpl. apply IH. apply isDiagnosticComplete_iff in Hdone as [Hs Hall].
    apply isDiagnosticComplete_iff. split; [by apply step_keeps_session |].
    eapply Forall_impl; [exact Hall |]. intros q Hq. by apply step_keeps_answered.
  - intros q o now Hacc Hall. apply isDiagnosticComplete_iff. simpl.
    pose proof (submitAnswer_effect questions sessionId q o now σ) as (_ & _ & Hsame & _).
    split; [rewrite Hsame; by eexists |].
    rewrite submitAnswer_answersOf, decide_True by done.
    eapply Forall_impl; [exact Hall |]. intros question [Hq | Hq].
    + rewrite map_app. apply elem_of_app. right. simpl. rewrite Hq. left.
    + rewrite map_app. apply elem_of_app.
      destruct (decide (q_id question = q)) as [-> | Hne]; [right; left |].
      left. apply list_elem_of_fmap in Hq. destruct Hq as (ans & Heq & Ha).
      apply list_elem_of_fmap. exists ans. split; [done |].
      apply list_elem_of_filter. split; [congruence | done].
Qed.

Section AcceptedAnswers.

Import DiagnosticService.

Variable questions : list Question.

Lemma step_answersAccepted (σ : State) (c : call) :
  (forall sessionId,
     Forall (fun a => accepted questions (a_questionId a) (a_selectedOption a))
       (answersOf sessionId σ)) ->
  forall sessionId,
    Forall (fun a => accepted questions (a_questionId a) (a_selectedOption a))
      (answersOf sessionId (step questions σ c)).
Proof.
  intros Hinv sessionId. destruct c as [s q o now | s | s | s]; simpl.
  - destruct (decide (sessionId = s)) as [-> | Hne].
    + rewrite submitAnswer_answersOf. destruct (decide _) as [Hacc |]; [| apply Hinv].
      apply Forall_app. split.
      { apply Forall_forall. intros ans Hans. apply list_elem_of_filter in Hans.
        destruct Hans as [_ Hans]. revert ans Hans. apply Forall_forall, Hinv. }
      apply Forall_forall. intros a Ha; apply list_elem_of_singleton in Ha. rewrite Ha. exact Hacc.
    + pose proof (submitAnswer_effect questions s q o now σ) as (_ & Hother & _).
      rewrite (answersOf_other _ _ _ (Hother sessionId Hne)). apply Hinv.
  - rewrite getUserProfile_answersOf. apply Hinv.
  - unfold getAnswers. destruct (userSessions σ !! s); apply Hinv.
  - rewrite clearSession_answersOf. destruct (decide _); [constructor | apply Hinv].
Qed.

Lemma run_answersAccepted (calls : list call) (sessionId : string) :
  Forall (fun a => accepted questions (a_questionId a) (a_selectedOption a))
    (answersOf sessionId (run questions calls)).
Proof.
  revert sessionId.
  apply (run_invariant questions
           (fun σ => forall sessionId,
              Forall (fun a => accepted questions (a_questionId a) (a_selectedOption a))
                (answersOf sessionId σ))).
  - intros sessionId. unfold answersOf.
    change (userSessions initial) with (∅ : gmap string Session).
    rewrite lookup_empty. constructor.
  - intros σ c H. by apply step_answersAccepted.
Qed.

Lemma accepted_inv (questionId selectedOptionId : string) :
  accepted questions questionId selectedOptionId ->
  exists question selected,
    findQuestion questions questionId = Some question /\
    findOption question selectedOptionId = Some selected /\
    question ∈ questions /\ q_id question = questionId /\
    selected ∈ q_options question /\ opt_id selected = selectedOptionId.
Proof.
  unfold accepted. intros [selected H].
  destruct (findQuestion questions questionId) as [question |] eqn:Hq; [| done].
  simpl in H. exists question, selected. split; [done |]. split; [done |].
  apply find_some in Hq as [Hin Hid]. apply find_some in H as [Hin' Hid'].
  apply bool_decide_eq_true in Hid, Hid'. by rewrite <- !list_elem_of_In in *.
Qed.

End AcceptedAnswers.

(** X8.  In every state a client can reach, every retained answer names a
    question of the catalog and one of that question's options, so the
    profile loops skip an answer only when its question is a priority
    question; a session holds no more answers than the catalog has
    questions; and in a complete session of a catalog with distinct ids the
    answered questions are exactly the questions of the catalog. *)
Theorem retained_answers_accepted (questions : list Question) (calls : list call)
    (sessionId : string) :
  let retained := answersOf sessionId (run questions calls) in
  (forall a, a ∈ retained ->
     exists question selected,
       question ∈ questions /\ q_id question = a_questionId a /\
       selected ∈ q_options question /\ opt_id selected = a_selectedOption a /\
       DiagnosticService.substantive questions a =
         if decide (q_category question = priority) then None
         else Some (question, selected)) /\
  (length retained <= length questions)%nat /\
  (NoDup (map q_id questions) ->
   DiagnosticService.isDiagnosticComplete questions sessionId (run questions calls) = true ->
   map a_questionId retained ≡ₚ map q_id questions).
Proof.
  intros retained.
  pose proof (run_answersAccepted questions calls sessionId) as Hacc. fold retained in Hacc.
  assert (Hdistinct : NoDup (map a_questionId retained)).
  { unfold retained, answersOf.
    destruct (DiagnosticService.userSessions (run questions calls) !! sessionId) eqn:Hs;
      [| constructor].
    eapply run_oneAnswerPerQuestion, Hs. }
  assert (Hsub : forall q, q ∈ map a_questionId retained -> q ∈ map q_id questions).
  { intros q Hq. apply list_elem_of_fmap in Hq. destruct Hq as (a & -> & Ha).
    rewrite Forall_forall in Hacc.
    destruct (accepted_inv questions _ _ (Hacc a Ha)) as (question & _ & _ & _ & Hin & Hid & _).
    apply list_elem_of_fmap. by exists question. }
  split; [| split].
  - intros a Ha. rewrite Forall_forall in Hacc.
    destruct (accepted_inv questions _ _ (Hacc a Ha))
      as (question & selected & Hq & Ho & Hin & Hid & Hin' & Hid').
    exists question, selected. repeat (split; [done |]).
    unfold DiagnosticService.substantive. rewrite Hq.
    destruct (decide _); [done |]. by rewrite Ho.
  - rewrite <- (length_map a_questionId retained), <- (length_map q_id questions).
    by apply submseteq_length, NoDup_submseteq.
  - intros Hids Hdone. apply NoDup_Permutation; [done | done |].
    intros q. split; [apply Hsub |]. intros Hq.
    apply isDiagnosticComplete_iff in Hdone as [_ Hall].
    apply list_elem_of_fmap in Hq. destruct Hq as (question & -> & Hin).
    rewrite Forall_forall in Hall. by apply Hall.
Qed.

Section TagTally.

Import DiagnosticService.

Lemma lookup_key_Map_set (tag key : string) (value : number) (m : list (string * number)) :
  lookup_key tag (Map_set key value m) =
  if decide (key = tag) then Some value else lookup_key tag m.
Proof.
  induction m as [| [k v] m IH]; simpl.
  - done.
  - destruct (decide (k = key)) as [-> | Hk]; simpl.
    + by destruct (decide (key = tag)).
    + rewrite IH. destruct (decide (k = tag)) as [-> | ?]; [| done].
      by rewrite decide_False by congruence.
Qed.

Lemma keys_Map_set (key : string) (value : number) (m : list (string * number)) :
  map fst (Map_set key value m) =
  if decide (key ∈ map fst m) then map fst m else map fst m ++ [key].
Proof.
  induction m as [| [k v] m IH]; cbn [Map_set map fst].
  - destruct (decide (key ∈ [])) as [Hin |]; [by apply not_elem_of_nil in Hin | done].
  - destruct (decide (k = key)) as [-> | Hk]; cbn [map fst].
    + destruct (decide (key ∈ key :: map fst m)) as [| Hout]; [done |].
      exfalso. apply Hout. left.
    + rewrite IH. destruct (decide (key ∈ map fst m)) as [Hin | Hin].
      * destruct (decide (key ∈ k :: map fst m)) as [| Hout]; [done |].
        exfalso. apply Hout. by right.
      * destruct (decide (key ∈ k :: map fst m)) as [Hin' |]; [| done].
        apply elem_of_cons in Hin' as [-> | Hin']; done.
Qed.

Lemma lookup_key_elem {V} (key : string) (value : V) (m : list (string * V)) :
  NoDup (map fst m) -> (key, value) ∈ m -> lookup_key key m = Some value.
Proof.
  induction m as [| [k v] m IH]; intros Hnd Hin; [by apply not_elem_of_nil in Hin |].
  simpl in *. apply NoDup_cons in Hnd as [Hk Hnd].
  apply elem_of_cons in Hin as [Heq | Hin].
  - inversion Heq; subst. by rewrite decide_True.
  - rewrite decide_False; [by apply IH |]. intros ->. apply Hk.
    apply list_elem_of_fmap. by exists (key, value).
Qed.

Lemma lookup_key_keys {V} (key : string) (m : list (string * V)) :
  is_Some (lookup_key key m) -> exists value, (key, value) ∈ m.
Proof.
  induction m as [| [k v] m IH]; simpl; [by intros [? ?] |].
  destruct (decide (k = key)) as [-> | Hk].
  - intros _. exists v. left.
  - intros H. destruct (IH H) as [value Hin]. exists value. by right.
Qed.

Lemma tagCounts_occurrences (questions : list Question) (answers : list Answer) :
  tagCounts questions answers = fold_left countTag (tagOccurrences questions answers) [].
Proof.
  unfold tagCounts, tagOccurrences.
  match goal with
  | |- fold_left ?f answers [] = fold_left countTag ?l [] =>
      enough (H : forall m, fold_left f answers m = fold_left countTag l m) by apply H
  end.
  induction answers as [| answer answers IH]; intros m; [done |].
  cbn [fold_left flat_map]. rewrite fold_left_app, IH. f_equal.
  destruct (substantive questions answer) as [[question selected] |]; [| done].
  generalize (opt_tags selected) as tags. clear. intros tags. revert m.
  induction tags as [| tag tags IH]; intros m; [done |].
  cbn [fold_left map]. rewrite IH. reflexivity.
Qed.

Lemma addOccurrence_absent (tag : string) (occurrences : list (string * number)) (total : number) :
  tag ∉ map fst occurrences -> fold_left (addOccurrence tag) occurrences total = total.
Proof.
  revert total. induction occurrences as [| [t w] occ IH]; intros total Hin; [done |].
  cbn [fold_left]. simpl in Hin. apply not_elem_of_cons in Hin as [Hne Hin].
  rewrite IH by done. unfold addOccurrence. simpl. by rewrite decide_False.
Qed.

Lemma countTag_lookup (tag : string) (occurrences m : list (string * number)) :
  lookup_key tag (fold_left countTag occurrences m) =
  if decide (tag ∈ map fst occurrences) then
    Some (fold_left (addOccurrence tag) occurrences (default 0 (lookup_key tag m)))
  else lookup_key tag m.
Proof.
  revert m. induction occurrences as [| [t w] occ IH]; intros m.
  - cbn [fold_left map].
    destruct (decide (tag ∈ [])) as [Hin |]; [by apply not_elem_of_nil in Hin | done].
  - cbn [fold_left map fst]. rewrite IH.
    assert (Hstep : lookup_key tag (countTag m (t, w)) =
                    if decide (t = tag) then Some (default 0 (lookup_key tag m) + w)
                    else lookup_key tag m).
    { unfold countTag. cbn [fst snd]. rewrite lookup_key_Map_set.
      by destruct (decide (t = tag)) as [-> |]. }
    rewrite Hstep.
    assert (Hadd : addOccurrence tag (default 0 (lookup_key tag m)) (t, w) =
                   if decide (t = tag) then default 0 (lookup_key tag m) + w
                   else default 0 (lookup_key tag m)) by done.
    rewrite Hadd.
    destruct (decide (t = tag)) as [-> | Hne];
      destruct (decide (tag ∈ map fst occ)) as [Hin | Hin];
      destruct (decide (tag ∈ _ :: map fst occ)) as [Hin' | Hin']; try done.
    + exfalso. apply Hin'. left.
    + cbn [default]. by rewrite addOccurrence_absent.
    + exfalso. apply Hin'. left.
    + exfalso. apply Hin'. by right.
    + apply elem_of_cons in Hin' as [-> | Hin']; done.
Qed.

Lemma countTag_NoDup (occurrences m : list (string * number)) :
  NoDup (map fst m) -> NoDup (map fst (fold_left countTag occurrences m)).
Proof.
  revert m. induction occurrences as [| [t w] occ IH]; intros m Hm; [done |].
  cbn [fold_left]. apply IH. unfold countTag. rewrite keys_Map_set. cbn [fst].
  destruct (decide _) as [| Hin]; [done |].
  apply NoDup_app. split; [done |]. split; [| apply NoDup_singleton].
  intros x Hx Hx'. apply list_elem_of_singleton in Hx'. by subst.
Qed.

Lemma sorted_app_elem {A} (R : A -> A -> Prop) (l1 l2 : list A) (x1 x2 : A) :
  StronglySorted R (l1 ++ l2) -> x1 ∈ l1 -> x2 ∈ l2 -> R x1 x2.
Proof.
  induction l1 as [| y l1 IH]; intros Hs H1 H2; [by apply not_elem_of_nil in H1 |].
  simpl in Hs. apply StronglySorted_inv in Hs as [Hs Hy].
  apply elem_of_cons in H1 as [-> | H1]; [| by apply IH].
  rewrite Forall_forall in Hy. apply Hy, elem_of_app. by right.
Qed.

Lemma tally_sorted (occurrences l : list (string * number)) :
  Forall (fun x => snd x = tally (fst x) occurrences) l ->
  StronglySorted notBelow l ->
  StronglySorted (fun t1 t2 => tally t2 occurrences <= tally t1 occurrences) (map fst l).
Proof.
  intros Hval Hs. induction Hs as [| x l Hs IH Hx]; simpl; [constructor |].
  apply Forall_cons in Hval as [Hvx Hval]. constructor; [by apply IH |].
  apply Forall_fmap, Forall_forall. intros y Hy. simpl.
  rewrite Forall_forall in Hx, Hval. specialize (Hx y Hy). unfold notBelow in Hx.
  by rewrite <- Hvx, <- (Hval y Hy).
Qed.

(** X9.  The priorities of a computed profile are the five best tags of
    the answers: the tally holds, for each tag of a contributing answer's
    option, the sum of the weights of the questions it was chosen under;
    the priorities are distinct tags of that tally, at most five, in
    non-increasing order of weighted count, no tag left out counts more
    than a tag listed, and a tag is left out only when five are listed. *)
Theorem sortedTags_top5 (questions : list Question) (answers : list Answer) :
  let occurrences := tagOccurrences questions answers in
  let listed := priorities (computeProfile questions answers) in
  (forall tag,
     lookup_key tag (tagCounts questions answers) =
     if decide (tag ∈ map fst occurrences) then Some (tally tag occurrences) else None) /\
  NoDup listed /\
  (length listed <= 5)%nat /\
  (forall tag, tag ∈ listed -> tag ∈ map fst occurrences) /\
  StronglySorted (fun t1 t2 => tally t2 occurrences <= tally t1 occurrences) listed /\
  (forall tag other,
     tag ∈ listed -> other ∈ map fst occurrences -> other ∉ listed ->
     tally other occurrences <= tally tag occurrences /\ length listed = 5%nat).
Proof.
  intros occurrences listed.
  assert (Hlisted : listed = map fst (take 5 (Array_sort byScore (tagCounts questions answers)))).
  { unfold listed, computeProfile. by destruct (categorySums questions answers). }
  assert (Hlookup : forall tag,
            lookup_key tag (tagCounts questions answers) =
            if decide (tag ∈ map fst occurrences) then Some (tally tag occurrences)
            else None).
  { intros tag. rewrite tagCounts_occurrences. fold occurrences. by rewrite countTag_lookup. }
  assert (Hnd : NoDup (map fst (tagCounts questions answers))).
  { rewrite tagCounts_occurrences. apply countTag_NoDup. constructor. }
  set (sorted := Array_sort byScore (tagCounts questions answers)) in *.
  assert (Hperm : sorted ≡ₚ tagCounts questions answers) by apply Array_sort_perm.
  assert (Hnd' : NoDup (map fst sorted)) by (by rewrite Hperm).
  assert (Hval : Forall (fun x => fst x ∈ map fst occurrences /\
                                  snd x = tally (fst x) occurrences) sorted).
  { apply Forall_forall. intros [t v] Hin. rewrite Hperm in Hin. simpl.
    apply lookup_key_elem in Hin; [| done]. rewrite Hlookup in Hin.
    destruct (decide _); [| done]. split; [done | congruence]. }
  assert (Hsorted : StronglySorted notBelow sorted) by apply Array_sort_sorted.
  split; [exact Hlookup |]. rewrite Hlisted. split; [| split; [| split; [| split]]].
  - rewrite fmap_take. eapply sublist_NoDup; [| apply sublist_take]; done.
  - rewrite length_map, length_take. lia.
  - intros tag Hin. apply list_elem_of_fmap in Hin. destruct Hin as ([t v] & -> & Hin).
    apply subseteq_take in Hin. rewrite Forall_forall in Hval.
    by destruct (Hval _ Hin).
  - apply tally_sorted; [| by apply take_sorted].
    apply Forall_take. eapply Forall_impl; [exact Hval |]. by intros x [_ ?].
  - intros tag other Hin Hocc Hout.
    apply list_elem_of_fmap in Hin. destruct Hin as ([t v] & -> & Hin). simpl.
    pose proof (Hlookup other) as Hother. rewrite decide_True in Hother by done.
    destruct (lookup_key_keys other (tagCounts questions answers)) as [v' Hin'];
      [rewrite Hother; by eexists |].
    rewrite <- Hperm, <- (take_drop 5 sorted) in Hin'.
    apply elem_of_app in Hin' as [Hin' | Hin'].
    { exfalso. apply Hout. apply list_elem_of_fmap. by exists (other, v'). }
    rewrite Forall_forall in Hval.
    destruct (Hval _ (subseteq_take _ _ _ Hin)) as [_ Hv].
    assert (Hin'' : (other, v') ∈ sorted).
    { rewrite <- (take_drop 5 sorted). apply elem_of_app. by right. }
    destruct (Hval _ Hin'') as [_ Hv']. simpl in Hv, Hv'.
    split.
    + rewrite <- Hv, <- Hv'.
      rewrite <- (take_drop 5 sorted) in Hsorted.
      exact (sorted_app_elem _ _ _ _ _ Hsorted Hin Hin').
    + rewrite length_map, length_take.
      assert (length (drop 5 sorted) <> 0)%nat.
      { intros H0. apply nil_length_inv in H0. rewrite H0 in Hin'.
        by apply not_elem_of_nil in Hin'. }
      rewrite length_drop in H. lia.
Qed.

End TagTally.

Section WeightValues.

Import DiagnosticService.

Ltac among :=
  repeat first [apply list_elem_of_here | apply list_elem_of_further].

(** X11.  Whatever the option chosen for priority_01 is called, every
    category weight of a computed profile is one of 0.5, 1, 2, 2.5 and 3, so
    none is negative; only housing can weigh 2.5 and only price 3, together
    and exactly when the option names price and not none; an option naming
    none gives weight 1 throughout, whatever else it names. *)
Theorem userCategoryWeights_values (answers : list Answer) :
  let weights := userCategoryWeights answers in
  (c_housing weights ∈ [0.5; 1.0; 2.0; 2.5] /\
   c_transport weights ∈ [0.5; 1.0; 2.0] /\
   c_commercial weights ∈ [0.5; 1.0; 2.0] /\
   c_culture weights ∈ [0.5; 1.0; 2.0] /\
   c_price weights ∈ [0.5; 1.0; 2.0; 3.0]) /\
  nonnegative weights /\
  (forall priorityAnswer,
     List.find (fun a => bool_decide (a_questionId a = "priority_01")) answers
       = Some priorityAnswer ->
     let selectedOption := a_selectedOption priorityAnswer in
     (includes selectedOption "none" = true -> weights = all 1.0) /\
     (includes selectedOption "none" = false ->
      (includes selectedOption "price" = true <->
         c_housing weights = 2.5 /\ c_price weights = 3.0) /\
      (includes selectedOption "price" = false ->
       includes selectedOption "housing" = true ->
       c_housing weights = 2.0 /\ c_price weights = 2.0))).
Proof.
  intros weights. unfold weights, userCategoryWeights.
  destruct (List.find _ answers) as [priorityAnswer |].
  - destruct (includes (a_selectedOption priorityAnswer) "housing") eqn:Hh,
             (includes (a_selectedOption priorityAnswer) "transport"),
             (includes (a_selectedOption priorityAnswer) "commercial"),
             (includes (a_selectedOption priorityAnswer) "culture"),
             (includes (a_selectedOption priorityAnswer) "price") eqn:Hp,
             (includes (a_selectedOption priorityAnswer) "none") eqn:Hn;
      cbn [set_at all c_housing c_transport c_commercial c_culture c_price];
      (split; [repeat split; among |]);
      (split; [unfold nonnegative; cbn; repeat split; lra |]);
      intros ? [= <-]; cbv zeta; rewrite Hh, Hp, Hn;
      (split; [intros; try done |]); intros; try done;
      (split; [split; intros H'; try done; destruct H'; done |]); intros; try done.
  - split; [repeat split; among |].
    split; [unfold nonnegative; cbn; repeat split; lra |]. intros ? [=].
Qed.

End WeightValues.

Section QuestionsByCategory.

Import DiagnosticService.

(** X13.  getQuestionsByCategory sorts the catalog into its six
    categories: each selection lists, in catalog order, exactly the
    questions of its category, and the six selections together hold every
    question of the catalog once. *)
Theorem getQuestionsByCategory_partition (questions : list Question) :
  (forall category,
     getQuestionsByCategory questions category `sublist_of` getQuestions questions /\
     forall q,
       q ∈ getQuestionsByCategory questions category <->
       q ∈ getQuestions questions /\ q_category q = category) /\
  concat (map (getQuestionsByCategory questions)
            [housing; transport; commercial; culture; price; priority])
    ≡ₚ getQuestions questions.
Proof.
  unfold getQuestionsByCategory, getQuestions. split.
  - intros category. split; [apply sublist_filter |].
    intros q. rewrite list_elem_of_filter. tauto.
  - induction questions as [| q l IH]; [done |].
    etransitivity; [| apply Permutation_cons; [reflexivity | exact IH]].
    cbn [map concat]. rewrite !filter_cons.
    destruct (q_category q); cbn [decide]; repeat case_decide; try done;
      cbn [app]; rewrite ?app_nil_r;
      repeat (rewrite <- Permutation_middle; cbn [app]); done.
Qed.

End QuestionsByCategory.

Section SessionIsolation.

Import DiagnosticService.

Variable questions : list Question.

Lemma run_app (calls calls' : list call) :
  fold_left (step questions) calls' (run questions calls) = run questions (calls ++ calls').
Proof. unfold run. by rewrite fold_left_app. Qed.

Lemma sessionView_answersOf (sessionId : string) (σ σ' : State) :
  sessionView sessionId σ = sessionView sessionId σ' ->
  answersOf sessionId σ = answersOf sessionId σ'.
Proof.
  unfold sessionView, answersOf.
  destruct (userSessions σ !! sessionId), (userSessions σ' !! sessionId); try done.
  by intros [= -> _].
Qed.

Lemma sessionView_step_other (sessionId : string) (σ : State) (c : call) :
  sessionOf c <> sessionId -> cachedAllocated σ ->
  sessionView sessionId (step questions σ c) = sessionView sessionId σ.
Proof.
  intros Hc Hwf. unfold sessionView.
  destruct c as [s q o now | s | s | s]; cbn [sessionOf step] in *.
  - pose proof (submitAnswer_effect questions s q o now σ) as (Hobj & Hother & _).
    rewrite Hother by done. unfold deref. by rewrite Hobj.
  - unfold getUserProfile.
    destruct (userSessions σ !! s) as [cur |] eqn:Hcur; [| done].
    destruct (s_profile cur) eqn:Hp; [done |]. cbn [snd userSessions objects].
    rewrite lookup_insert_ne by done.
    destruct (userSessions σ !! sessionId) as [session |] eqn:Hs; [| done].
    destruct (s_profile session) as [r |] eqn:Hr; [| done].
    destruct (Hwf _ _ _ Hs Hr) as [profile Hd]. rewrite Hd.
    unfold deref in *. cbn. by rewrite (lookup_app_l_Some _ _ _ _ Hd).
  - unfold getAnswers. by destruct (userSessions σ !! s).
  - cbn. by rewrite lookup_delete_ne.
Qed.

Lemma sessionView_step_own (sessionId : string) (σ σ' : State) (c : call) :
  sessionOf c = sessionId -> cachedAllocated σ -> cachedAllocated σ' ->
  sessionView sessionId σ = sessionView sessionId σ' ->
  sessionView sessionId (step questions σ c) = sessionView sessionId (step questions σ' c).
Proof.
  intros Hc Hwf Hwf' Hview.
  destruct c as [s q o now | s | s | s]; cbn [sessionOf step] in *; subst s.
  - pose proof (submitAnswer_effect questions sessionId q o now σ) as (Hobj & _ & Hsame & _).
    pose proof (submitAnswer_effect questions sessionId q o now σ') as (Hobj' & _ & Hsame' & _).
    pose proof (submitAnswer_answersOf questions sessionId q o now σ) as Hans.
    pose proof (submitAnswer_answersOf questions sessionId q o now σ') as Hans'.
    rewrite (sessionView_answersOf _ _ _ Hview) in Hans. rewrite <- Hans' in Hans.
    unfold sessionView in *. rewrite Hsame, Hsame', Hans. cbn [s_answers s_profile].
    unfold deref in *. rewrite Hobj, Hobj'.
    destruct (userSessions σ !! sessionId) as [session |],
             (userSessions σ' !! sessionId) as [session' |]; try done; cbn.
    by injection Hview as _ ->.
  - unfold sessionView, getUserProfile in *.
    destruct (userSessions σ !! sessionId) as [session |] eqn:Hs,
             (userSessions σ' !! sessionId) as [session' |] eqn:Hs'; try done.
    injection Hview as Hanswers Hprofile.
    destruct (s_profile session) as [r |] eqn:Hr, (s_profile session') as [r' |] eqn:Hr';
      cbn [snd userSessions objects].
    + by rewrite Hs, Hs', Hr, Hr', Hanswers, Hprofile.
    + destruct (Hwf _ _ _ Hs Hr) as [profile Hd]. congruence.
    + destruct (Hwf' _ _ _ Hs' Hr') as [profile Hd]. congruence.
    + rewrite !lookup_insert_eq. cbn [s_answers s_profile]. unfold deref. cbn [objects].
      rewrite !lookup_app_r by done. rewrite !Nat.sub_diag. cbn. by rewrite Hanswers.
    + cbn. by rewrite Hs, Hs'.
  - unfold getAnswers.
    by destruct (userSessions σ !! sessionId), (userSessions σ' !! sessionId).
  - unfold sessionView. cbn. by rewrite !lookup_delete_eq.
Qed.

Lemma run_sessionView (sessionId : string) (calls : list call) :
  sessionView sessionId (run questions calls) =
  sessionView sessionId (run questions (filter (fun c => sessionOf c = sessionId) calls)).
Proof.
  induction calls as [| c calls IH] using rev_ind; [done |].
  rewrite filter_app, filter_cons, filter_nil.
  destruct (decide (sessionOf c = sessionId)) as [Hc | Hc].
  - rewrite <- !run_app. cbn [fold_left].
    apply sessionView_step_own; [done | apply run_cachedAllocated .. | done].
  - rewrite app_nil_r, <- run_app. cbn [fold_left].
    rewrite sessionView_step_other; [done | done | apply run_cachedAllocated].
Qed.

End SessionIsolation.

(** X14.  Sessions do not see each other.  What the store holds for a
    session after a sequence of calls, its answers and the content of its
    cached profile, is what it holds after the calls that address this
    session alone; so the answers read, the completion flag, and the
    profile a read returns, or its failure, are the same in both. *)
Theorem sessions_isolated (questions : list Question) (calls : list call)
    (sessionId : string) :
  let σ := run questions calls in
  let σ' := run questions (filter (fun c => sessionOf c = sessionId) calls) in
  sessionView sessionId σ = sessionView sessionId σ' /\
  fst (DiagnosticService.getAnswers sessionId σ) =
    fst (DiagnosticService.getAnswers sessionId σ') /\
  DiagnosticService.isDiagnosticComplete questions sessionId σ =
    DiagnosticService.isDiagnosticComplete questions sessionId σ' /\
  sessionView sessionId (step questions σ (GetUserProfile sessionId)) =
    sessionView sessionId (step questions σ' (GetUserProfile sessionId)) /\
  (is_Some (DiagnosticService.userSessions σ !! sessionId) <->
   is_Some (DiagnosticService.userSessions σ' !! sessionId)).
Proof.
  intros σ σ'.
  pose proof (run_sessionView questions sessionId calls) as Hview. fold σ σ' in Hview.
  split; [exact Hview |].
  assert (Hown : sessionView sessionId (step questions σ (GetUserProfile sessionId)) =
                 sessionView sessionId (step questions σ' (GetUserProfile sessionId))).
  { apply sessionView_step_own; [done | apply run_cachedAllocated .. | done]. }
  unfold sessionView, DiagnosticService.getAnswers,
    DiagnosticService.isDiagnosticComplete in *.
  destruct (DiagnosticService.userSessions σ !! sessionId) as [session |],
           (DiagnosticService.userSessions σ' !! sessionId) as [session' |]; try done.
  injection Hview as -> _. repeat split; try done; by eexists.
Qed.

(** * Further properties of the ranking *)

Section NoPreferences.

Import RecommendationService.

(** A sort that finds every score equal leaves the list as it is. *)
Lemma Array_sort_ties {A} (v : number) (l : list (A * number)) :
  Forall (fun x => snd x = v) l -> Array_sort byScore l = l.
Proof.
  induction 1 as [| x l Hx Hl IH]; [done |].
  cbn [Array_sort foldr]. fold (Array_sort byScore l). rewrite IH.
  destruct Hl as [| y l' Hy _]; [done |].
  cbn [sort_insert]. unfold byScore. rewrite Hx, Hy.
  assert (Hg : gtb (v - v) 0 = false) by (apply gtb_false; lra).
  by rewrite Hg.
Qed.

(** X15.  A profile without any positive preference and without
    priorities, as the profile of a session without answers is, gives every
    station the score 0; the ranking is then the catalog in its own order,
    and the recommendations are its first three stations. *)
Theorem no_preferences_catalog_order (stations : list Station) (userProfile : UserProfile) :
  c_housing (preferences userProfile) <= 0 ->
  c_transport (preferences userProfile) <= 0 ->
  c_commercial (preferences userProfile) <= 0 ->
  c_culture (preferences userProfile) <= 0 ->
  c_price (preferences userProfile) <= 0 ->
  priorities userProfile = [] ->
  (forall station, calculateStationScore userProfile station = 0) /\
  map station (generateFullRanking stations userProfile) = stations /\
  map station (generateRecommendations stations userProfile) = take 3 stations /\
  Forall (fun r => score r == 0) (generateFullRanking stations userProfile).
Proof.
  intros Hh Ht Hc Hu Hp Hprio.
  assert (Hzero : forall station, calculateStationScore userProfile station = 0).
  { intros station. unfold calculateStationScore, calculatePriorityBonus, baseScore,
      stationTotals.
    rewrite Hprio.
    rewrite !(proj2 (gtb_false _ _)) by done. reflexivity. }
  assert (Hscores : stationScores stations userProfile = map (fun s => (s, 0)) stations).
  { unfold stationScores, getAllStations.
    assert (Hmap : map_Forall (fun _ v => v = 0) (calculateScores stations userProfile)).
    { unfold calculateScores, getAllStations.
      apply (fold_insert_Forall (fun v => v = 0) st_id (calculateStationScore userProfile));
        [apply map_Forall_empty | exact Hzero]. }
    assert (Hall : map (fun station =>
                          (station,
                           default 0 (calculateScores stations userProfile !! st_id station)))
                     stations = map (fun s => (s, 0)) stations).
    { apply map_ext. intros s.
      destruct (calculateScores stations userProfile !! st_id s) as [v |] eqn:Hv; [| done].
      by rewrite (Hmap _ _ Hv). }
    rewrite Hall. apply (Array_sort_ties 0).
    apply Forall_forall. intros x Hx. apply list_elem_of_fmap in Hx.
    by destruct Hx as (s & -> & _). }
  split; [exact Hzero |].
  rewrite generateFullRanking_imap, generateRecommendations_imap, Hscores.
  change (map station) with (fmap (M := list) station).
  split; [| split].
  - rewrite fmap_imap, (imap_ext _ (const fst)) by (by intros i [x v] _).
    rewrite imap_const. change (fmap (M := list) fst) with (map (@fst Station number)).
    rewrite map_map. apply map_id.
  - rewrite fmap_imap, (imap_ext _ (const fst)) by (by intros i [x v] _).
    rewrite imap_const, fmap_take.
    change (fmap (M := list) fst) with (map (@fst Station number)).
    rewrite map_map. by rewrite map_id.
  - apply Forall_forall. intros r Hr. apply list_elem_of_lookup in Hr as [i Hi].
    rewrite list_lookup_imap in Hi.
    destruct (map (fun s => (s, 0)) stations !! i) as [[s v] |] eqn:Hsv; [| done].
    cbn in Hi. injection Hi as <-. cbn [score].
    apply list_elem_of_lookup_2, list_elem_of_fmap in Hsv.
    destruct Hsv as (s' & [= -> ->] & _). reflexivity.
Qed.

(** The profile of a session without answers. *)
Lemma no_preferences_catalog_order_witness :
  map station
    (generateRecommendations Sample.stations
       (DiagnosticService.computeProfile Sample.questions [])) =
  take 3 Sample.stations.
Proof.
  apply (no_preferences_catalog_order Sample.stations
           (DiagnosticService.computeProfile Sample.questions []));
    first [reflexivity | vm_compute; discriminate].
Defined.

End NoPreferences.

(** * Properties of the station service *)

Section StationLookup.

Import StationService.

Lemma initializeCache_lookup (stationsData : list Station) (id : string) :
  stationCache stationsData !! id =
  last (filter (fun station => st_id station = id) stationsData).
Proof.
  unfold stationCache, initializeCache, stations.
  induction stationsData as [| station l IH] using rev_ind; [done |].
  rewrite fold_left_app, filter_app, filter_cons, filter_nil. simpl.
  destruct (decide (st_id station = id)) as [<- | Hne].
  - by rewrite lookup_insert_eq, last_snoc.
  - by rewrite lookup_insert_ne, app_nil_r.
Qed.

Lemma filter_none {A} (P : A -> Prop) `{!forall x, Decision (P x)} (l : list A) :
  (forall x, x ∈ l -> ~ P x) -> filter P l = [].
Proof.
  induction l as [| x l IH]; intros Hall; [done |].
  rewrite filter_cons, decide_False by (apply Hall; left).
  apply IH. intros y Hy. apply Hall. by right.
Qed.

Lemma filter_own_id (stationsData : list Station) (station : Station) :
  NoDup (map st_id stationsData) -> station ∈ stationsData ->
  filter (fun other => st_id other = st_id station) stationsData = [station].
Proof.
  induction stationsData as [| x l IH]; intros Hnd Hin;
    [by apply not_elem_of_nil in Hin |].
  simpl in Hnd. apply NoDup_cons in Hnd as [Hx Hnd]. rewrite filter_cons.
  assert (Hrest : forall y, y ∈ l -> st_id y <> st_id x).
  { intros y Hy Heq. apply Hx. rewrite <- Heq. apply list_elem_of_fmap. by exists y. }
  apply elem_of_cons in Hin as [-> | Hin].
  - rewrite decide_True by done. f_equal. by apply filter_none.
  - rewrite decide_False; [by apply IH |]. intros Heq. by apply (Hrest station).
Qed.

Lemma getStationById_sound (stationsData : list Station) (id : string) (station : Station) :
  getStationById stationsData id = Some station ->
  st_id station = id /\ station ∈ stationsData.
Proof.
  unfold getStationById. rewrite initializeCache_lookup. intros H.
  destruct (proj1 (last_Some _ _) H) as [l' Hl].
  assert (Hin : station ∈ filter (fun s => st_id s = id) stationsData).
  { rewrite Hl. apply elem_of_app. right. left. }
  by apply list_elem_of_filter in Hin.
Qed.

Lemma getStationById_None (stationsData : list Station) (id : string) :
  getStationById stationsData id = None <-> id ∉ map st_id stationsData.
Proof.
  unfold getStationById. rewrite initializeCache_lookup, last_None. split.
  - intros H Hin. apply list_elem_of_fmap in Hin. destruct Hin as (station & -> & Hin).
    by apply (filter_nil_not_elem_of _ _ station H).
  - intros H. apply filter_none. intros station Hin Hid. apply H.
    apply list_elem_of_fmap. by exists station.
Qed.

(** X16.  The station cache answers for exactly the ids of the catalog:
    getStationById gives the last station of the catalog with the id asked
    for, a station of the catalog with that id, and null exactly for an id
    no station has; getStationFeatures gives the features of that same
    station.  With distinct ids every station of getAllStations is found
    back under its own id.  The two routes answer 404 exactly for the ids
    no station has, and otherwise send that station and its features. *)
Theorem getStationById_catalog (stationsData : list Station) :
  (forall id,
     getStationById stationsData id =
     last (filter (fun station => st_id station = id) stationsData)) /\
  (forall id,
     getStationById stationsData id = None <->
     id ∉ map st_id (getAllStations stationsData)) /\
  (forall id station,
     getStationById stationsData id = Some station ->
     st_id station = id /\ station ∈ getAllStations stationsData /\
     getStationFeatures stationsData id = Some (st_features station) /\
     StationRoutes.getStation stationsData id = Success station /\
     StationRoutes.getFeatures stationsData id = Success (st_features station)) /\
  (forall id,
     statusCode (StationRoutes.getStation stationsData id) =
       (if decide (id ∈ map st_id stationsData) then 200 else 404)%nat /\
     statusCode (StationRoutes.getFeatures stationsData id) =
       statusCode (StationRoutes.getStation stationsData id)) /\
  (NoDup (map st_id stationsData) ->
   forall station,
     station ∈ getAllStations stationsData ->
     getStationById stationsData (st_id station) = Some station).
Proof.
  split; [intros id; apply initializeCache_lookup |].
  split; [intros id; apply getStationById_None |].
  split; [| split].
  - intros id station H. destruct (getStationById_sound _ _ _ H) as [Hid Hin].
    split; [done |]. split; [done |].
    unfold StationRoutes.getStation, StationRoutes.getFeatures, getStationFeatures.
    unfold getStationById in *. by rewrite !H.
  - intros id.
    unfold StationRoutes.getStation, StationRoutes.getFeatures, getStationFeatures.
    pose proof (getStationById_None stationsData id) as Hnone. unfold getStationById in *.
    destruct (stationCache stationsData !! id) as [station |]; simpl.
    + split; [| done]. destruct (decide _) as [| Hout]; [done |].
      by apply Hnone in Hout.
    + split; [| done]. destruct (decide _) as [Hin |]; [| done].
      by destruct (proj1 Hnone eq_refl).
  - intros Hnd station Hin. unfold getStationById.
    by rewrite initializeCache_lookup, filter_own_id.
Qed.

(** The ids of the sample catalog are distinct. *)
Lemma getStationById_catalog_witness :
  getStationById Sample.stations "ueno" = Some (Sample.uniform "ueno" 3 3 ["JY"; "JK"; "JU"]).
Proof.
  refine (proj2 (proj2 (proj2 (proj2 (getStationById_catalog Sample.stations)))) _
            (Sample.uniform "ueno" 3 3 ["JY"; "JK"; "JU"]) _).
  - apply (bool_decide_unpack _). vm_compute. exact I.
  - unfold getAllStations, stations, Sample.stations. do 2 right. left.
Defined.

End StationLookup.

Section FeatureRange.

Import StationService.

Lemma inFeatureRange_spec (category : FeatureCategory) (subcategory : string)
    (minValue maxValue : number) (station : Station) :
  inFeatureRange category subcategory minValue maxValue station = true <->
  exists value,
    featureValue (st_features station) category subcategory = Some value /\
    minValue <= value <= maxValue.
Proof.
  unfold inFeatureRange, geb, leb.
  destruct (featureValue (st_features station) category subcategory) as [value |].
  - rewrite andb_true_iff, !Qle_bool_iff. split.
    + intros H. by exists value.
    + intros (v & Hv & H). inversion Hv; subst. exact H.
  - split; [done |]. by intros (v & [=] & _).
Qed.

(** X17.  getStationsByFeatureRange keeps, in catalog order, exactly the
    stations whose feature is a number between the two bounds, both
    included.  Nothing is kept when the lower bound is above the upper one,
    when the name asked for is [connections] or no field of the category;
    and a range inside another selects from what the wider range
    selects. *)
Theorem getStationsByFeatureRange_spec (stationsData : list Station)
    (category : FeatureCategory) (subcategory : string) (minValue maxValue : number) :
  let selected :=
    getStationsByFeatureRange stationsData category subcategory minValue maxValue in
  selected `sublist_of` getAllStations stationsData /\
  (forall station,
     station ∈ selected <->
     station ∈ getAllStations stationsData /\
     exists value,
       featureValue (st_features station) category subcategory = Some value /\
       minValue <= value <= maxValue) /\
  (maxValue < minValue -> selected = []) /\
  (subcategory ∉ ["rentLevel"; "familyFriendly"; "quietness"; "accessibility";
                  "walkability"; "shopping"; "restaurants"; "convenience";
                  "entertainment"; "history"; "nightlife"; "costOfLiving";
                  "diningCost"] -> selected = []) /\
  (forall lower upper,
     lower <= minValue -> maxValue <= upper ->
     selected =
     List.filter (inFeatureRange category subcategory minValue maxValue)
       (getStationsByFeatureRange stationsData category subcategory lower upper)).
Proof.
  intros selected. unfold selected, getStationsByFeatureRange, getAllStations, stations.
  assert (Hmem : forall station,
            station ∈ List.filter (inFeatureRange category subcategory minValue maxValue)
                        stationsData <->
            station ∈ stationsData /\
            exists value,
              featureValue (st_features station) category subcategory = Some value /\
              minValue <= value <= maxValue).
  { intros station. rewrite !list_elem_of_In, filter_In, inFeatureRange_spec. tauto. }
  assert (Hnone : forall l,
            (forall station, inFeatureRange category subcategory minValue maxValue station
                             = false) ->
            List.filter (inFeatureRange category subcategory minValue maxValue) l = []).
  { intros l Hall. induction l as [| x l IH]; [done |]. simpl. by rewrite Hall. }
  split; [| split; [exact Hmem | split; [| split]]].
  - clear Hmem. induction stationsData as [| x l IH]; simpl; [constructor |].
    destruct (inFeatureRange _ _ _ _ x); by constructor.
  - intros Hlt. apply Hnone. intros station.
    destruct (inFeatureRange _ _ _ _ station) eqn:Hin; [| done].
    apply inFeatureRange_spec in Hin as (v & _ & H1 & H2). lra.
  - intros Hsub. apply Hnone. intros station.
    destruct (inFeatureRange _ _ _ _ station) eqn:Hin; [| done].
    apply inFeatureRange_spec in Hin as (v & Hv & _). exfalso. apply Hsub.
    destruct category; simpl in Hv;
      repeat (destruct (decide (_ = subcategory)) as [<- | ?] in Hv;
              [clear Hv; repeat first [apply list_elem_of_here | apply list_elem_of_further] |]);
      done.
  - intros lower upper Hlower Hupper. clear Hmem.
    induction stationsData as [| x l IH]; [done |]. simpl.
    destruct (inFeatureRange category subcategory minValue maxValue x) eqn:Hin.
    + assert (Hwide : inFeatureRange category subcategory lower upper x = true).
      { apply inFeatureRange_spec in Hin as (v & Hv & H1 & H2).
        apply inFeatureRange_spec. exists v. split; [done | lra]. }
      rewrite Hwide. simpl. rewrite Hin. f_equal. apply IH.
    + destruct (inFeatureRange category subcategory lower upper x); simpl;
        rewrite ?Hin; apply IH.
Qed.

End FeatureRange.

(** * Properties of the routes *)

Section DiagnosticRouter.

Import DiagnosticService DiagnosticRoutes.

(** X18.  POST /api/answers.  Without a question id or an option id the
    handler answers 400 and touches nothing.  Otherwise the answer goes to
    the session named in the body, or to the fresh uuid when none is named,
    and that session exists afterwards whatever the outcome; the other
    sessions are untouched.  An accepted answer is answered with the
    session's new answer list, the completion flag of the session, and a
    profile exactly when the session is complete: the profile cached before
    the request when there was one, else the profile of the answers sent
    back.  An answer that is not accepted is answered 400, and leaves the
    answers and the profile objects as they were. *)
Theorem postAnswers_response (questions : list Question)
    (sessionId questionId selectedOptionId : option string) (uuid : string) (now : Z)
    (σ : State) :
  let response := fst (postAnswers questions sessionId questionId selectedOptionId uuid now σ) in
  let σ' := snd (postAnswers questions sessionId questionId selectedOptionId uuid now σ) in
  let s := if missing sessionId then uuid else default "" sessionId in
  let q := default "" questionId in
  let o := default "" selectedOptionId in
  let old := default {| s_answers := []; s_profile := None |} (userSessions σ !! s) in
  (missing questionId || missing selectedOptionId = true ->
   response =
     Failure 400 "Missing required fields" "questionId and selectedOptionId are required" /\
   σ' = σ) /\
  (missing questionId || missing selectedOptionId = false ->
   is_Some (userSessions σ' !! s) /\
   (forall other, other <> s -> userSessions σ' !! other = userSessions σ !! other) /\
   (accepted questions q o ->
    exists data,
      response = Success data /\
      d_sessionId data = s /\
      d_answers data =
        filter (fun a => a_questionId a <> q) (answersOf s σ) ++
        [ {| a_questionId := q; a_selectedOption := o; a_timestamp := now |} ] /\
      answersOf s σ' = d_answers data /\
      d_isComplete data = isDiagnosticComplete questions s σ' /\
      match d_userProfile data with
      | None => d_isComplete data = false /\ objects σ' = objects σ
      | Some r =>
          d_isComplete data = true /\
          (exists session,
             userSessions σ' !! s = Some session /\ s_profile session = Some r) /\
          match s_profile old with
          | Some cached => r = cached /\ objects σ' = objects σ
          | None => deref σ' r = Some (computeProfile questions (d_answers data))
          end
      end) /\
   (~ accepted questions q o ->
    (exists error, response = Failure 400 "Failed to submit answer" (message error)) /\
    answersOf s σ' = answersOf s σ /\ objects σ' = objects σ)).
Proof.
  intros response σ' s q o old. unfold response, σ', postAnswers.
  destruct (missing questionId || missing selectedOptionId); [by split |].
  split; [done |]. intros _. fold s q o.
  pose proof (submitAnswer_effect questions s q o now σ) as (Hobj & Hother & Hsame & Hres).
  fold old in Hsame.
  destruct (submitAnswer questions s q o now σ) as [[answers | error] σ1] eqn:Hsub;
    cbn [fst snd] in *.
  - destruct Hres as (Hacc & Hanswers & Hof). rewrite Hof in Hsame.
    destruct (isDiagnosticComplete questions s σ1) eqn:Hdone.
    + unfold getUserProfile. rewrite Hsame. cbn [s_profile s_answers].
      destruct (s_profile old) as [cached |] eqn:Hold; cbn [fst snd userSessions objects].
      * split; [rewrite Hsame; by eexists |]. split; [exact Hother |].
        split; [| by intros []]. intros _. eexists. split; [reflexivity |].
        cbn. split; [done |]. split; [done |]. split.
        { unfold answersOf. by rewrite Hsame. }
        split; [done |]. split; [done |].
        split; [eexists; split; [exact Hsame | done] |].
        by split.
      * split; [rewrite lookup_insert_eq; by eexists |].
        split; [intros other Hne; rewrite lookup_insert_ne by done; by apply Hother |].
        split; [| by intros []]. intros _. eexists. split; [reflexivity |].
        cbn. split; [done |]. split; [done |]. split.
        { unfold answersOf. cbn. by rewrite lookup_insert_eq. }
        split.
        { unfold isDiagnosticComplete in *. cbn. rewrite lookup_insert_eq.
          by rewrite Hsame in Hdone. }
        split; [done |].
        split; [eexists; split; [apply lookup_insert_eq | done] |].
        unfold deref. cbn. rewrite lookup_app_r by done.
        by rewrite Nat.sub_diag.
    + cbn [fst snd]. split; [rewrite Hsame; by eexists |]. split; [exact Hother |].
      split; [| by intros []]. intros _. eexists. split; [reflexivity |].
      cbn. split; [done |]. split; [done |]. split.
      { unfold answersOf. by rewrite Hsame. }
      by rewrite Hdone.
  - destruct Hres as (Hacc & Hof).
    split; [rewrite Hsame; by eexists |]. split; [exact Hother |].
    split; [by intros ? |]. intros _. split; [by eexists |]. by split.
Qed.

Lemma postAnswers_response_witness :
  fst (postAnswers Sample.questions None None (Some "housing_01_a") "u" 0 initial) =
  Failure 400 "Missing required fields" "questionId and selectedOptionId are required".
Proof.
  exact (proj1 (proj1 (postAnswers_response Sample.questions None None
                         (Some "housing_01_a") "u" 0 initial) eq_refl)).
Defined.

End DiagnosticRouter.

Section DiagnosticRouterStates.

Import DiagnosticService DiagnosticRoutes.

(** What a request does to the store is what service calls do. *)
Lemma serve_calls (questions : list Question) (r : request) (σ : State) :
  exists calls, snd (serve questions r σ) = fold_left (step questions) calls σ.
Proof.
  destruct r as [| sessionId questionId selectedOptionId uuid now | s | s | s];
    cbn [serve].
  - by exists [].
  - unfold postAnswers.
    destruct (missing questionId || missing selectedOptionId); [by exists [] |].
    set (s := if missing sessionId then uuid else default "" sessionId).
    set (q := default "" questionId). set (o := default "" selectedOptionId).
    destruct (submitAnswer questions s q o now σ) as [[answers | error] σ1] eqn:Hsub.
    + destruct (isDiagnosticComplete questions s σ1).
      * exists [SubmitAnswer s q o now; GetUserProfile s]. cbn [fold_left step].
        rewrite Hsub. cbn [snd].
        by destruct (getUserProfile questions s σ1) as [[? | ?] ?].
      * exists [SubmitAnswer s q o now]. cbn [fold_left step]. by rewrite Hsub.
    + exists [SubmitAnswer s q o now]. cbn [fold_left step]. by rewrite Hsub.
  - exists [GetAnswers s]. cbn [fold_left step]. unfold getSessionAnswers.
    by destruct (getAnswers s σ) as [[? | ?] ?].
  - exists [GetUserProfile s]. cbn [fold_left step]. unfold getSessionProfile.
    by destruct (getUserProfile questions s σ) as [[? | ?] ?].
  - by exists [ClearSession s].
Qed.

(** X19.  Every state the diagnostic router reaches is a state the
    service reaches by its own calls, so what holds of those holds of it.
    In no state is a request answered 500: the status is 200 or 400; 400 is
    the answer to a profile request exactly when the session is unknown,
    and to an answer with both ids exactly when the answer is not accepted.
    Reading the answers of a session and deleting a session answer 200 also
    for a session that does not exist. *)
Theorem serve_status (questions : list Question) (requests : list request) (σ : State) :
  (exists calls, served questions requests = run questions calls) /\
  (forall r, fst (serve questions r σ) = 200%nat \/ fst (serve questions r σ) = 400%nat) /\
  (forall sessionId,
     fst (serve questions (GET_questions) σ) = 200%nat /\
     fst (serve questions (GET_answers sessionId) σ) = 200%nat /\
     fst (serve questions (DELETE_session sessionId) σ) = 200%nat /\
     (fst (serve questions (GET_profile sessionId) σ) = 400%nat <->
      userSessions σ !! sessionId = None)) /\
  (forall sessionId questionId selectedOptionId uuid now,
     missing questionId || missing selectedOptionId = false ->
     (fst (serve questions (POST_answers sessionId questionId selectedOptionId uuid now) σ)
        = 400%nat <->
      ~ accepted questions (default "" questionId) (default "" selectedOptionId))).
Proof.
  assert (Hreach : exists calls, served questions requests = run questions calls).
  { unfold served. induction requests as [| r requests IH] using rev_ind.
    - by exists [].
    - rewrite fold_left_app. cbn [fold_left]. destruct IH as [calls ->].
      destruct (serve_calls questions r (run questions calls)) as [calls' ->].
      exists (calls ++ calls'). apply run_app. }
  assert (Hpost : forall sessionId questionId selectedOptionId uuid now,
            let status :=
              fst (serve questions
                     (POST_answers sessionId questionId selectedOptionId uuid now) σ) in
            (status = 200%nat \/ status = 400%nat) /\
            (missing questionId || missing selectedOptionId = false ->
             (status = 400%nat <->
              ~ accepted questions (default "" questionId) (default "" selectedOptionId)))).
  { intros sessionId questionId selectedOptionId uuid now. cbn [serve]. unfold postAnswers.
    destruct (missing questionId || missing selectedOptionId); [split; [by right | done] |].
    set (s := if missing sessionId then uuid else default "" sessionId).
    set (q := default "" questionId). set (o := default "" selectedOptionId).
    pose proof (submitAnswer_effect questions s q o now σ) as (_ & _ & Hsame & Hres).
    destruct (submitAnswer questions s q o now σ) as [[answers | error] σ1] eqn:Hsub;
      cbn [fst snd] in *.
    - destruct Hres as (Hacc & _).
      destruct (isDiagnosticComplete questions s σ1).
      + unfold getUserProfile. rewrite Hsame. cbn [s_profile].
        destruct (s_profile _); cbn; (split; [by left |]); intros _; split; done.
      + cbn. split; [by left |]. intros _; split; done.
    - destruct Hres as (Hacc & _). cbn. split; [by right |]. intros _. by split. }
  assert (Hprofile : forall sessionId,
            let status := fst (serve questions (GET_profile sessionId) σ) in
            (status = 200%nat \/ status = 400%nat) /\
            (status = 400%nat <-> userSessions σ !! sessionId = None)).
  { intros sessionId. cbn [serve]. unfold getSessionProfile, getUserProfile.
    destruct (userSessions σ !! sessionId) as [session |]; [| by split; [right |]].
    destruct (s_profile session); cbn; (split; [by left |]); split; done. }
  split; [exact Hreach |]. split; [| split].
  - intros [| sessionId questionId selectedOptionId uuid now | s | s | s].
    + by left.
    + apply Hpost.
    + left. cbn [serve]. unfold getSessionAnswers, getAnswers.
      by destruct (userSessions σ !! s).
    + apply Hprofile.
    + by left.
  - intros sessionId. split; [done |]. split.
    { cbn [serve]. unfold getSessionAnswers, getAnswers.
      by destruct (userSessions σ !! sessionId). }
    split; [done |]. apply Hprofile.
  - intros sessionId questionId selectedOptionId uuid now. apply Hpost.
Qed.

End DiagnosticRouterStates.

Section RecommendationRouter.

Import DiagnosticService RecommendationService RecommendationRoutes.

(** The profile a handler resolves for a known session of a reachable store:
    the cached one, or the one computed and cached now. *)
Lemma resolveProfile_session (questions : list Question) (calls : list call)
    (sessionId : string) (userProfile : option UserProfile) :
  sessionId <> "" ->
  is_Some (userSessions (run questions calls) !! sessionId) ->
  exists r profile σ',
    resolveProfile questions (Some sessionId) userProfile (run questions calls) =
      Some (Resolved profile, σ') /\
    σ' = step questions (run questions calls) (GetUserProfile sessionId) /\
    holdsProfile sessionId r profile σ'.
Proof.
  intros Hs [session Hsession]. unfold resolveProfile.
  assert (Hm : missing (Some sessionId) = false) by (by apply bool_decide_eq_false).
  rewrite Hm. change (default "" (Some sessionId)) with sessionId. cbn [negb step].
  pose proof (run_cachedAllocated questions (calls ++ [GetUserProfile sessionId])) as Hwf.
  rewrite <- run_app in Hwf. cbn [fold_left step] in Hwf.
  unfold getUserProfile in *. rewrite Hsession in *.
  destruct (s_profile session) as [r |] eqn:Hp; cbn [fst snd] in *.
  - destruct (Hwf sessionId session r Hsession Hp) as [profile Hd].
    exists r, profile, (run questions calls). rewrite Hd.
    split; [done |]. split; [done |]. split; [by exists session | done].
  - set (r := length (objects (run questions calls))) in *.
    set (profile := computeProfile questions (s_answers session)) in *.
    assert (Hd : forall sessions,
              deref {| userSessions := sessions;
                       objects := objects (run questions calls) ++ [profile] |} r
              = Some profile).
    { intros sessions. unfold deref, r. cbn. rewrite lookup_app_r by done.
      by rewrite Nat.sub_diag. }
    rewrite Hd. eexists r, profile, _. split; [reflexivity |]. split; [done |].
    split; [| apply Hd]. eexists. split; [apply lookup_insert_eq | done].
Qed.

(** X20.  POST /api/recommendations for a session of a reachable store.
    An unknown session is answered 400 and touches nothing.  A known session
    is answered with the recommendations for its cached profile, computed
    now when there was none; the profile of the body is not looked at.  The
    answer is frozen from then on: after any further calls that do not
    clear the session, answers to new questions included, the handler sends
    the same profile and the same recommendations. *)
Theorem postRecommendations_frozen (questions : list Question) (stationsData : list Station)
    (calls : list call) (sessionId : string) (userProfile : option UserProfile)
    (now : string) :
  sessionId <> "" ->
  let σ := run questions calls in
  (userSessions σ !! sessionId = None ->
   postRecommendations questions stationsData (Some sessionId) userProfile now σ =
   Some (Failure 400 "Invalid session"
           ("Session '" +:+ sessionId +:+ "' not found or incomplete"), σ)) /\
  (is_Some (userSessions σ !! sessionId) ->
   exists data σ',
     postRecommendations questions stationsData (Some sessionId) userProfile now σ =
       Some (Success data, σ') /\
     σ' = step questions σ (GetUserProfile sessionId) /\
     (exists r, holdsProfile sessionId r (rd_userProfile data) σ') /\
     rd_recommendations data = generateRecommendations stationsData (rd_userProfile data) /\
     rd_totalStationsAnalyzed data =
       size (calculateScores stationsData (rd_userProfile data)) /\
     forall later userProfile' now',
       Forall (fun c => c <> ClearSession sessionId) later ->
       let σ2 := fold_left (step questions) later σ' in
       exists data',
         postRecommendations questions stationsData (Some sessionId) userProfile' now' σ2 =
           Some (Success data', σ2) /\
         rd_userProfile data' = rd_userProfile data /\
         rd_recommendations data' = rd_recommendations data).
Proof.
  intros Hs σ.
  assert (Hm : missing (Some sessionId) = false) by (by apply bool_decide_eq_false).
  split.
  - intros Hnone. unfold postRecommendations, resolveProfile, getUserProfile.
    rewrite Hm. change (default "" (Some sessionId)) with sessionId. cbn [negb].
    by rewrite Hnone.
  - intros Hsome.
    destruct (resolveProfile_session questions calls sessionId userProfile Hs Hsome)
      as (r & profile & σ' & Hres & Hσ' & Hholds).
    unfold postRecommendations. fold σ in Hres. rewrite Hres.
    eexists _, σ'. split; [reflexivity |]. cbn [rd_userProfile rd_recommendations
                                                 rd_totalStationsAnalyzed].
    split; [exact Hσ' |]. split; [by exists r |]. split; [done |]. split; [done |].
    intros later userProfile' now' Hlater.
    pose proof (fold_holdsProfile questions sessionId r profile later σ' Hlater Hholds)
      as [(session & Hsession & Hp) Hd].
    unfold resolveProfile, getUserProfile. rewrite Hm.
    change (default "" (Some sessionId)) with sessionId. cbn [negb].
    rewrite Hsession, Hp, Hd. by eexists.
Qed.

Lemma postRecommendations_frozen_witness :
  postRecommendations Sample.questions Sample.stations (Some "s") None "t"
    (run Sample.questions []) =
  Some (Failure 400 "Invalid session" ("Session '" +:+ "s" +:+ "' not found or incomplete"),
        run Sample.questions []).
Proof.
  destruct (postRecommendations_frozen Sample.questions Sample.stations [] "s" None "t")
    as [H _].
  - discriminate.
  - apply H. reflexivity.
Defined.

End RecommendationRouter.

(** * Properties of the store of the frontend *)

Section SliceProperties.

Import DiagnosticSlice.

Lemma reducer_indexInRange {Question Answer UserProfile Recommendation : Type}
    (state : DiagnosticState Question Answer UserProfile Recommendation) (action : Action Question Answer UserProfile Recommendation) :
  ~ replacesQuestions action -> indexInRange state -> indexInRange (reducer state action).
Proof.
  intros Hkeep [Hlo Hhi]. unfold indexInRange in *.
  destruct action; cbn in *; try done; try lia.
  - destruct (_ <? _)%Z eqn:Hlt; cbn; [| done].
    apply Z.ltb_lt in Hlt. lia.
  - destruct (Z.gtb_spec (ds_currentQuestionIndex state) 0); cbn; [lia | done].
Qed.

(** X23.  The index of the current question stays in range: as long as
    the list of questions is not replaced, no sequence of actions takes it
    below 0 or beyond the last question (it stays 0 while there is no
    question), and a new list of questions keeps it in range when it is at
    least as long as the old one or the index is 0.  nextQuestion does
    nothing at the last question and previousQuestion nothing at the first;
    elsewhere each undoes the other. *)
Theorem navigation_in_range {Question Answer UserProfile Recommendation : Type}
    (state : DiagnosticState Question Answer UserProfile Recommendation) :
  indexInRange state ->
  (forall actions,
     Forall (fun action => ~ replacesQuestions action) actions ->
     indexInRange (fold_left reducer actions state)) /\
  (forall payload,
     ds_currentQuestionIndex state = 0%Z \/
     (length (ds_questions state) <= length payload)%nat ->
     indexInRange (reducer state (fetchQuestions_fulfilled payload))) /\
  ((Z.of_nat (length (ds_questions state)) - 1 <= ds_currentQuestionIndex state)%Z ->
   reducer state nextQuestion = state) /\
  (ds_currentQuestionIndex state = 0%Z ->
   reducer state previousQuestion = state) /\
  ((ds_currentQuestionIndex state < Z.of_nat (length (ds_questions state)) - 1)%Z ->
   reducer (reducer state nextQuestion) previousQuestion = state) /\
  ((0 < ds_currentQuestionIndex state)%Z ->
   reducer (reducer state previousQuestion) nextQuestion = state).
Proof.
  intros Hin. split; [| split; [| split; [| split; [| split]]]].
  - intros actions Hactions. revert state Hin.
    induction Hactions as [| action actions Haction _ IH]; intros state Hin; [done |].
    cbn [fold_left]. by apply IH, reducer_indexInRange.
  - intros payload Hlen. destruct Hin as [Hlo Hhi]. unfold indexInRange in *. cbn. lia.
  - intros Hlast. cbn. destruct (_ <? _)%Z eqn:Hlt; [| done].
    apply Z.ltb_lt in Hlt. lia.
  - intros Hfirst. cbn. by rewrite Hfirst.
  - intros Hlt. destruct Hin as [Hlo Hhi]. destruct state as [qs i ans up recs sid ld err done].
    cbn in *. apply Z.ltb_lt in Hlt as Hb. rewrite Hb. cbn.
    destruct (Z.gtb_spec (i + 1) 0); [| lia].
    unfold setIndex. cbn. f_equal. lia.
  - intros Hpos. destruct Hin as [Hlo Hhi]. destruct state as [qs i ans up recs sid ld err done].
    cbn in *. destruct (Z.gtb_spec i 0); [| lia].
    cbn. destruct (i - 1 <? Z.of_nat (length qs) - 1)%Z eqn:Hlt;
      [| apply Z.ltb_ge in Hlt; lia].
    unfold setIndex. cbn. f_equal. lia.
Qed.

Lemma navigation_in_range_witness :
  indexInRange
    (fold_left reducer [nextQuestion; previousQuestion] (initialState nat nat nat nat)).
Proof.
  apply (navigation_in_range (initialState nat nat nat nat)).
  - unfold indexInRange. cbn. lia.
  - repeat constructor; by intros [].
Defined.

(** X24.  What the store has learnt is only taken back by resetDiagnostic:
    no other action clears the completion flag, the profile or the session
    id, and only the arrival of questions changes the list of questions.  A
    rejection touches nothing but the loading flag and the error, which it
    sets to a message that is not empty.  resetDiagnostic keeps the
    questions and the loading flag and puts everything else back to its
    initial value. *)
Theorem reducer_keeps {Question Answer UserProfile Recommendation : Type}
    (state : DiagnosticState Question Answer UserProfile Recommendation) (action : Action Question Answer UserProfile Recommendation) :
  (action <> resetDiagnostic ->
   (ds_isComplete state = true -> ds_isComplete (reducer state action) = true) /\
   (is_Some (ds_userProfile state) -> is_Some (ds_userProfile (reducer state action))) /\
   (is_Some (ds_sessionId state) -> is_Some (ds_sessionId (reducer state action)))) /\
  (~ replacesQuestions action -> ds_questions (reducer state action) = ds_questions state) /\
  (isRejection action ->
   exists error,
     reducer state action = rejected state error /\ error <> "" /\
     ds_isLoading (reducer state action) = false) /\
  reducer state resetDiagnostic =
    {| ds_questions := ds_questions state; ds_currentQuestionIndex := 0%Z;
       ds_answers := []; ds_userProfile := None; ds_recommendations := [];
       ds_sessionId := None; ds_isLoading := ds_isLoading state; ds_error := None;
       ds_isComplete := false |} /\
  reducer (reducer state resetDiagnostic) resetDiagnostic =
    reducer state resetDiagnostic.
Proof.
  assert (HorElse : forall payload message fallback,
            fallback <> "" -> orElse payload message fallback <> "").
  { intros payload message fallback Hf. unfold orElse, missing.
    destruct payload as [p |]; cbn.
    - destruct (bool_decide (p = "")) eqn:Hp; cbn.
      + destruct message as [m |]; cbn; [| done].
        destruct (bool_decide (m = "")) eqn:Hm; cbn; [done |].
        by apply bool_decide_eq_false in Hm.
      + by apply bool_decide_eq_false in Hp.
    - destruct message as [m |]; cbn; [| done].
      destruct (bool_decide (m = "")) eqn:Hm; cbn; [done |].
      by apply bool_decide_eq_false in Hm. }
  split; [| split; [| split; [| split]]].
  - intros Hreset. destruct action; cbn; try done;
      repeat match goal with
             | |- context [if ?b then _ else _] => destruct b
             end; cbn; try done.
    + repeat split; try done. by destruct (sr_userProfile payload).
    + repeat split; try done. by destruct (sr_userProfile payload).
  - intros Hkeep. destruct action; cbn; try done;
      repeat match goal with
             | |- context [if ?b then _ else _] => destruct b
             end; done.
  - intros Hrej. destruct action; try done; cbn; eexists; (split; [reflexivity |]);
      (split; [apply HorElse |]); done.
  - done.
  - done.
Qed.

End SliceProperties.

(** * The program on doubles *)

(** ** Order of the doubles *)

Section DoubleOrder.

Import Double.

Lemma SFcompare_antisym (a b : float64) :
  SFcompare b a = CompOpp <$> SFcompare a b.
Proof.
  destruct a as [sa | sa | | sa ma ea], b as [sb | sb | | sb mb eb];
    try destruct sa; try destruct sb; try reflexivity; cbn.
  - rewrite (Z.compare_antisym ea eb).
    destruct (ea ?= eb)%Z; cbn; try reflexivity.
    change (Pos.compare_cont Eq mb ma) with (Pos.compare mb ma).
    change (Pos.compare_cont Eq ma mb) with (Pos.compare ma mb).
    by rewrite (Pos.compare_antisym ma mb).
  - rewrite (Z.compare_antisym ea eb).
    destruct (ea ?= eb)%Z; cbn; try reflexivity.
    change (Pos.compare_cont Eq mb ma) with (Pos.compare mb ma).
    change (Pos.compare_cont Eq ma mb) with (Pos.compare ma mb).
    by rewrite (Pos.compare_antisym ma mb).
Qed.

Lemma SFcompare_refl (a : float64) : isNaN a = false -> SFcompare a a = Some Eq.
Proof.
  destruct a as [s | s | | s m e]; try destruct s; try done; intros _; cbn;
    rewrite Z.compare_refl;
    change (Pos.compare_cont Eq m m) with (Pos.compare m m);
    by rewrite Pos.compare_refl.
Qed.

Lemma SFcompare_None (a b : float64) :
  isNaN a = false -> isNaN b = false -> is_Some (SFcompare a b).
Proof.
  destruct a as [sa | sa | | sa ma ea], b as [sb | sb | | sb mb eb]; try done;
    intros _ _; by eexists.
Qed.

Lemma leb_refl (a : float64) : isNaN a = false -> leb a a = true.
Proof. intros H. unfold leb, SFleb. by rewrite SFcompare_refl. Qed.

Lemma ltb_leb (a b : float64) : ltb a b = true -> leb a b = true.
Proof. unfold ltb, leb, SFltb, SFleb. by destruct (SFcompare a b) as [[] |]. Qed.

(** Of two doubles that are not NaN, one is at most the other. *)
Lemma leb_total (a b : float64) :
  isNaN a = false -> isNaN b = false -> ltb a b = false -> leb b a = true.
Proof.
  intros Ha Hb. unfold ltb, leb, SFltb, SFleb. rewrite (SFcompare_antisym a b).
  destruct (SFcompare_None a b Ha Hb) as [c ->]. by destruct c.
Qed.

Lemma isNaN_orb (a b : float64) :
  isNaN a || isNaN b = false -> isNaN a = false /\ isNaN b = false.
Proof. by destruct (isNaN a), (isNaN b). Qed.

(** [Math.min] gives NaN or one of its arguments, below both. *)
Lemma Math_min_spec (a b : float64) :
  Math_min a b = NaN \/
  (isNaN a = false /\ isNaN b = false /\
   (Math_min a b = a \/ Math_min a b = b) /\
   leb (Math_min a b) a = true /\ leb (Math_min a b) b = true).
Proof.
  unfold Math_min. destruct (isNaN a || isNaN b) eqn:Hnan; [by left | right].
  apply isNaN_orb in Hnan as [Ha Hb]. split; [done |]. split; [done |].
  destruct (ltb a b) eqn:Hab.
  { split; [by left |]. split; [by apply leb_refl | by apply ltb_leb]. }
  destruct (ltb b a) eqn:Hba.
  { split; [by right |]. split; [by apply ltb_leb | by apply leb_refl]. }
  pose proof (leb_total a b Ha Hb Hab) as Hle1.
  pose proof (leb_total b a Hb Ha Hba) as Hle2.
  destruct a as [[] | | |]; try (split; [by left |]; split; [by apply leb_refl | done]);
    destruct b as [[] | | |];
    try (split; [by left |]; split; [by apply leb_refl | done]);
    try (split; [by right |]; split; [done | by apply leb_refl]).
Qed.

(** [Math.max] gives NaN or one of its arguments, above both. *)
Lemma Math_max_spec (a b : float64) :
  Math_max a b = NaN \/
  (isNaN a = false /\ isNaN b = false /\
   (Math_max a b = a \/ Math_max a b = b) /\
   leb a (Math_max a b) = true /\ leb b (Math_max a b) = true).
Proof.
  unfold Math_max. destruct (isNaN a || isNaN b) eqn:Hnan; [by left | right].
  apply isNaN_orb in Hnan as [Ha Hb]. split; [done |]. split; [done |].
  destruct (ltb a b) eqn:Hab.
  { split; [by right |]. split; [by apply ltb_leb | by apply leb_refl]. }
  destruct (ltb b a) eqn:Hba.
  { split; [by left |]. split; [by apply leb_refl | by apply ltb_leb]. }
  pose proof (leb_total a b Ha Hb Hab) as Hle1.
  pose proof (leb_total b a Hb Ha Hba) as Hle2.
  destruct a as [[] | | |]; try (split; [by left |]; split; [by apply leb_refl | done]);
    destruct b as [[] | | |];
    try (split; [by left |]; split; [by apply leb_refl | done]);
    try (split; [by right |]; split; [done | by apply leb_refl]).
Qed.

Lemma add_NaN_r (x : float64) : add x NaN = NaN.
Proof. by destruct x. Qed.

Lemma Math_max_NaN_r (x : float64) : Math_max x NaN = NaN.
Proof. unfold Math_max. by rewrite orb_true_r. Qed.

Lemma Math_min_NaN_r (x : float64) : Math_min x NaN = NaN.
Proof. unfold Math_min. by rewrite orb_true_r. Qed.

(** A sum clamped to [0, 100] is NaN or lies there. *)
Lemma clamped (x : float64) :
  let score := Math_min (double 100) (Math_max zero x) in
  score = NaN \/ (leb zero score = true /\ leb score (double 100) = true).
Proof.
  intros score. subst score.
  destruct (Math_min_spec (double 100) (Math_max zero x))
    as [-> | (_ & Hnan & [-> | ->] & Hle1 & Hle2)]; [by left | right; done | right].
  split; [| done].
  destruct (Math_max_spec zero x) as [Hmax | (_ & _ & _ & Hge & _)]; [| done].
  rewrite Hmax in Hnan. done.
Qed.

End DoubleOrder.

(** ** The priority bonus and the score *)

Section Bonus64.

Import Double RecommendationService64.

(** The loop over the priorities, one step at a time. *)
Lemma forOf_cons {A B} (step : B -> A -> completion B) (x : A) (xs : list A) (acc : B) :
  forOf step (x :: xs) acc =
  match step acc x with
  | Return acc' => forOf step xs acc'
  | TypeError property => TypeError property
  end.
Proof. reflexivity. Qed.

(** Once [bonus] is a string it stays one. *)
Lemma forOf_Text (features : StationFeatures) (priorities : list string) :
  (forall priority,
     priority ∈ priorities -> priorityMappings features priority <> Some Throws) ->
  forOf (addBonus features) priorities Text = Return Text.
Proof.
  induction priorities as [| priority priorities IH]; intros Hsafe; [done |].
  rewrite forOf_cons. unfold addBonus at 1.
  pose proof (Hsafe priority (list_elem_of_here _ _)) as Hp.
  assert (IH' := IH (fun p Hin => Hsafe p (list_elem_of_further _ _ _ Hin))).
  by destruct (priorityMappings features priority) as [[] |].
Qed.

(** The loop throws exactly when a priority names a member that cannot be
    called bare. *)
Lemma forOf_throws (features : StationFeatures) (priorities : list string) (bonus : Bonus) :
  (exists property, forOf (addBonus features) priorities bonus = TypeError property) <->
  (exists priority,
     priority ∈ priorities /\ priorityMappings features priority = Some Throws).
Proof.
  revert bonus. induction priorities as [| priority priorities IH]; intros bonus.
  - split; [by intros [? ?] | intros (? & Hin & _); by apply elem_of_nil in Hin].
  - rewrite forOf_cons. unfold addBonus at 1.
    destruct (priorityMappings features priority) as [[v | | |] |] eqn:Hm.
    + destruct bonus as [x |]; rewrite IH; split; intros (p & Hin & Hp).
      all: try (exists p; split; [by right | done]).
      all: apply elem_of_cons in Hin as [-> | Hin]; [congruence | by exists p].
    + rewrite IH; split; intros (p & Hin & Hp).
      * exists p; split; [by right | done].
      * apply elem_of_cons in Hin as [-> | Hin]; [congruence | by exists p].
    + destruct bonus as [x |]; rewrite IH; split; intros (p & Hin & Hp).
      all: try (exists p; split; [by right | done]).
      all: apply elem_of_cons in Hin as [-> | Hin]; [congruence | by exists p].
    + split; [intros _ | by eexists]. exists priority. split; [left | done].
    + rewrite IH; split; intros (p & Hin & Hp).
      * exists p; split; [by right | done].
      * apply elem_of_cons in Hin as [-> | Hin]; [congruence | by exists p].
Qed.

(** A priority that names a member returning a string or an object leaves a
    string in [bonus], unless a call throws. *)
Lemma forOf_text (features : StationFeatures) (priorities : list string) (bonus : Bonus) :
  (forall priority,
     priority ∈ priorities -> priorityMappings features priority <> Some Throws) ->
  (exists priority,
     priority ∈ priorities /\ priorityMappings features priority = Some ReturnsText) ->
  forOf (addBonus features) priorities bonus = Return Text.
Proof.
  revert bonus. induction priorities as [| priority priorities IH];
    intros bonus Hsafe (p & Hin & Hp); [by apply elem_of_nil in Hin |].
  rewrite forOf_cons. unfold addBonus at 1.
  pose proof (Hsafe priority (list_elem_of_here _ _)) as Hsafe0.
  assert (Hsafe' : forall p, p ∈ priorities -> priorityMappings features p <> Some Throws)
    by (intros q Hq; apply Hsafe; by right).
  destruct (priorityMappings features priority) as [[v | | |] |] eqn:Hm; try done.
  - apply elem_of_cons in Hin as [-> | Hin]; [congruence |].
    destruct bonus; apply IH; eauto.
  - by apply forOf_Text.
  - apply elem_of_cons in Hin as [-> | Hin]; [congruence |].
    destruct bonus; apply IH; eauto.
  - apply elem_of_cons in Hin as [-> | Hin]; [congruence |]. apply IH; eauto.
Qed.

(** Priorities that name no member leave [bonus] as it is. *)
Lemma forOf_none (features : StationFeatures) (priorities : list string) (bonus : Bonus) :
  (forall priority, priority ∈ priorities -> priorityMappings features priority = None) ->
  forOf (addBonus features) priorities bonus = Return bonus.
Proof.
  induction priorities as [| priority priorities IH]; intros Hnone; [done |].
  rewrite forOf_cons. unfold addBonus at 1. rewrite (Hnone priority) by left.
  apply IH. intros p Hp. apply Hnone. by right.
Qed.

Lemma calculateStationScore_unfold (userProfile : UserProfile64) (station : Station) :
  calculateStationScore userProfile station =
  match calculatePriorityBonus (priorities64 userProfile) station with
  | Return priorityBonus =>
      Return (Math_min (double 100)
                (Math_max zero (add (baseScore userProfile station) priorityBonus)))
  | TypeError property => TypeError property
  end.
Proof. reflexivity. Qed.

Lemma calculatePriorityBonus_unfold (priorities : list string) (station : Station) :
  calculatePriorityBonus priorities station =
  match forOf (addBonus (st_features station)) (take 3 priorities) (Number zero) with
  | Return (Number x) => Return (Math_min (double 20) x)
  | Return Text => Return NaN
  | TypeError property => TypeError property
  end.
Proof.
  unfold calculatePriorityBonus.
  by destruct (forOf _ _ _) as [[] |].
Qed.

(** X1.  calculatePriorityBonus looks at the first three priorities only.
    It throws a TypeError exactly when one of them names a member of
    [Object.prototype] that cannot be called without receiver; a bonus it
    returns is NaN or at most 20, and it is NaN when one of them names
    [toString] or [constructor] and none makes it throw.  When none of the
    three names a member of the table (own or inherited) the bonus is 0 and
    the score is [baseScore + 0] clamped to [0, 100].  A score
    calculateStationScore returns is NaN or lies in [0, 100]. *)
Theorem calculatePriorityBonus_bounded (priorities : list string) (station : Station) :
  let features := st_features station in
  calculatePriorityBonus priorities station =
    calculatePriorityBonus (take 3 priorities) station /\
  ((exists property, calculatePriorityBonus priorities station = TypeError property) <->
   (exists priority,
      priority ∈ take 3 priorities /\ priorityMappings features priority = Some Throws)) /\
  (forall bonus,
     calculatePriorityBonus priorities station = Return bonus ->
     bonus = NaN \/ leb bonus (double 20) = true) /\
  ((forall priority,
      priority ∈ take 3 priorities -> priorityMappings features priority <> Some Throws) ->
   (exists priority,
      priority ∈ take 3 priorities /\
      priorityMappings features priority = Some ReturnsText) ->
   calculatePriorityBonus priorities station = Return NaN) /\
  ((forall priority,
      priority ∈ take 3 priorities -> priorityMappings features priority = None) ->
   calculatePriorityBonus priorities station = Return zero /\
   forall userProfile,
     priorities64 userProfile = priorities ->
     calculateStationScore userProfile station =
     Return (Math_min (double 100)
               (Math_max zero (add (baseScore userProfile station) zero)))) /\
  (forall userProfile score,
     calculateStationScore userProfile station = Return score ->
     score = NaN \/ (leb zero score = true /\ leb score (double 100) = true)).
Proof.
  intros features. subst features.
  split. { rewrite !calculatePriorityBonus_unfold. by rewrite take_take. }
  split.
  { rewrite calculatePriorityBonus_unfold, <- (forOf_throws _ _ (Number zero)).
    destruct (forOf _ _ _) as [[] | property]; split; intros [p Hp]; try done.
    all: exists p; by injection Hp as ->. }
  split.
  { intros bonus. rewrite calculatePriorityBonus_unfold.
    destruct (forOf _ _ _) as [[x |] | property]; intros [= <-]; [| by left].
    destruct (Math_min_spec (double 20) x) as [-> | (_ & _ & _ & Hle & _)];
      [by left | by right]. }
  split.
  { intros Hsafe Htext. rewrite calculatePriorityBonus_unfold.
    by rewrite (forOf_text _ _ _ Hsafe Htext). }
  split.
  { intros Hnone.
    assert (Hbonus : calculatePriorityBonus priorities station = Return zero).
    { rewrite calculatePriorityBonus_unfold. by rewrite (forOf_none _ _ _ Hnone). }
    split; [done |]. intros userProfile Hp.
    by rewrite calculateStationScore_unfold, Hp, Hbonus. }
  intros userProfile score. rewrite calculateStationScore_unfold.
  destruct (calculatePriorityBonus _ _) as [bonus |]; intros [= <-].
  apply clamped.
Qed.

End Bonus64.

Section Inherited.

Import Double RecommendationService64.

Lemma priorityMappings_toString (features : StationFeatures) :
  priorityMappings features "toString" = Some ReturnsText.
Proof. reflexivity. Qed.

Lemma priorityMappings_constructor (features : StationFeatures) :
  priorityMappings features "constructor" = Some ReturnsText.
Proof. reflexivity. Qed.

Lemma priorityMappings___proto__ (features : StationFeatures) :
  priorityMappings features "__proto__" = Some Throws.
Proof. reflexivity. Qed.

Lemma priorityMappings_valueOf (features : StationFeatures) :
  priorityMappings features "valueOf" = Some Throws.
Proof. reflexivity. Qed.

(** The score of a profile whose only priority is [priority]. *)
Lemma calculateStationScore_single (userProfile : UserProfile64) (station : Station)
    (priority : string) :
  priorities64 userProfile = [priority] ->
  calculateStationScore userProfile station =
  match priorityMappings (st_features station) priority with
  | Some (Calculator value) =>
      Return (Math_min (double 100)
                (Math_max zero
                   (add (baseScore userProfile station)
                      (Math_min (double 20) (add zero value)))))
  | Some ReturnsText => Return NaN
  | Some ReturnsFalse =>
      Return (Math_min (double 100)
                (Math_max zero
                   (add (baseScore userProfile station)
                      (Math_min (double 20) (add zero zero)))))
  | Some Throws => TypeError priority
  | None =>
      Return (Math_min (double 100)
                (Math_max zero
                   (add (baseScore userProfile station) (Math_min (double 20) zero))))
  end.
Proof.
  intros Hp. rewrite calculateStationScore_unfold, calculatePriorityBonus_unfold, Hp.
  cbn [take forOf]. unfold addBonus.
  destruct (priorityMappings (st_features station) priority) as [[value | | |] |];
    try reflexivity.
  cbn [mbind completion_bind]. by rewrite add_NaN_r, Math_max_NaN_r, Math_min_NaN_r.
Qed.

End Inherited.

(** ** The score map *)

Section Scores64.

Import Double RecommendationService64.

Variable userProfile : UserProfile64.

(** The loop of calculateScores from a map [acc]: it throws what the first
    station that throws does; otherwise every station has a score and the
    entry of an id is the score of the last station that carries it. *)
Lemma calculateScores_acc (stations : list Station) (acc : gmap string float64) :
  match
    forOf
      (fun scores station =>
         score ← calculateStationScore userProfile station;
         Return (<[st_id station := score]> scores))
      stations acc
  with
  | Return scores =>
      (forall id, id ∉ map st_id stations -> scores !! id = acc !! id) /\
      (forall id,
         id ∈ map st_id stations ->
         exists station score,
           station ∈ stations /\ st_id station = id /\
           calculateStationScore userProfile station = Return score /\
           scores !! id = Some score)
  | TypeError property =>
      exists station,
        station ∈ stations /\ calculateStationScore userProfile station = TypeError property
  end.
Proof.
  revert acc. induction stations as [| station stations IH]; intros acc.
  - cbn. split; [done |]. intros id Hin. by apply elem_of_nil in Hin.
  - rewrite forOf_cons.
    destruct (calculateStationScore userProfile station) as [score | property] eqn:Hscore;
      cbn [mbind completion_bind]; [| exists station; split; [left | done]].
    specialize (IH (<[st_id station := score]> acc)).
    destruct (forOf _ stations _) as [scores | property].
    + destruct IH as [Hout Hin]. split.
      * intros id Hid. cbn [map] in Hid. apply not_elem_of_cons in Hid as [Hne Hid].
        rewrite (Hout id Hid). by rewrite lookup_insert_ne.
      * intros id Hid. destruct (decide (id ∈ map st_id stations)) as [Hlater | Hnot].
        -- destruct (Hin id Hlater) as (s & v & Hs & Hids & Hv & Hlook).
           exists s, v. split; [by right | done].
        -- exists station, score. cbn [map] in Hid.
           apply elem_of_cons in Hid as [-> | Hid]; [| done].
           split; [left |]. split; [done |]. split; [done |].
           rewrite (Hout _ Hnot). by rewrite lookup_insert_eq.
    + destruct IH as (s & Hs & Hthrow). exists s. split; [by right | done].
Qed.

Lemma calculateScores_spec (stations : list Station) :
  match calculateScores stations userProfile with
  | Return scores =>
      (forall id, id ∉ map st_id stations -> scores !! id = None) /\
      (forall id,
         id ∈ map st_id stations ->
         exists station score,
           station ∈ stations /\ st_id station = id /\
           calculateStationScore userProfile station = Return score /\
           scores !! id = Some score)
  | TypeError property =>
      exists station,
        station ∈ stations /\ calculateStationScore userProfile station = TypeError property
  end.
Proof.
  unfold calculateScores, StationService.getAllStations, StationService.stations.
  pose proof (calculateScores_acc stations ∅) as H.
  destruct (forOf _ stations ∅); [| done].
  destruct H as [Hout Hin]. split; [| done].
  intros id Hid. by rewrite (Hout id Hid).
Qed.

(** When every station has a score the map holds them. *)
Lemma calculateScores_returns (stations : list Station) :
  (forall station,
     station ∈ stations -> exists score, calculateStationScore userProfile station = Return score) ->
  exists scores, calculateScores stations userProfile = Return scores.
Proof.
  intros Hall. pose proof (calculateScores_spec stations) as H.
  destruct (calculateScores stations userProfile) as [scores | property]; [by eexists |].
  destruct H as (station & Hin & Hthrow). destruct (Hall station Hin) as [score Hscore].
  congruence.
Qed.

End Scores64.

(** ** Sorting by decreasing score *)

Section Sort64.

Import Double.

Context {A : Type}.

Lemma sort_insert_perm64 (x : A * float64) (l : list (A * float64)) :
  sort_insert byScore x l ≡ₚ x :: l.
Proof.
  induction l as [| y l IH]; [done |]. cbn [sort_insert].
  destruct (gtb _ _); [| done]. rewrite IH. apply perm_swap.
Qed.

Lemma Array_sort_perm64 (l : list (A * float64)) : Array_sort byScore l ≡ₚ l.
Proof.
  induction l as [| x l IH]; [done |]. unfold Array_sort. cbn [foldr].
  fold (Array_sort byScore l). by rewrite sort_insert_perm64, IH.
Qed.

(** Entries that all carry the score 0 keep their order. *)
Lemma Array_sort_zeros (l : list A) :
  Array_sort byScore (map (fun x => (x, zero)) l) = map (fun x => (x, zero)) l.
Proof.
  induction l as [| x l IH]; [done |]. unfold Array_sort. cbn [map foldr].
  fold (Array_sort byScore (map (fun x => (x, zero)) l)). rewrite IH.
  by destruct l.
Qed.

End Sort64.

(** ** Priorities that name inherited members *)

Section InheritedMembers.

Import Double RecommendationService64.

Lemma scores_toString (userProfile : UserProfile) (stations : list Station) :
  exists scores,
    calculateScores stations (parseProfile (withPriorities ["toString"] userProfile)) =
      Return scores /\
    forall station, station ∈ stations -> scores !! st_id station = Some NaN.
Proof.
  set (profile := parseProfile (withPriorities ["toString"] userProfile)).
  assert (Hnan : forall station, calculateStationScore profile station = Return NaN).
  { intros station. by rewrite (calculateStationScore_single profile station "toString"). }
  destruct (calculateScores_returns profile stations) as [scores Hscores].
  { intros station _. by eexists. }
  exists scores. split; [done |]. intros station Hin.
  pose proof (calculateScores_spec profile stations) as Hspec. rewrite Hscores in Hspec.
  destruct Hspec as [_ Hspec].
  destruct (Hspec (st_id station)) as (s & v & _ & _ & Hv & Hlook).
  { apply list_elem_of_fmap. by exists station. }
  rewrite Hnan in Hv. by injection Hv as <-.
Qed.

Lemma scores___proto__ (userProfile : UserProfile) (station : Station)
    (stations : list Station) :
  calculateScores (station :: stations)
    (parseProfile (withPriorities ["__proto__"] userProfile)) = TypeError "__proto__".
Proof.
  unfold calculateScores, StationService.getAllStations, StationService.stations.
  rewrite forOf_cons.
  by rewrite (calculateStationScore_single _ station "__proto__").
Qed.

(** C1.  The score is not a number of [0, 100] for every profile.  For a
    profile whose priorities are [["toString"]], a member the bonus table
    inherits from [Object.prototype], calculateStationScore returns NaN for
    every station and every value of the map of calculateScores is NaN; for
    the priorities [["__proto__"]] calculateStationScore, and calculateScores
    on a catalog that is not empty, throw a TypeError.  Preferences of
    1e308, without priority, give NaN as well, on the stations of the
    sample. *)
Theorem calculateStationScore_inherited_member (userProfile : UserProfile)
    (station : Station) (stations : list Station) :
  calculateStationScore (parseProfile (withPriorities ["toString"] userProfile)) station =
    Return NaN /\
  (exists scores,
     calculateScores stations (parseProfile (withPriorities ["toString"] userProfile)) =
       Return scores /\
     forall station, station ∈ stations -> scores !! st_id station = Some NaN) /\
  calculateStationScore (parseProfile (withPriorities ["__proto__"] userProfile)) station =
    TypeError "__proto__" /\
  calculateScores (station :: stations)
    (parseProfile (withPriorities ["__proto__"] userProfile)) = TypeError "__proto__" /\
  map (calculateStationScore (parseProfile Sample64.huge)) Sample.stations =
    [Return NaN; Return NaN; Return NaN].
Proof.
  split. { by rewrite (calculateStationScore_single _ station "toString"). }
  split. { apply scores_toString. }
  split. { by rewrite (calculateStationScore_single _ station "__proto__"). }
  split. { apply scores___proto__. }
  vm_compute. reflexivity.
Qed.

(** C2.  The reported scores are not the rounded compatibility scores for
    every profile.  For a profile whose priorities are [["toString"]] every
    compatibility score is NaN, and generateRecommendations returns the
    first three stations of the catalog, in catalog order, with the ranks
    1, 2, 3 and the score 0, which is not NaN rounded; for the priorities
    [["__proto__"]] and a catalog that is not empty it throws a TypeError.
    On the sample catalog the preferences that rank tokyo, ueno, tabata
    without priority give tabata, tokyo, ueno, each with the score 0, with
    the priority ["toString"]. *)
Theorem generateRecommendations_inherited_member (userProfile : UserProfile)
    (station : Station) (stations : list Station) :
  let profile := parseProfile (withPriorities ["toString"] userProfile) in
  (exists recommendations,
     generateRecommendations stations profile = Return recommendations /\
     map (fun r => (station64 r, score64 r, rank64 r)) recommendations =
       imap (fun i station => (station, zero, (i + 1)%nat)) (take 3 stations) /\
     forall r,
       r ∈ recommendations ->
       calculateStationScore profile (station64 r) = Return NaN /\
       score64 r <> round2 NaN) /\
  generateRecommendations (station :: stations)
    (parseProfile (withPriorities ["__proto__"] userProfile)) = TypeError "__proto__" /\
  map (fun r => (st_id (station64 r), rank64 r)) <$>
    returned (generateRecommendations Sample.stations (parseProfile (Sample64.body []))) =
    Some [("tokyo", 1%nat); ("ueno", 2%nat); ("tabata", 3%nat)] /\
  map (fun r => (st_id (station64 r), score64 r, rank64 r)) <$>
    returned
      (generateRecommendations Sample.stations (parseProfile (Sample64.body ["toString"]))) =
    Some [("tabata", zero, 1%nat); ("tokyo", zero, 2%nat); ("ueno", zero, 3%nat)].
Proof.
  intros profile.
  split.
  { destruct (scores_toString userProfile stations) as (scores & Hscores & Hnan).
    fold profile in Hscores.
    assert (Hsorted : stationScores stations scores = map (fun s => (s, zero)) stations).
    { unfold stationScores, StationService.getAllStations, StationService.stations.
      rewrite <- Array_sort_zeros. f_equal. apply map_ext_in. intros s Hs.
      apply list_elem_of_In in Hs. by rewrite (Hnan s Hs). }
    eexists. split.
    { unfold generateRecommendations. rewrite Hscores. cbn [mbind completion_bind].
      rewrite Hsorted, pushEach_imap. reflexivity. }
    assert (Htake : take (3 `min` length (map (fun s : Station => (s, zero)) stations))
                      (map (fun s : Station => (s, zero)) stations) =
                    map (fun s => (s, zero)) (take 3 stations)).
    { rewrite length_map. change (map ?f ?l) with (f <$> l). rewrite <- fmap_take.
      destruct (Nat.min_spec 3 (length stations)) as [[_ ->] | [Hle ->]]; [done |].
      by rewrite !take_ge by lia. }
    rewrite Htake. split.
    - change (map ?f ?l) with (f <$> l). rewrite fmap_imap, imap_fmap.
      apply imap_ext. intros i s _. reflexivity.
    - intros r Hr. apply list_elem_of_lookup in Hr as [i Hi].
      rewrite list_lookup_imap in Hi.
      change (map ?f ?l) with (f <$> l) in Hi. rewrite list_lookup_fmap in Hi.
      destruct (take 3 stations !! i) as [s |]; [| done]. cbn in Hi.
      injection Hi as <-. cbn [station64 score64]. split; [| done].
      by rewrite (calculateStationScore_single profile s "toString"). }
  split.
  { unfold generateRecommendations. by rewrite scores___proto__. }
  split; vm_compute; reflexivity.
Qed.

End InheritedMembers.

(** ** The computed preferences *)

Section Preferences64.

Import DiagnosticService Double.

Lemma get_at_all64 (category : QuestionCategory) (v : float64) :
  category <> priority -> DiagnosticService64.get_at category (DiagnosticService64.all v) = v.
Proof. by destruct category. Qed.

Lemma get_at_add_at64 (category category' : QuestionCategory) (x : float64)
    (c : Categories64) :
  category' <> priority ->
  DiagnosticService64.get_at category (DiagnosticService64.add_at category' x c) =
  if decide (category = category') then add (DiagnosticService64.get_at category c) x
  else DiagnosticService64.get_at category c.
Proof. by destruct category, category'. Qed.

(** The normalisation loop treats every category on its own. *)
Lemma get_at_normalize64 (category : QuestionCategory)
    (preferences categoryWeights : Categories64) :
  category <> priority ->
  DiagnosticService64.get_at category
    (DiagnosticService64.normalize preferences categoryWeights) =
  if gtb (DiagnosticService64.get_at category categoryWeights) zero then
    div (DiagnosticService64.get_at category preferences)
      (DiagnosticService64.get_at category categoryWeights)
  else DiagnosticService64.get_at category preferences.
Proof.
  intros Hcat. unfold DiagnosticService64.normalize.
  cbn [fold_left DiagnosticService64.get_at].
  destruct category; [| | | | | done]; cbn [DiagnosticService64.get_at];
    destruct (gtb (c64_housing categoryWeights) zero),
             (gtb (c64_transport categoryWeights) zero),
             (gtb (c64_commercial categoryWeights) zero),
             (gtb (c64_culture categoryWeights) zero),
             (gtb (c64_price categoryWeights) zero); reflexivity.
Qed.

Lemma substantive_category64 (questions : list Question) (answer : Answer)
    (question : Question) (selectedOption : QuestionOption) :
  substantive questions answer = Some (question, selectedOption) ->
  q_category question <> priority.
Proof.
  unfold substantive. intros Hsub.
  destruct (findQuestion questions (a_questionId answer)) as [q' |]; [| discriminate].
  destruct (decide (q_category q' = priority)); [discriminate |].
  destruct (findOption q' (a_selectedOption answer)); [| discriminate].
  by inversion Hsub; subst.
Qed.

(** A category none of the answers contributes to keeps both sums. *)
Lemma categorySums_untouched64 (questions : list Question) (category : QuestionCategory)
    (answers : list Answer) (acc : Categories64 * Categories64) :
  Forall (fun answer =>
            forall question selectedOption,
              substantive questions answer = Some (question, selectedOption) ->
              q_category question <> category) answers ->
  let sums :=
    fold_left
      (fun '(preferences, categoryWeights) answer =>
         match substantive questions answer with
         | None => (preferences, categoryWeights)
         | Some (question, selectedOption) =>
             let weightedScore :=
               mul (double (opt_value selectedOption)) (double (q_weight question)) in
             (DiagnosticService64.add_at (q_category question) weightedScore preferences,
              DiagnosticService64.add_at (q_category question) (double (q_weight question))
                categoryWeights)
         end)
      answers acc in
  DiagnosticService64.get_at category (fst sums) =
    DiagnosticService64.get_at category (fst acc) /\
  DiagnosticService64.get_at category (snd sums) =
    DiagnosticService64.get_at category (snd acc).
Proof.
  intros Hall. revert acc. induction Hall as [| answer answers Hanswer Hall IH];
    intros [p w]; cbn [fold_left]; [done |].
  destruct (substantive questions answer) as [[question selectedOption] |] eqn:Hsub;
    [| apply IH].
  pose proof (substantive_category64 _ _ _ _ Hsub) as Hcat.
  specialize (Hanswer _ _ eq_refl).
  cbv zeta in IH.
  destruct (IH (DiagnosticService64.add_at (q_category question)
                  (mul (double (opt_value selectedOption)) (double (q_weight question))) p,
                DiagnosticService64.add_at (q_category question)
                  (double (q_weight question)) w))
    as [-> ->].
  cbn [fst snd]. rewrite !get_at_add_at64 by done. by rewrite !decide_False by done.
Qed.

(** A category without contributing answer has preference 0. *)
Lemma computeProfile_untouched64 (questions : list Question) (answers : list Answer)
    (category : QuestionCategory) :
  Forall (fun answer =>
            forall question selectedOption,
              substantive questions answer = Some (question, selectedOption) ->
              q_category question <> category) answers ->
  DiagnosticService64.get_at category
    (preferences64 (DiagnosticService64.computeProfile questions answers)) = zero.
Proof.
  intros Hall. unfold DiagnosticService64.computeProfile.
  pose proof (categorySums_untouched64 questions category answers
                (DiagnosticService64.all zero, DiagnosticService64.all zero) Hall) as Hsums.
  cbv zeta in Hsums. fold (DiagnosticService64.categorySums questions answers) in Hsums.
  destruct (DiagnosticService64.categorySums questions answers) as [p w].
  cbn [fst snd preferences64] in *. destruct Hsums as [Hp0 Hw0].
  destruct (decide (category = priority)) as [-> | Hcat]; [done |].
  rewrite get_at_normalize64, Hw0, Hp0 by done.
  by destruct category.
Qed.

Lemma getUserProfile_computes64 (questions : list Question) (sessionId : string)
    (σ : DiagnosticService64.State64) (session : Session) :
  DiagnosticService64.userSessions σ !! sessionId = Some session ->
  s_profile session = None ->
  exists r σ',
    DiagnosticService64.getUserProfile questions sessionId σ = (Ok r, σ') /\
    DiagnosticService64.deref σ' r =
    Some (DiagnosticService64.computeProfile questions (s_answers session)).
Proof.
  intros Hs Hp. unfold DiagnosticService64.getUserProfile. rewrite Hs, Hp.
  eexists _, _. split; [reflexivity |].
  unfold DiagnosticService64.deref. cbn [DiagnosticService64.objects].
  rewrite lookup_app_r by done. by rewrite Nat.sub_diag.
Qed.

(** Adding a positive double to 0 gives that double. *)
Lemma add_zero_positive (x : float64) : gtb x zero = true -> add zero x = x.
Proof. by destruct x as [[] | [] | | [] m e]. Qed.

(** C4.  A session that holds exactly one answer, to a substantive question
    whose weight is positive, and no cached profile: the preference
    getUserProfile computes for the category of the question is the double
    [(0 + value * weight) / weight], the product, the sum and the quotient
    each rounded to the nearest double, which is the value of the selected
    option up to that rounding; the other categories have preference 0.
    In general a category without contributing answer has preference 0. *)
Theorem single_answer_preference_rounded (questions : list Question) (sessionId : string)
    (σ : DiagnosticService64.State64) (session : Session) (answer : Answer)
    (question : Question) (selectedOption : QuestionOption) :
  DiagnosticService64.userSessions σ !! sessionId = Some session ->
  s_profile session = None ->
  s_answers session = [answer] ->
  findQuestion questions (a_questionId answer) = Some question ->
  q_category question <> priority ->
  findOption question (a_selectedOption answer) = Some selectedOption ->
  gtb (double (q_weight question)) zero = true ->
  (exists r σ' profile,
     DiagnosticService64.getUserProfile questions sessionId σ = (Ok r, σ') /\
     DiagnosticService64.deref σ' r = Some profile /\
     DiagnosticService64.get_at (q_category question) (preferences64 profile) =
       div (add zero (mul (double (opt_value selectedOption)) (double (q_weight question))))
         (double (q_weight question)) /\
     (forall category,
        category <> q_category question ->
        DiagnosticService64.get_at category (preferences64 profile) = zero)) /\
  (forall answers category,
     Forall (fun answer =>
               forall question selectedOption,
                 substantive questions answer = Some (question, selectedOption) ->
                 q_category question <> category) answers ->
     DiagnosticService64.get_at category
       (preferences64 (DiagnosticService64.computeProfile questions answers)) = zero).
Proof.
  intros Hs Hp Hans Hq Hcat Ho Hw.
  split; [| intros answers category; apply computeProfile_untouched64].
  destruct (getUserProfile_computes64 questions sessionId σ session Hs Hp)
    as (r & σ' & Hget & Hd).
  exists r, σ', (DiagnosticService64.computeProfile questions (s_answers session)).
  split; [exact Hget |]. split; [exact Hd |]. rewrite Hans.
  assert (Hsub : substantive questions answer = Some (question, selectedOption)).
  { unfold substantive. rewrite Hq, decide_False by done. by rewrite Ho. }
  split.
  - unfold DiagnosticService64.computeProfile, DiagnosticService64.categorySums.
    cbn [fold_left]. rewrite Hsub. cbn [preferences64].
    rewrite get_at_normalize64, !get_at_add_at64, !decide_True, !get_at_all64 by done.
    rewrite (add_zero_positive _ Hw). by rewrite Hw.
  - intros category Hne. apply computeProfile_untouched64.
    constructor; [| constructor].
    intros question' selectedOption' Hsub'. rewrite Hsub in Hsub'.
    inversion Hsub'; subst. by apply not_eq_sym.
Qed.

(** The sample question [housing_01] has the weight 1.5 and its first option
    the value 5: here the quotient is 5. *)
Lemma single_answer_preference_rounded_witness :
  exists r σ' profile,
    DiagnosticService64.getUserProfile Sample.questions "s" (Sample64.answered [firstAnswer]) =
      (Ok r, σ') /\
    DiagnosticService64.deref σ' r = Some profile /\
    DiagnosticService64.get_at housing (preferences64 profile) = double 5 /\
    (forall category,
       category <> housing -> DiagnosticService64.get_at category (preferences64 profile) = zero).
Proof.
  refine (proj1 (single_answer_preference_rounded Sample.questions "s"
            (Sample64.answered [firstAnswer])
            {| s_answers := [firstAnswer]; s_profile := None |} firstAnswer
            Sample.housing_01 (Sample.opt "housing_01_a" 5 ["family-friendly"; "quiet"])
            eq_refl eq_refl eq_refl eq_refl _ eq_refl _)).
  - discriminate.
  - reflexivity.
Defined.

(** C4, counterexample.  With a question of weight 1.6 and an option of
    value 3: the session holds the one answer, and the preference computed
    for the category is [(3 * 1.6) / 1.6] in doubles, the double next above
    3. *)
Lemma single_answer_not_exact :
  (exists r σ' profile,
     DiagnosticService64.getUserProfile Sample64.questions "s"
       (Sample64.answered [Sample64.transportAnswer]) = (Ok r, σ') /\
     DiagnosticService64.deref σ' r = Some profile /\
     substantive Sample64.questions Sample64.transportAnswer =
       Some (Sample64.transport_01, Sample.opt "transport_01_a" 3 ["accessible"]) /\
     double 3 = S754_finite false 6755399441055744 (-51) /\
     DiagnosticService64.get_at transport (preferences64 profile) =
       S754_finite false 6755399441055745 (-51)) /\
  ~ singleAnswerExact Sample64.questions.
Proof.
  assert (Hrun : exists r σ' profile,
     DiagnosticService64.getUserProfile Sample64.questions "s"
       (Sample64.answered [Sample64.transportAnswer]) = (Ok r, σ') /\
     DiagnosticService64.deref σ' r = Some profile /\
     substantive Sample64.questions Sample64.transportAnswer =
       Some (Sample64.transport_01, Sample.opt "transport_01_a" 3 ["accessible"]) /\
     double 3 = S754_finite false 6755399441055744 (-51) /\
     DiagnosticService64.get_at transport (preferences64 profile) =
       S754_finite false 6755399441055745 (-51)).
  { eexists _, _, _. split; [reflexivity |]. split; [reflexivity |].
    repeat split; vm_compute; reflexivity. }
  split; [exact Hrun |].
  destruct Hrun as (r & σ' & profile & Hget & Hd & Hsub & H3 & Hpref).
  intros H.
  specialize (H "s" (Sample64.answered [Sample64.transportAnswer])
                {| s_answers := [Sample64.transportAnswer]; s_profile := None |}
                _ _ _ r σ' profile eq_refl eq_refl eq_refl Hsub Hget Hd).
  cbn [q_category Sample64.transport_01] in H. rewrite Hpref in H.
  cbn [opt_value Sample.opt] in H. rewrite H3 in H. discriminate H.
Qed.

End Preferences64.

(** ** The explanation route *)

Section Explain64.

Import Double RecommendationService64 RecommendationRoutes64.

(** Whether a priority throws does not depend on the station. *)
Lemma priorityMappings_Throws (features : StationFeatures) (priority : string) :
  priorityMappings features priority = Some Throws <-> throwing priority.
Proof.
  unfold priorityMappings, throwing, ownProperties. cbn [lookup_key].
  repeat (destruct (decide (_ = priority)) as [<- | _]; [by split |]).
  reflexivity.
Qed.

(** calculateScores throws exactly when the catalog is not empty and one of
    the first three priorities throws. *)
Lemma calculateScores_throws (stations : list Station) (userProfile : UserProfile64) :
  (exists property, calculateScores stations userProfile = TypeError property) <->
  stations <> [] /\
  exists priority, priority ∈ take 3 (priorities64 userProfile) /\ throwing priority.
Proof.
  assert (Hstation : forall station,
            (exists property, calculateStationScore userProfile station = TypeError property) <->
            exists priority,
              priority ∈ take 3 (priorities64 userProfile) /\ throwing priority).
  { intros station. rewrite calculateStationScore_unfold, calculatePriorityBonus_unfold.
    rewrite <- (exist_proper _ _ (fun p => and_iff_compat_l _
                  (priorityMappings_Throws (st_features station) p))).
    rewrite <- (forOf_throws _ _ (Number zero)).
    destruct (forOf _ _ _) as [[] | property]; split; intros [p Hp]; try done.
    all: exists p; by injection Hp as ->. }
  split.
  - intros [property Hthrow].
    pose proof (calculateScores_spec userProfile stations) as Hspec.
    rewrite Hthrow in Hspec. destruct Hspec as (station & Hin & Hs).
    split; [intros ->; by apply elem_of_nil in Hin |].
    apply (Hstation station). by exists property.
  - intros [Hne Hp]. destruct stations as [| station stations]; [done |].
    apply (Hstation station) in Hp as [property Hthrow]. exists property.
    unfold calculateScores, StationService.getAllStations, StationService.stations.
    by rewrite forOf_cons, Hthrow.
Qed.

(** With distinct ids the entry of a station in the score map is its own
    score. *)
Lemma calculateScores_own (stations : list Station) (userProfile : UserProfile64)
    (scores : gmap string float64) (station : Station) :
  NoDup (map st_id stations) ->
  calculateScores stations userProfile = Return scores ->
  station ∈ stations ->
  exists score,
    calculateStationScore userProfile station = Return score /\
    scores !! st_id station = Some score.
Proof.
  intros Hnd Hscores Hin.
  pose proof (calculateScores_spec userProfile stations) as Hspec.
  rewrite Hscores in Hspec. destruct Hspec as [_ Hspec].
  destruct (Hspec (st_id station)) as (s & v & Hs & Hid & Hv & Hlook).
  { apply list_elem_of_fmap. by exists station. }
  assert (s = station) as ->; [| by exists v].
  pose proof (filter_own_id stations station Hnd Hin) as Hfilter.
  assert (Hsin : s ∈ filter (fun other => st_id other = st_id station) stations)
    by (by apply list_elem_of_filter).
  rewrite Hfilter in Hsin. by apply list_elem_of_singleton in Hsin.
Qed.

(** A recommendation is made of a station of the catalog, the rounded entry
    of its id in the score map, NaN read as 0, and its explanation. *)
Lemma generateRecommendations_entry64 (stations : list Station)
    (userProfile : UserProfile64) (scores : gmap string float64) (r : Recommendation64) :
  calculateScores stations userProfile = Return scores ->
  (exists recommendations,
     generateRecommendations stations userProfile = Return recommendations) /\
  (forall recommendations,
     generateRecommendations stations userProfile = Return recommendations ->
     r ∈ recommendations ->
     station64 r ∈ stations /\
     score64 r = round2 (orZero (scores !! st_id (station64 r))) /\
     explanation64 r = explainRecommendation (station64 r) userProfile).
Proof.
  intros Hscores. unfold generateRecommendations. rewrite Hscores.
  cbn [mbind completion_bind]. split; [by eexists |].
  intros recommendations [= <-]. rewrite pushEach_imap. intros Hin.
  apply list_elem_of_lookup in Hin as [i Hi]. rewrite list_lookup_imap in Hi.
  destruct (take _ (stationScores stations scores) !! i) as [[s v] |] eqn:Hsv; [| done].
  cbn in Hi. injection Hi as <-. cbn [station64 score64 explanation64].
  apply list_elem_of_lookup_2, subseteq_take in Hsv.
  unfold stationScores, StationService.getAllStations, StationService.stations in Hsv.
  rewrite Array_sort_perm64 in Hsv.
  apply list_elem_of_fmap in Hsv. destruct Hsv as (s' & [= -> ->] & Hin). done.
Qed.

(** X22.  POST /api/recommendations/explain/:stationId with a profile in
    the body, for a catalog with distinct ids.  An id no station has is
    answered 404.  For a station of the catalog the handler answers 500,
    with the message of the TypeError, when calculateScores throws, which it
    does exactly when one of the first three priorities names an inherited
    member whose bare call throws; otherwise it sends that station, its
    compatibility score, NaN read as 0, rounded to hundredths, and its
    explanation.  For the station of a recommendation these are the score
    and the explanation the recommendation itself carries. *)
Theorem postExplain_recommendation64 (questions : list Question)
    (stationsData : list Station) (typeErrorMessage : string -> string)
    (userProfile : UserProfile) (now : string) (σ : DiagnosticService64.State64) :
  NoDup (map st_id stationsData) ->
  let profile := parseProfile userProfile in
  let explain stationId :=
    postExplain questions stationsData typeErrorMessage stationId None (Some userProfile)
      now σ in
  (forall stationId,
     stationId ∉ map st_id stationsData ->
     explain stationId =
     Some (Failure 404 "Station not found"
             ("Station with ID '" +:+ stationId +:+ "' does not exist"), σ)) /\
  (forall station,
     station ∈ stationsData ->
     match calculateScores stationsData profile with
     | TypeError property =>
         explain (st_id station) =
         Some (Failure 500 "Failed to generate explanation" (typeErrorMessage property), σ)
     | Return _ =>
         exists raw,
           calculateStationScore profile station = Return raw /\
           explain (st_id station) =
           Some (Success {| ex_station := station;
                            ex_score := round2 (orZero (Some raw));
                            ex_explanation := explainRecommendation station profile;
                            ex_userProfile := profile; ex_explainedAt := now |}, σ)
     end) /\
  ((exists property, calculateScores stationsData profile = TypeError property) <->
   stationsData <> [] /\
   exists priority, priority ∈ take 3 (priorities userProfile) /\ throwing priority) /\
  (forall recommendations r,
     generateRecommendations stationsData profile = Return recommendations ->
     r ∈ recommendations ->
     explain (st_id (station64 r)) =
     Some (Success {| ex_station := station64 r; ex_score := score64 r;
                      ex_explanation := explanation64 r;
                      ex_userProfile := profile; ex_explainedAt := now |}, σ)).
Proof.
  intros Hids profile explain.
  assert (Hfound : forall station,
            station ∈ stationsData ->
            StationService.getStationById stationsData (st_id station) = Some station).
  { intros station Hin. unfold StationService.getStationById.
    by rewrite initializeCache_lookup, filter_own_id. }
  split; [| split; [| split]].
  - intros stationId Hout. unfold explain, postExplain. cbn [resolveProfile missing negb].
    by rewrite (proj2 (getStationById_None stationsData stationId) Hout).
  - intros station Hin. unfold explain, postExplain. cbn [resolveProfile missing negb].
    rewrite (Hfound station Hin). fold profile.
    destruct (calculateScores stationsData profile) as [scores | property] eqn:Hscores;
      [| done].
    destruct (calculateScores_own _ _ _ _ Hids Hscores Hin) as (raw & Hraw & Hlook).
    exists raw. split; [done |]. by rewrite Hlook.
  - apply calculateScores_throws.
  - intros recommendations r Hrecs Hr.
    destruct (calculateScores stationsData profile) as [scores | property] eqn:Hscores.
    + destruct (generateRecommendations_entry64 _ _ _ r Hscores) as [_ Hentry].
      destruct (Hentry _ Hrecs Hr) as (Hst & Hscore & Hexpl).
      unfold explain, postExplain. cbn [resolveProfile missing negb].
      rewrite (Hfound _ Hst). fold profile. rewrite Hscores.
      by rewrite Hscore, Hexpl.
    + unfold generateRecommendations in Hrecs. by rewrite Hscores in Hrecs.
Qed.

(** The ids of the sample catalog are distinct.  For the body whose
    priorities are [["toString"]] every score is NaN and the handler reports
    the score 0 for tokyo; for [["valueOf"]] it answers 500. *)
Lemma postExplain_recommendation64_witness :
  (exists raw,
     calculateStationScore (parseProfile (Sample64.body ["toString"]))
       (Sample.uniform "tokyo" 5 1 ["JY"; "JK"; "JC"; "JT"; "JE"]) = Return raw /\
     postExplain Sample.questions Sample.stations id "tokyo" None
       (Some (Sample64.body ["toString"])) "t" DiagnosticService64.initial =
     Some (Success
             {| ex_station := Sample.uniform "tokyo" 5 1 ["JY"; "JK"; "JC"; "JT"; "JE"];
                ex_score := round2 (orZero (Some raw));
                ex_explanation :=
                  explainRecommendation
                    (Sample.uniform "tokyo" 5 1 ["JY"; "JK"; "JC"; "JT"; "JE"])
                    (parseProfile (Sample64.body ["toString"]));
                ex_userProfile := parseProfile (Sample64.body ["toString"]);
                ex_explainedAt := "t" |}, DiagnosticService64.initial)) /\
  postExplain Sample.questions Sample.stations id "tokyo" None
    (Some (Sample64.body ["valueOf"])) "t" DiagnosticService64.initial =
  Some (Failure 500 "Failed to generate explanation" "valueOf", DiagnosticService64.initial).
Proof.
  assert (Hids : NoDup (map st_id Sample.stations)).
  { apply (bool_decide_unpack _). vm_compute. exact I. }
  assert (Hin : Sample.uniform "tokyo" 5 1 ["JY"; "JK"; "JC"; "JT"; "JE"] ∈ Sample.stations).
  { apply list_elem_of_further, list_elem_of_here. }
  split.
  - destruct (postExplain_recommendation64 Sample.questions Sample.stations id
                (Sample64.body ["toString"]) "t" DiagnosticService64.initial Hids)
      as (_ & H & _).
    exact (H _ Hin).
  - destruct (postExplain_recommendation64 Sample.questions Sample.stations id
                (Sample64.body ["valueOf"]) "t" DiagnosticService64.initial Hids)
      as (_ & H & _).
    exact (H _ Hin).
Defined.

End Explain64.
